(** * SmartRead: content extraction and in-document anchoring

    A shallow embedding of the two [App] variants of the reader:
    - the direct-render variant ([src/App.tsx]), which extracts text blocks
      and renders them as paragraphs, and
    - the isolated-render variant (the second [App] component), which
      sanitizes, rewrites and mounts the fetched page in an [iframe].

    JavaScript strings are modelled as [string]; every character stands for
    one UTF-16 code unit (code units below 256 only).  The DOM is a rose
    tree of text and element nodes: the tree that selectors and
    [textContent] work on.  The contents of [template] elements, which lie
    outside that tree but are written by the serialization, are added in
    [Template].  The asynchronous handlers are split at their first
    [await]; [Busy] and [Session] interleave them. *)

From Stdlib Require Import List Ascii String Bool Arith ZArith Lia.
From Stdlib Require Import DecimalString DecimalNat FinFun.
Import ListNotations.
Set Warnings "-register-all,-abstract-large-number".
Open Scope list_scope.
Open Scope string_scope.

(* ===================================================================== *)
(** ** JavaScript string primitives used by the source *)
(* ===================================================================== *)

Module JS.

(** [WhiteSpace] and [LineTerminator] code units (below 256): TAB, LF, VT,
    FF, CR, SP and NBSP.  This is the set stripped by [String.prototype.trim]
    and matched by the regular-expression class [\s]. *)
Definition isWhite (c : ascii) : bool :=
  let n := nat_of_ascii c in
  existsb (Nat.eqb n) [9; 10; 11; 12; 13; 32; 160].

Fixpoint trimStart (s : string) : string :=
  match s with
  | String c r => if isWhite c then trimStart r else s
  | EmptyString => EmptyString
  end.

(** [trimEnd] scans from the right: a white character is dropped exactly
    when everything after it has been dropped. *)
Fixpoint trimEnd (s : string) : string :=
  match s with
  | String c r =>
      match trimEnd r with
      | EmptyString => if isWhite c then EmptyString else String c EmptyString
      | r' => String c r'
      end
  | EmptyString => EmptyString
  end.

(** [s.trim()] *)
Definition trim (s : string) : string := trimEnd (trimStart s).

(** [t.startsWith(a)] *)
Fixpoint startsWith (t a : string) {struct a} : bool :=
  match a, t with
  | EmptyString, _ => true
  | String x a', String y t' => Ascii.eqb x y && startsWith t' a'
  | String _ _, EmptyString => false
  end.

(** [t.includes(a)] *)
Fixpoint includes (t a : string) : bool :=
  startsWith t a ||
  match t with
  | String _ t' => includes t' a
  | EmptyString => false
  end.

(** Drop the first [n] code units ([s.substring(n)]). *)
Fixpoint drop (n : nat) (s : string) : string :=
  match n, s with
  | S n', String _ r => drop n' r
  | _, _ => s
  end.

(** Keep the first [n] code units ([s.substring(0, n)]). *)
Fixpoint take (n : nat) (s : string) : string :=
  match n, s with
  | S n', String c r => String c (take n' r)
  | _, _ => EmptyString
  end.

(** [parts.join(sep)] *)
Fixpoint join (sep : string) (parts : list string) : string :=
  match parts with
  | [] => EmptyString
  | [p] => p
  | p :: rest => p ++ sep ++ join sep rest
  end.

(** Truthiness of a string: the empty string is falsy. *)
Definition truthy (s : string) : bool :=
  match s with EmptyString => false | _ => true end.

Definition mem (x : string) (l : list string) : bool :=
  existsb (String.eqb x) l.

End JS.

(* ===================================================================== *)
(** ** The document tree *)
(* ===================================================================== *)

Module Dom.

Definition attr : Type := (string * string)%type.

(** A parsed document is a forest (the children of the [Document] node);
    tag and attribute names are the lower-case names the HTML parser
    produces.  The tree is the one that selectors, tree walkers and
    [textContent] work on: a [template] element is an element without
    children here, its contents are added in [Template]. *)
Inductive node : Type :=
| Text (data : string)
| Elem (tag : string) (attrs : list attr) (children : list node).

Definition Document : Type := list node.

(** Induction principle that also gives the hypothesis for the children. *)
Fixpoint node_rect' (P : node -> Type) (Q : list node -> Type)
  (HT : forall d, P (Text d))
  (HE : forall t a ch, Q ch -> P (Elem t a ch))
  (HN : Q [])
  (HC : forall n ns, P n -> Q ns -> Q (n :: ns))
  (n : node) : P n :=
  match n with
  | Text d => HT d
  | Elem t a ch =>
      HE t a ch
        ((fix go (l : list node) : Q l :=
            match l with
            | [] => HN
            | x :: xs => HC x xs (node_rect' P Q HT HE HN HC x) (go xs)
            end) ch)
  end.

Definition forest_rect' (P : node -> Type) (Q : list node -> Type)
  (HT : forall d, P (Text d))
  (HE : forall t a ch, Q ch -> P (Elem t a ch))
  (HN : Q [])
  (HC : forall n ns, P n -> Q ns -> Q (n :: ns)) : forall l, Q l :=
  fix go (l : list node) : Q l :=
    match l with
    | [] => HN
    | x :: xs => HC x xs (node_rect' P Q HT HE HN HC x) (go xs)
    end.

(** [getAttribute]: the value of the first attribute of that name. *)
Fixpoint getAttribute (name : string) (a : list attr) : option string :=
  match a with
  | [] => None
  | (k, v) :: r => if String.eqb k name then Some v else getAttribute name r
  end.

(** [setAttribute]: overwrite in place, or append when absent. *)
Fixpoint setAttribute (name value : string) (a : list attr) : list attr :=
  match a with
  | [] => [(name, value)]
  | (k, v) :: r =>
      if String.eqb k name then (k, value) :: r
      else (k, v) :: setAttribute name value r
  end.

(** [removeAttribute] *)
Fixpoint removeAttribute (name : string) (a : list attr) : list attr :=
  match a with
  | [] => []
  | (k, v) :: r =>
      if String.eqb k name then removeAttribute name r
      else (k, v) :: removeAttribute name r
  end.

(** [node.textContent]: the concatenated data of all text descendants. *)
Fixpoint textContent (n : node) : string :=
  match n with
  | Text d => d
  | Elem _ _ ch => String.concat "" (map textContent ch)
  end.

Definition textContents (ns : list node) : string :=
  String.concat "" (map textContent ns).

(** All elements of a subtree in document (pre-)order, the root included. *)
Fixpoint elements (n : node) : list node :=
  match n with
  | Text _ => []
  | Elem _ _ ch => n :: flat_map elements ch
  end.

Definition elementsOf (ns : list node) : list node := flat_map elements ns.

(** Proper descendants that are elements, in document order. *)
Definition descendants (n : node) : list node :=
  match n with
  | Text _ => []
  | Elem _ _ ch => elementsOf ch
  end.

Definition tagOf (n : node) : string :=
  match n with Elem t _ _ => t | Text _ => "#text" end.

Definition attrsOf (n : node) : list attr :=
  match n with Elem _ a _ => a | Text _ => [] end.

Definition childrenOf (n : node) : list node :=
  match n with Elem _ _ ch => ch | Text _ => [] end.

(** The tag names occurring anywhere in a forest. *)
Definition tagsOf (ns : list node) : list string := map tagOf (elementsOf ns).

(** A selector is a predicate on elements (tag and attributes). *)
Definition selector : Type := string -> list attr -> bool.

Definition matches (sel : selector) (n : node) : bool :=
  match n with Elem t a _ => sel t a | Text _ => false end.

(** Type selector, e.g. ['article']. *)
Definition byTag (t : string) : selector := fun t' _ => String.eqb t' t.

(** Selector list of type selectors, e.g. ['p, h1, h2']. *)
Definition byTags (ts : list string) : selector := fun t' _ => JS.mem t' ts.

(** [doc.querySelectorAll(sel)] and [el.querySelectorAll(sel)] *)
Definition querySelectorAllDoc (sel : selector) (d : Document) : list node :=
  filter (matches sel) (elementsOf d).

Definition querySelectorAll (sel : selector) (root : node) : list node :=
  filter (matches sel) (descendants root).

(** [doc.querySelector(sel)]: the first match in document order. *)
Definition querySelectorDoc (sel : selector) (d : Document) : option node :=
  hd_error (querySelectorAllDoc sel d).

(** [doc.querySelectorAll(sel).forEach(el => el.remove())]: every matching
    element is detached together with its subtree. *)
Fixpoint removeFrom (sel : selector) (n : node) : list node :=
  match n with
  | Text _ => [n]
  | Elem t a ch =>
      if sel t a then [] else [Elem t a (flat_map (removeFrom sel) ch)]
  end.

Definition removeAll (sel : selector) (d : Document) : Document :=
  flat_map (removeFrom sel) d.

End Dom.

(* ===================================================================== *)
(** ** Sanitizer *)
(* ===================================================================== *)

Module Sanitizer.
Import Dom.

(** Direct-render variant, [handleLoadArticle] step 1. *)
Definition irrelevantTags : list string :=
  ["script"; "style"; "noscript"; "iframe"; "svg"; "nav"; "footer";
   "header"; "aside"; "form"; "ads"; "button"].

Definition cleanUp (doc : Document) : Document :=
  fold_left (fun d tag => removeAll (byTag tag) d) irrelevantTags doc.

(** Isolated-render variant, [handleLoadArticle] step 1. *)
Definition sanitizedTags : list string := ["script"; "iframe"; "object"; "embed"].

Definition sanitize (doc : Document) : Document :=
  removeAll (byTags sanitizedTags) doc.

(** A page with a plug-in object inside a paragraph and an embed. *)
Definition pluginPage : Document :=
  [Elem "html" []
     [Elem "head" [] [];
      Elem "body" []
        [Elem "p" [] [Text "intro"; Elem "object" [("data", "x.swf")] []];
         Elem "embed" [("src", "y.swf")] []]]].

End Sanitizer.

(* ===================================================================== *)
(** ** HTML serialization ([innerHTML] / [outerHTML] getters) *)
(* ===================================================================== *)

Module Html.
Import Dom.

Definition quot : string := String (ascii_of_nat 34) "".
Definition nbsp : ascii := ascii_of_nat 160.
Definition LF : string := String (ascii_of_nat 10) "".

(** Escaping of text nodes in the HTML fragment serialization algorithm. *)
Fixpoint escapeText (s : string) : string :=
  match s with
  | EmptyString => EmptyString
  | String c r =>
      (if Ascii.eqb c "&" then "&amp;"
       else if Ascii.eqb c nbsp then "&nbsp;"
       else if Ascii.eqb c "<" then "&lt;"
       else if Ascii.eqb c ">" then "&gt;"
       else String c "") ++ escapeText r
  end.

(** Escaping of attribute values. *)
Fixpoint escapeAttr (s : string) : string :=
  match s with
  | EmptyString => EmptyString
  | String c r =>
      (if Ascii.eqb c "&" then "&amp;"
       else if Ascii.eqb c nbsp then "&nbsp;"
       else if Ascii.eqb c (ascii_of_nat 34) then "&quot;"
       else String c "") ++ escapeAttr r
  end.

Definition voidElements : list string :=
  ["area"; "base"; "br"; "col"; "embed"; "hr"; "img"; "input"; "link";
   "meta"; "source"; "track"; "wbr"].

(** Elements whose text children are serialized and parsed literally. *)
Definition rawTextElements : list string :=
  ["style"; "script"; "xmp"; "iframe"; "noembed"; "noframes"; "plaintext"].

(** Elements whose content is parsed as text with character references. *)
Definition rcdataElements : list string := ["textarea"; "title"].

Definition serializeAttrs (a : list attr) : string :=
  String.concat ""
    (map (fun kv => " " ++ fst kv ++ "=" ++ quot ++ escapeAttr (snd kv) ++ quot) a).

Fixpoint serializeNode (parent : string) (n : node) : string :=
  match n with
  | Text d => if JS.mem parent rawTextElements then d else escapeText d
  | Elem t a ch =>
      "<" ++ t ++ serializeAttrs a ++ ">" ++
      (if JS.mem t voidElements then ""
       else String.concat "" (map (serializeNode t) ch) ++ "</" ++ t ++ ">")
  end.

(** [el.innerHTML] (getter) *)
Definition innerHTML (t : string) (ch : list node) : string :=
  if JS.mem t voidElements then ""
  else String.concat "" (map (serializeNode t) ch).

(** [el.outerHTML] (getter) *)
Definition outerHTML (n : node) : string := serializeNode "" n.

End Html.

(* ===================================================================== *)
(** ** Results of fallible steps *)
(* ===================================================================== *)

(** A JavaScript [Error] value; only its [message] is ever read. *)
Inductive exn : Type := Error (message : string).

Definition message (e : exn) : string := match e with Error m => m end.

(** Either a value, or the exception thrown instead. *)
Inductive result (A : Type) : Type :=
| Ok (a : A)
| Throw (e : exn).
Arguments Ok {A} a.
Arguments Throw {A} e.

Definition bind {A B : Type} (r : result A) (k : A -> result B) : result B :=
  match r with
  | Ok a => k a
  | Throw e => Throw e
  end.

Notation "x <- r ;; k" := (bind r (fun x => k))
  (at level 61, r at next level, right associativity).

(** [a || b] on possibly-null references. *)
Definition orElse {A : Type} (a b : option A) : option A :=
  match a with Some _ => a | None => b end.

(* ===================================================================== *)
(** ** URL Rewriter (isolated-render variant) *)
(* ===================================================================== *)

Module Rewriter.
Import Dom.

Section WithURL.

(** [URL_href url base] stands for [new URL(url, base).href]; [None] when
    the constructor throws. *)
Variable URL_href : string -> string -> option string.

Variable baseUrl : string.

Definition toAbsolute (url : string) : string :=
  match URL_href url baseUrl with
  | Some href => href
  | None => url
  end.

(** [const v = el.getAttribute(name); if (v) el[name] = toAbsolute(v);] *)
Definition absolutize (name : string) (a : list attr) : list attr :=
  match getAttribute name a with
  | Some v => if JS.truthy v then setAttribute name (toAbsolute v) a else a
  | None => a
  end.

Definition rewriteImg (a : list attr) : list attr :=
  removeAttribute "srcset" (absolutize "src" a).

Definition rewriteLink (a : list attr) : list attr := absolutize "href" a.

Definition rewriteA (a : list attr) : list attr :=
  setAttribute "target" "_blank" (absolutize "href" a).

(** [doc.querySelectorAll(tag).forEach(el => ...)] where the callback only
    updates the attributes of [el]. *)
Fixpoint forEachTag (tag : string) (f : list attr -> list attr) (n : node) : node :=
  match n with
  | Text d => Text d
  | Elem t a ch =>
      Elem t (if String.eqb t tag then f a else a) (map (forEachTag tag f) ch)
  end.

Definition rewriteUrls (doc : Document) : Document :=
  let doc1 := map (forEachTag "img" rewriteImg) doc in
  let doc2 := map (forEachTag "link" rewriteLink) doc1 in
  map (forEachTag "a" rewriteA) doc2.

(** The attribute that carries the resource reference of an element. *)
Definition resourceAttribute (tag : string) : option string :=
  if String.eqb tag "img" then Some "src"
  else if String.eqb tag "link" then Some "href"
  else if String.eqb tag "a" then Some "href"
  else None.

(** The three passes seen from one element. *)
Definition rewriteAttrs (tag : string) (a : list attr) : list attr :=
  if String.eqb tag "img" then rewriteImg a
  else if String.eqb tag "link" then rewriteLink a
  else if String.eqb tag "a" then rewriteA a
  else a.

Fixpoint rewriteNode (n : node) : node :=
  match n with
  | Text d => Text d
  | Elem t a ch => Elem t (rewriteAttrs t a) (map rewriteNode ch)
  end.

(** The reference an element carries, when it has one that is rewritten. *)
Definition resourceUrl (n : node) : option string :=
  match resourceAttribute (tagOf n) with
  | Some name =>
      match getAttribute name (attrsOf n) with
      | Some v => if JS.truthy v then Some v else None
      | None => None
      end
  | None => None
  end.

Definition resourceUrls (doc : Document) : list string :=
  flat_map (fun n => match resourceUrl n with Some v => [v] | None => [] end)
           (elementsOf doc).

(** What a rewritten reference is: resolved when resolution succeeds, the
    original string otherwise; an empty reference is not touched. *)
Definition rewritten (v : string) : string :=
  if JS.truthy v then
    match URL_href v baseUrl with Some href => href | None => v end
  else v.

(** How an element and its rewritten image are related. *)
Definition rewrittenFrom (e e' : node) : Prop :=
  tagOf e' = tagOf e /\
  forall name, resourceAttribute (tagOf e) = Some name ->
               getAttribute name (attrsOf e') =
               option_map rewritten (getAttribute name (attrsOf e)).

End WithURL.

(** A document with one image, as in the scenario of the specification. *)
Definition logoPage (src : string) : Document :=
  [Elem "html" [] [Elem "head" [] []; Elem "body" [] [Elem "img" [("src", src)] []]]].

End Rewriter.

(* ===================================================================== *)
(** ** Text Extractor *)
(* ===================================================================== *)

Module Extractor.
Import Dom.

(** ASCII whitespace separating the tokens of a [class] attribute. *)
Definition isAsciiWhite (c : ascii) : bool :=
  existsb (Nat.eqb (nat_of_ascii c)) [9; 10; 12; 13; 32].

Definition consWord (w : string) (ws : list string) : list string :=
  match w with EmptyString => ws | _ => w :: ws end.

(** The word being read at the front of [s], and the words after it. *)
Fixpoint wordsFrom (s : string) : string * list string :=
  match s with
  | EmptyString => (EmptyString, [])
  | String c r =>
      let '(w, ws) := wordsFrom r in
      if isAsciiWhite c then (EmptyString, consWord w ws) else (String c w, ws)
  end.

Definition classList (v : string) : list string :=
  let '(w, ws) := wordsFrom v in consWord w ws.

(** Class selector ['.name'] and id selector ['#name']. *)
Definition byClass (c : string) : selector := fun _ a =>
  match getAttribute "class" a with
  | Some v => JS.mem c (classList v)
  | None => false
  end.

Definition byId (i : string) : selector := fun _ a =>
  match getAttribute "id" a with
  | Some v => String.eqb v i
  | None => false
  end.

(** [doc.documentElement], [doc.body] and [doc.head] *)
Definition documentElement (doc : Document) : option node :=
  find (fun n => match n with Elem _ _ _ => true | Text _ => false end) doc.

Definition body (doc : Document) : option node :=
  match documentElement doc with
  | Some (Elem "html" _ ch) =>
      find (fun n => String.eqb (tagOf n) "body" || String.eqb (tagOf n) "frameset") ch
  | _ => None
  end.

(** Reading a property of [null] throws a [TypeError]. *)
Definition nullDeref : exn := Error "Cannot read properties of null".

Definition blockTags : list string :=
  ["p"; "h1"; "h2"; "h3"; "h4"; "h5"; "h6"; "li"; "blockquote"].

(** *** Block-collection extractor (direct-render variant) *)

Definition ExtractionTooShort : exn :=
  Error "Extracted content is too short. The website might be using complex JavaScript rendering.".

Definition contentRoot (doc : Document) : option node :=
  orElse (querySelectorDoc (byTag "article") doc)
  (orElse (querySelectorDoc (byTag "main") doc)
  (orElse (querySelectorDoc (byClass "content") doc)
  (orElse (querySelectorDoc (byId "content") doc)
  (orElse (querySelectorDoc (byClass "post-body") doc)
          (body doc))))).

(** [.map(el => el.textContent?.trim() || "").filter(text => text.length > 40)] *)
Definition textBlocks (root : node) : list string :=
  filter (fun text => (40 <? String.length text)%nat)
    (map (fun el => JS.trim (textContent el)) (querySelectorAll (byTags blockTags) root)).

Definition joinBlocks (blocks : list string) : string :=
  JS.join (Html.LF ++ Html.LF) blocks.

(** The text the extraction yields, before the length floor is applied. *)
Definition extractedText (doc : Document) : result string :=
  match contentRoot doc with
  | Some root => Ok (joinBlocks (textBlocks root))
  | None => Throw nullDeref
  end.

Definition minimumLength : nat := 200.

Definition extract (doc : Document) : result string :=
  text <- extractedText doc ;;
  if (String.length text <? minimumLength)%nat then Throw ExtractionTooShort else Ok text.

(** *** Whole-region extractor (isolated-render variant) *)

Definition ExtractionTooShort' : exn :=
  Error "Could not extract meaningful text from this page.".

Definition contentRoot' (doc : Document) : option node :=
  orElse (querySelectorDoc (byTag "article") doc)
  (orElse (querySelectorDoc (byTag "main") doc)
  (orElse (querySelectorDoc (byClass "content") doc)
          (body doc))).

(** [s.replace(/\s+/g, ' ')]: every maximal run of white space becomes one
    space. *)
Fixpoint collapseWhite (s : string) : string :=
  match s with
  | EmptyString => EmptyString
  | String c r =>
      if JS.isWhite c then
        match r with
        | String c' _ => if JS.isWhite c' then collapseWhite r
                         else String " " (collapseWhite r)
        | EmptyString => " "
        end
      else String c (collapseWhite r)
  end.

Definition cleanText (doc : Document) : result string :=
  match contentRoot' doc with
  | Some root => Ok (JS.trim (collapseWhite (textContent root)))
  | None => Throw nullDeref
  end.

Definition minimumLength' : nat := 100.

Definition extract' (doc : Document) : result string :=
  text <- cleanText doc ;;
  if (String.length text <? minimumLength')%nat then Throw ExtractionTooShort' else Ok text.

(** The two extraction strategies under one name. *)
Inductive variant : Type := BlockCollection | WholeRegion.

Definition primaryText (v : variant) (doc : Document) : result string :=
  match v with
  | BlockCollection => extractedText doc
  | WholeRegion => cleanText doc
  end.

Definition extractor (v : variant) (doc : Document) : result string :=
  match v with
  | BlockCollection => extract doc
  | WholeRegion => extract' doc
  end.

Definition configuredMinimum (v : variant) : nat :=
  match v with
  | BlockCollection => minimumLength
  | WholeRegion => minimumLength'
  end.

Definition tooShort (v : variant) : exn :=
  match v with
  | BlockCollection => ExtractionTooShort
  | WholeRegion => ExtractionTooShort'
  end.

(** The scenario document of the specification, as the parser delivers it. *)
Definition helloArticle : node :=
  Elem "article" [] [Elem "p" [] [Text "Hello world. The sky is blue today."]].

Definition helloPage : Document :=
  [Elem "html" [] [Elem "head" [] []; Elem "body" [] [helloArticle]]].

End Extractor.

(* ===================================================================== *)
(** ** Shared types ([src/types.ts]) and collaborators *)
(* ===================================================================== *)

Module Types.

Record KeyPoint : Type := {
  id : string;
  title : string;
  description : string;
  quoteAnchor : string
}.

Record AnalysisResult : Type := {
  summary : string;
  keyPoints : list KeyPoint
}.

Record DictionaryResult : Type := {
  word : string;
  englishDefinition : string;
  chineseDefinition : string;
  contextExplanation : string
}.

Inductive Role : Type := user | model.

Record ChatMessage : Type := {
  msgId : string;
  role : Role;
  text : string;
  timestamp : N
}.

Inductive LoadingState : Type :=
| IDLE | ANALYZING | DEFINING | CHATTING | IMAGE_ANALYZING.

Definition LoadingState_eqb (a b : LoadingState) : bool :=
  match a, b with
  | IDLE, IDLE | ANALYZING, ANALYZING | DEFINING, DEFINING
  | CHATTING, CHATTING | IMAGE_ANALYZING, IMAGE_ANALYZING => true
  | _, _ => false
  end.

(** [{word, context}] captured by the context-menu handlers. *)
Record SelectedTextData : Type := {
  selWord : string;
  selContext : string
}.

Inductive Tab : Type := analysisTab | chatTab | imageTab.

(** What the handlers read from a [MouseEvent]. *)
Record MouseEvent : Type := { clientX : Z; clientY : Z }.

(** What the handlers read from a [Selection]: [toString()], and the
    [textContent] of [anchorNode.parentElement] ([None] for a missing anchor
    node, [Some None] for an anchor node without parent element). *)
Record Selection : Type := {
  toString : string;
  anchorNode : option (option string)
}.

(** The text of the element around the anchor node, or the empty string. *)
Definition parentText (sel : Selection) : string :=
  match anchorNode sel with
  | Some (Some t) => t
  | _ => ""
  end.

(** The outside world during one article load. *)
Record World : Type := {
  (** [data.contents] of the AllOrigins envelope; [None] when the request,
      [JSON.parse] or the property lookup fails. *)
  allOrigins : string -> option string;
  (** Body served by corsproxy.io, or the error of the request. *)
  corsProxy : string -> result string;
  (** [new DOMParser().parseFromString(html, 'text/html')] *)
  parseFromString : string -> Dom.Document;
  (** [analyzeArticle(text)] *)
  analyzeArticle : string -> result AnalysisResult;
  (** [new URL(url, base).href], [None] when it throws. *)
  URL_href : string -> string -> option string
}.

Definition RetrievedTooShort : exn :=
  Error "Retrieved content is empty or too short.".

(** The proxy strategy shared by both variants: primary proxy first, the
    fallback when the primary fails or has no contents. *)
Definition fetchHtml (w : World) (url : string) : result string :=
  html <- match allOrigins w url with
          | Some contents =>
              if JS.truthy contents then Ok contents else corsProxy w url
          | None => corsProxy w url
          end ;;
  if negb (JS.truthy html) || (String.length html <? 50)%nat
  then Throw RetrievedTooShort
  else Ok html.

End Types.

(* ===================================================================== *)
(** ** Direct-render variant ([src/App.tsx]) *)
(* ===================================================================== *)

Module Direct.
Import Dom Types.

Record State : Type := {
  urlInput : string;
  articleContent : string;
  activeTab : Tab;
  loadingState : LoadingState;
  analysis : option AnalysisResult;
  dictionary : option DictionaryResult;
  contextMenuPos : option (Z * Z);
  selectedTextData : option SelectedTextData;
  chatHistory : list ChatMessage;
  chatInput : string;
  selectedImage : option string;
  imagePrompt : string;
  imageAnalysisResult : string
}.

(** The initial values of the [useState] hooks. *)
Definition initialState : State :=
  {| urlInput := "https://example.com/blog-post"; articleContent := "";
     activeTab := analysisTab; loadingState := IDLE; analysis := None;
     dictionary := None; contextMenuPos := None; selectedTextData := None;
     chatHistory := []; chatInput := ""; selectedImage := None;
     imagePrompt := ""; imageAnalysisResult := "" |}.

Definition setUrlInput (v : string) (s : State) : State :=
  {| urlInput := v; articleContent := articleContent s; activeTab := activeTab s;
     loadingState := loadingState s; analysis := analysis s;
     dictionary := dictionary s; contextMenuPos := contextMenuPos s;
     selectedTextData := selectedTextData s; chatHistory := chatHistory s;
     chatInput := chatInput s; selectedImage := selectedImage s;
     imagePrompt := imagePrompt s; imageAnalysisResult := imageAnalysisResult s |}.

Definition setArticleContent (v : string) (s : State) : State :=
  {| urlInput := urlInput s; articleContent := v; activeTab := activeTab s;
     loadingState := loadingState s; analysis := analysis s;
     dictionary := dictionary s; contextMenuPos := contextMenuPos s;
     selectedTextData := selectedTextData s; chatHistory := chatHistory s;
     chatInput := chatInput s; selectedImage := selectedImage s;
     imagePrompt := imagePrompt s; imageAnalysisResult := imageAnalysisResult s |}.

Definition setActiveTab (v : Tab) (s : State) : State :=
  {| urlInput := urlInput s; articleContent := articleContent s; activeTab := v;
     loadingState := loadingState s; analysis := analysis s;
     dictionary := dictionary s; contextMenuPos := contextMenuPos s;
     selectedTextData := selectedTextData s; chatHistory := chatHistory s;
     chatInput := chatInput s; selectedImage := selectedImage s;
     imagePrompt := imagePrompt s; imageAnalysisResult := imageAnalysisResult s |}.

Definition setLoadingState (v : LoadingState) (s : State) : State :=
  {| urlInput := urlInput s; articleContent := articleContent s;
     activeTab := activeTab s; loadingState := v; analysis := analysis s;
     dictionary := dictionary s; contextMenuPos := contextMenuPos s;
     selectedTextData := selectedTextData s; chatHistory := chatHistory s;
     chatInput := chatInput s; selectedImage := selectedImage s;
     imagePrompt := imagePrompt s; imageAnalysisResult := imageAnalysisResult s |}.

Definition setAnalysis (v : option AnalysisResult) (s : State) : State :=
  {| urlInput := urlInput s; articleContent := articleContent s;
     activeTab := activeTab s; loadingState := loadingState s; analysis := v;
     dictionary := dictionary s; contextMenuPos := contextMenuPos s;
     selectedTextData := selectedTextData s; chatHistory := chatHistory s;
     chatInput := chatInput s; selectedImage := selectedImage s;
     imagePrompt := imagePrompt s; imageAnalysisResult := imageAnalysisResult s |}.

Definition setDictionary (v : option DictionaryResult) (s : State) : State :=
  {| urlInput := urlInput s; articleContent := articleContent s;
     activeTab := activeTab s; loadingState := loadingState s;
     analysis := analysis s; dictionary := v; contextMenuPos := contextMenuPos s;
     selectedTextData := selectedTextData s; chatHistory := chatHistory s;
     chatInput := chatInput s; selectedImage := selectedImage s;
     imagePrompt := imagePrompt s; imageAnalysisResult := imageAnalysisResult s |}.

Definition setContextMenuPos (v : option (Z * Z)) (s : State) : State :=
  {| urlInput := urlInput s; articleContent := articleContent s;
     activeTab := activeTab s; loadingState := loadingState s;
     analysis := analysis s; dictionary := dictionary s; contextMenuPos := v;
     selectedTextData := selectedTextData s; chatHistory := chatHistory s;
     chatInput := chatInput s; selectedImage := selectedImage s;
     imagePrompt := imagePrompt s; imageAnalysisResult := imageAnalysisResult s |}.

Definition setSelectedTextData (v : option SelectedTextData) (s : State) : State :=
  {| urlInput := urlInput s; articleContent := articleContent s;
     activeTab := activeTab s; loadingState := loadingState s;
     analysis := analysis s; dictionary := dictionary s;
     contextMenuPos := contextMenuPos s; selectedTextData := v;
     chatHistory := chatHistory s; chatInput := chatInput s;
     selectedImage := selectedImage s; imagePrompt := imagePrompt s;
     imageAnalysisResult := imageAnalysisResult s |}.

Definition setChatHistory (v : list ChatMessage) (s : State) : State :=
  {| urlInput := urlInput s; articleContent := articleContent s;
     activeTab := activeTab s; loadingState := loadingState s;
     analysis := analysis s; dictionary := dictionary s;
     contextMenuPos := contextMenuPos s; selectedTextData := selectedTextData s;
     chatHistory := v; chatInput := chatInput s;
     selectedImage := selectedImage s; imagePrompt := imagePrompt s;
     imageAnalysisResult := imageAnalysisResult s |}.

Definition setChatInput (v : string) (s : State) : State :=
  {| urlInput := urlInput s; articleContent := articleContent s;
     activeTab := activeTab s; loadingState := loadingState s;
     analysis := analysis s; dictionary := dictionary s;
     contextMenuPos := contextMenuPos s; selectedTextData := selectedTextData s;
     chatHistory := chatHistory s; chatInput := v;
     selectedImage := selectedImage s; imagePrompt := imagePrompt s;
     imageAnalysisResult := imageAnalysisResult s |}.

Definition setImageAnalysisResult (v : string) (s : State) : State :=
  {| urlInput := urlInput s; articleContent := articleContent s;
     activeTab := activeTab s; loadingState := loadingState s;
     analysis := analysis s; dictionary := dictionary s;
     contextMenuPos := contextMenuPos s; selectedTextData := selectedTextData s;
     chatHistory := chatHistory s; chatInput := chatInput s;
     selectedImage := selectedImage s; imagePrompt := imagePrompt s;
     imageAnalysisResult := v |}.

(** *** [handleLoadArticle] *)

(** The synchronous prefix, up to the first [fetch]; [None] is the early
    return on an empty URL input. *)
Definition clearArticle (s : State) : State :=
  setArticleContent ""
    (setChatHistory []
       (setAnalysis None
          (setLoadingState ANALYZING s))).

Definition beginLoad (s : State) : option State :=
  if negb (JS.truthy (urlInput s)) then None else Some (clearArticle s).

(** The body of the [try] block: the state it leaves, and the exception
    that ended it, if any. *)
Definition tryLoadOf (w : World) (url : string) (s : State) : State * option exn :=
  match fetchHtml w url with
  | Throw e => (s, Some e)
  | Ok htmlContent =>
      let doc := Sanitizer.cleanUp (parseFromString w htmlContent) in
      match Extractor.extract doc with
      | Throw e => (s, Some e)
      | Ok extractedText =>
          let s1 := setArticleContent extractedText s in
          match analyzeArticle w extractedText with
          | Throw e => (s1, Some e)
          | Ok result => (setAnalysis (Some result) s1, None)
          end
      end
  end.

Definition failureNotice (e : exn) : string :=
  "Unable to automatically extract content from this URL." ++ Html.LF ++ Html.LF
  ++ "Error details: " ++ message e ++ Html.LF ++ Html.LF
  ++ "Most websites block automated access, or the content is rendered dynamically with JavaScript which cannot be parsed by this simple reader.".

(** The rest of the handler with [catch] and [finally]; [url] is the URL
    input the invocation has captured. *)
Definition finishLoadOf (w : World) (url : string) (s : State) : State :=
  let '(s1, thrown) := tryLoadOf w url s in
  let s2 := match thrown with
            | Some e => setArticleContent (failureNotice e) s1
            | None => s1
            end in
  setLoadingState IDLE s2.

Definition finishLoad (w : World) (s : State) : State :=
  finishLoadOf w (urlInput s) s.

(** The handler from the click to its end, for an invocation during whose
    requests no other handler runs: the rest starts from the state the
    synchronous prefix has left.  The component does not disable anything
    while a load is under way; how other handlers interleave with it is
    the subject of [Busy]. *)
Definition handleLoadArticle (w : World) (s : State) : State :=
  match beginLoad s with
  | Some s1 => finishLoad w s1
  | None => s
  end.

(** *** [handleContextMenu]

    The result pairs the new state with [e.defaultPrevented]. *)
Definition handleContextMenu (e : MouseEvent) (selection : option Selection)
  (s : State) : State * bool :=
  let prevented := true in
  match selection with
  | None => (setContextMenuPos None s, prevented)
  | Some sel =>
      if (String.length (JS.trim (toString sel)) =? 0)%nat
      then (setContextMenuPos None s, prevented)
      else
        let word := JS.trim (toString sel) in
        let context := match anchorNode sel with
                       | Some (Some t) => t
                       | _ => ""
                       end in
        (setContextMenuPos (Some (clientX e, clientY e))
           (setSelectedTextData (Some {| selWord := word; selContext := context |}) s),
         prevented)
  end.

End Direct.

(* ===================================================================== *)
(** ** Isolated-render variant (the [iframe] based [App]) *)
(* ===================================================================== *)

Module Iframe.
Import Dom Types.

Record State : Type := {
  urlInput : string;
  articleText : string;
  iframeHtml : string;
  activeTab : Tab;
  loadingState : LoadingState;
  analysis : option AnalysisResult;
  dictionary : option DictionaryResult;
  contextMenuPos : option (Z * Z);
  selectedTextData : option SelectedTextData;
  chatHistory : list ChatMessage;
  chatInput : string;
  selectedImage : option string;
  imagePrompt : string;
  imageAnalysisResult : string
}.

(** The initial values of the [useState] hooks. *)
Definition initialState : State :=
  {| urlInput := "https://example.com/blog-post"; articleText := "";
     iframeHtml := ""; activeTab := analysisTab; loadingState := IDLE;
     analysis := None; dictionary := None; contextMenuPos := None;
     selectedTextData := None; chatHistory := []; chatInput := "";
     selectedImage := None; imagePrompt := ""; imageAnalysisResult := "" |}.

Definition setUrlInput (v : string) (s : State) : State :=
  {| urlInput := v; articleText := articleText s; iframeHtml := iframeHtml s;
     activeTab := activeTab s; loadingState := loadingState s;
     analysis := analysis s; dictionary := dictionary s;
     contextMenuPos := contextMenuPos s; selectedTextData := selectedTextData s;
     chatHistory := chatHistory s; chatInput := chatInput s;
     selectedImage := selectedImage s; imagePrompt := imagePrompt s;
     imageAnalysisResult := imageAnalysisResult s |}.

Definition setArticleText (v : string) (s : State) : State :=
  {| urlInput := urlInput s; articleText := v; iframeHtml := iframeHtml s;
     activeTab := activeTab s; loadingState := loadingState s;
     analysis := analysis s; dictionary := dictionary s;
     contextMenuPos := contextMenuPos s; selectedTextData := selectedTextData s;
     chatHistory := chatHistory s; chatInput := chatInput s;
     selectedImage := selectedImage s; imagePrompt := imagePrompt s;
     imageAnalysisResult := imageAnalysisResult s |}.

Definition setIframeHtml (v : string) (s : State) : State :=
  {| urlInput := urlInput s; articleText := articleText s; iframeHtml := v;
     activeTab := activeTab s; loadingState := loadingState s;
     analysis := analysis s; dictionary := dictionary s;
     contextMenuPos := contextMenuPos s; selectedTextData := selectedTextData s;
     chatHistory := chatHistory s; chatInput := chatInput s;
     selectedImage := selectedImage s; imagePrompt := imagePrompt s;
     imageAnalysisResult := imageAnalysisResult s |}.

Definition setLoadingState (v : LoadingState) (s : State) : State :=
  {| urlInput := urlInput s; articleText := articleText s;
     iframeHtml := iframeHtml s; activeTab := activeTab s; loadingState := v;
     analysis := analysis s; dictionary := dictionary s;
     contextMenuPos := contextMenuPos s; selectedTextData := selectedTextData s;
     chatHistory := chatHistory s; chatInput := chatInput s;
     selectedImage := selectedImage s; imagePrompt := imagePrompt s;
     imageAnalysisResult := imageAnalysisResult s |}.

Definition setAnalysis (v : option AnalysisResult) (s : State) : State :=
  {| urlInput := urlInput s; articleText := articleText s;
     iframeHtml := iframeHtml s; activeTab := activeTab s;
     loadingState := loadingState s; analysis := v; dictionary := dictionary s;
     contextMenuPos := contextMenuPos s; selectedTextData := selectedTextData s;
     chatHistory := chatHistory s; chatInput := chatInput s;
     selectedImage := selectedImage s; imagePrompt := imagePrompt s;
     imageAnalysisResult := imageAnalysisResult s |}.

Definition setDictionary (v : option DictionaryResult) (s : State) : State :=
  {| urlInput := urlInput s; articleText := articleText s;
     iframeHtml := iframeHtml s; activeTab := activeTab s;
     loadingState := loadingState s; analysis := analysis s; dictionary := v;
     contextMenuPos := contextMenuPos s; selectedTextData := selectedTextData s;
     chatHistory := chatHistory s; chatInput := chatInput s;
     selectedImage := selectedImage s; imagePrompt := imagePrompt s;
     imageAnalysisResult := imageAnalysisResult s |}.

Definition setContextMenuPos (v : option (Z * Z)) (s : State) : State :=
  {| urlInput := urlInput s; articleText := articleText s;
     iframeHtml := iframeHtml s; activeTab := activeTab s;
     loadingState := loadingState s; analysis := analysis s;
     dictionary := dictionary s; contextMenuPos := v;
     selectedTextData := selectedTextData s; chatHistory := chatHistory s;
     chatInput := chatInput s; selectedImage := selectedImage s;
     imagePrompt := imagePrompt s; imageAnalysisResult := imageAnalysisResult s |}.

Definition setSelectedTextData (v : option SelectedTextData) (s : State) : State :=
  {| urlInput := urlInput s; articleText := articleText s;
     iframeHtml := iframeHtml s; activeTab := activeTab s;
     loadingState := loadingState s; analysis := analysis s;
     dictionary := dictionary s; contextMenuPos := contextMenuPos s;
     selectedTextData := v; chatHistory := chatHistory s;
     chatInput := chatInput s; selectedImage := selectedImage s;
     imagePrompt := imagePrompt s; imageAnalysisResult := imageAnalysisResult s |}.

Definition setChatHistory (v : list ChatMessage) (s : State) : State :=
  {| urlInput := urlInput s; articleText := articleText s;
     iframeHtml := iframeHtml s; activeTab := activeTab s;
     loadingState := loadingState s; analysis := analysis s;
     dictionary := dictionary s; contextMenuPos := contextMenuPos s;
     selectedTextData := selectedTextData s; chatHistory := v;
     chatInput := chatInput s; selectedImage := selectedImage s;
     imagePrompt := imagePrompt s; imageAnalysisResult := imageAnalysisResult s |}.

(** *** Style Injector *)

Definition highlightCss : string :=
  Html.LF
  ++ "        .smartread-highlight { background-color: #fef08a !important; color: #000 !important; transition: background-color 1s; border-radius: 2px; }" ++ Html.LF
  ++ "        body { cursor: default; }" ++ Html.LF
  ++ "        /* Hide common nuisance elements like cookie banners or ads */" ++ Html.LF
  ++ "        #onetrust-banner-sdk, .ads, .ad-container, [id*=" ++ Html.quot ++ "cookie" ++ Html.quot
  ++ "], [class*=" ++ Html.quot ++ "popup" ++ Html.quot ++ "] { display: none !important; }" ++ Html.LF
  ++ "      ".

Definition styleElement : node := Elem "style" [] [Text highlightCss].

(** Apply [f] to the first node satisfying [p]; [None] when there is none. *)
Fixpoint updateFirst (p : node -> bool) (f : node -> node) (l : list node)
  : option (list node) :=
  match l with
  | [] => None
  | n :: r =>
      if p n then Some (f n :: r)
      else option_map (cons n) (updateFirst p f r)
  end.

Definition isElement (n : node) : bool :=
  match n with Elem _ _ _ => true | Text _ => false end.

Definition appendChild (child : node) (n : node) : node :=
  match n with
  | Elem t a ch => Elem t a (ch ++ [child])%list
  | Text d => Text d
  end.

(** [doc.head.appendChild(style)]; [doc.head] is the first [head] child of
    the [html] root element, a missing one makes the access throw. *)
Definition injectStyle (doc : Document) : result Document :=
  match Extractor.documentElement doc with
  | Some (Elem "html" a ch) =>
      match updateFirst (fun n => String.eqb (tagOf n) "head")
                        (appendChild styleElement) ch with
      | Some ch' =>
          match updateFirst isElement (fun _ => Elem "html" a ch') doc with
          | Some doc' => Ok doc'
          | None => Throw Extractor.nullDeref
          end
      | None => Throw Extractor.nullDeref
      end
  | _ => Throw Extractor.nullDeref
  end.

(** [doc.documentElement.outerHTML], for a document without [template]
    contents; [Template.documentHtml] writes them as well. *)
Definition documentHtml (doc : Document) : result string :=
  match Extractor.documentElement doc with
  | Some root => Ok (Html.outerHTML root)
  | None => Throw Extractor.nullDeref
  end.

(** *** [handleLoadArticle] *)

Definition clearArticle (s : State) : State :=
  setDictionary None
    (setIframeHtml ""
       (setArticleText ""
          (setChatHistory []
             (setAnalysis None
                (setLoadingState ANALYZING s))))).

Definition beginLoad (s : State) : option State :=
  if negb (JS.truthy (urlInput s)) then None else Some (clearArticle s).

(** Steps 1 to 3: sanitize, rewrite, inject the style block. *)
Definition renderable (w : World) (base : string) (rawHtml : string)
  : result Document :=
  let doc := Sanitizer.sanitize (parseFromString w rawHtml) in
  let doc := Rewriter.rewriteUrls (URL_href w) base doc in
  injectStyle doc.

Definition tryLoad (w : World) (s : State) : State * option exn :=
  match fetchHtml w (urlInput s) with
  | Throw e => (s, Some e)
  | Ok rawHtml =>
      match renderable w (urlInput s) rawHtml with
      | Throw e => (s, Some e)
      | Ok doc =>
          match documentHtml doc with
          | Throw e => (s, Some e)
          | Ok html =>
              let s1 := setIframeHtml html s in
              match Extractor.extract' doc with
              | Throw e => (s1, Some e)
              | Ok cleanText =>
                  let s2 := setArticleText cleanText s1 in
                  match analyzeArticle w cleanText with
                  | Throw e => (s2, Some e)
                  | Ok result => (setAnalysis (Some result) s2, None)
                  end
              end
          end
      end
  end.

Definition failureNotice (e : exn) : string :=
  "<div style=" ++ Html.quot
  ++ "padding: 20px; font-family: sans-serif; text-align: center; color: #666;"
  ++ Html.quot ++ ">" ++ Html.LF
  ++ "        <h2>Oops! Could not load website.</h2>" ++ Html.LF
  ++ "        <p>" ++ message e ++ "</p>" ++ Html.LF
  ++ "        <p>Some websites block proxy access. Try a simpler blog URL.</p>" ++ Html.LF
  ++ "      </div>".

Definition finishLoad (w : World) (s : State) : State :=
  let '(s1, thrown) := tryLoad w s in
  let s2 := match thrown with
            | Some e => setIframeHtml (failureNotice e) s1
            | None => s1
            end in
  setLoadingState IDLE s2.

(** The handler from the click to its end, for an invocation during whose
    requests no other handler runs. *)
Definition handleLoadArticle (w : World) (s : State) : State :=
  match beginLoad s with
  | Some s1 => finishLoad w s1
  | None => s
  end.

(** *** [handleIframeContextMenu]

    [iframeRect] is the [(left, top)] corner of the frame in the host
    window. *)
Definition contextLimit : nat := 200.

Definition truncateContext (context : string) : string :=
  if (contextLimit <? String.length context)%nat
  then JS.take contextLimit context ++ "..."
  else context.

Definition handleIframeContextMenu (iframeRect : Z * Z) (e : MouseEvent)
  (selection : option Selection) (s : State) : State * bool :=
  let prevented := true in
  let word := option_map (fun sel => JS.trim (toString sel)) selection in
  match selection, word with
  | Some sel, Some word =>
      if JS.truthy word && (0 <? String.length word)%nat then
        let context := match anchorNode sel with
                       | Some parentElement =>
                           truncateContext
                             match parentElement with
                             | Some t => t
                             | None => ""
                             end
                       | None => ""
                       end in
        let x := (fst iframeRect + clientX e)%Z in
        let y := (snd iframeRect + clientY e)%Z in
        (setContextMenuPos (Some (x, y))
           (setSelectedTextData (Some {| selWord := word; selContext := context |}) s),
         prevented)
      else (setContextMenuPos None s, prevented)
  | _, _ => (setContextMenuPos None s, prevented)
  end.

End Iframe.

(* ===================================================================== *)
(** ** A reference model of [new URL(url, base).href] *)
(* ===================================================================== *)

(** The rewriter is verified against an arbitrary resolver.  This module
    gives one concrete resolver to run the scenarios with: reference
    resolution for hierarchical URLs [scheme://authority/path?query#fragment]
    (scheme and host lower-cased, dot segments removed, an empty path
    replaced by [/]); URLs with a scheme but no authority are kept as they
    are.  Percent-encoding, default ports and backslashes are not
    modelled. *)

Module URL.

Record t : Type := {
  scheme : string;
  authority : string;
  path : string;
  query : option string;
  fragment : option string
}.

Definition isAlpha (c : ascii) : bool :=
  let n := nat_of_ascii c in
  ((65 <=? n) && (n <=? 90) || (97 <=? n) && (n <=? 122))%nat.

Definition isDigit (c : ascii) : bool :=
  let n := nat_of_ascii c in ((48 <=? n) && (n <=? 57))%nat.

Definition isSchemeChar (c : ascii) : bool :=
  isAlpha c || isDigit c || Ascii.eqb c "+" || Ascii.eqb c "-" || Ascii.eqb c ".".

Definition lower (c : ascii) : ascii :=
  let n := nat_of_ascii c in
  if ((65 <=? n) && (n <=? 90))%nat then ascii_of_nat (n + 32) else c.

Fixpoint lowerAll (s : string) : string :=
  match s with
  | EmptyString => EmptyString
  | String c r => String (lower c) (lowerAll r)
  end.

(** Split in front of the first character satisfying [p]. *)
Fixpoint splitWhen (p : ascii -> bool) (s : string) : string * string :=
  match s with
  | EmptyString => (EmptyString, EmptyString)
  | String c r =>
      if p c then (EmptyString, s)
      else let '(a, b) := splitWhen p r in (String c a, b)
  end.

(** [s.split(c)] for a one-character separator. *)
Fixpoint splitOn (c : ascii) (s : string) : list string :=
  match s with
  | EmptyString => [EmptyString]
  | String x r =>
      if Ascii.eqb x c then EmptyString :: splitOn c r
      else match splitOn c r with
           | h :: t => String x h :: t
           | [] => [String x EmptyString]
           end
  end.

Fixpoint schemeRest (s : string) : option (string * string) :=
  match s with
  | EmptyString => None
  | String c r =>
      if Ascii.eqb c ":" then Some (EmptyString, r)
      else if isSchemeChar c then
        match schemeRest r with
        | Some (a, b) => Some (String (lower c) a, b)
        | None => None
        end
      else None
  end.

(** The scheme of an absolute URL string and what follows the colon. *)
Definition splitScheme (s : string) : option (string * string) :=
  match s with
  | String c _ => if isAlpha c then schemeRest s else None
  | EmptyString => None
  end.

Definition isOneOf (cs : string) (c : ascii) : bool :=
  existsb (Ascii.eqb c) (list_ascii_of_string cs).

(** Path, query and fragment of the part after the authority. *)
Definition parseTail (s : string) : string * option string * option string :=
  let '(p, rest) := splitWhen (isOneOf "?#") s in
  match rest with
  | String "?" r =>
      let '(q, rest') := splitWhen (isOneOf "#") r in
      (p, Some q, match rest' with String _ f => Some f | EmptyString => None end)
  | String _ f => (p, None, Some f)
  | EmptyString => (p, None, None)
  end.

(** Code points that may not occur in a host. *)
Definition forbiddenHost (c : ascii) : bool :=
  (nat_of_ascii c <=? 32)%nat || isOneOf "<>^|\[]%" c.

Definition validAuthority (a : string) : bool :=
  JS.truthy a && negb (existsb forbiddenHost (list_ascii_of_string a)).

Fixpoint normSegments (stack segs : list string) : list string :=
  match segs with
  | [] => rev stack
  | [s] =>
      if String.eqb s "." then rev (EmptyString :: stack)
      else if String.eqb s ".." then rev (EmptyString :: tl stack)
      else rev (s :: stack)
  | s :: r =>
      if String.eqb s "." then normSegments stack r
      else if String.eqb s ".." then normSegments (tl stack) r
      else normSegments (s :: stack) r
  end.

Definition removeDotSegments (p : string) : string :=
  "/" ++ JS.join "/" (normSegments [] (tl (splitOn "/" p))).

Definition normalPath (p : string) : string :=
  match p with
  | EmptyString => "/"
  | _ => removeDotSegments p
  end.

Definition serialize (u : t) : string :=
  scheme u ++ "://" ++ lowerAll (authority u) ++ normalPath (path u)
  ++ match query u with Some q => "?" ++ q | None => "" end
  ++ match fragment u with Some f => "#" ++ f | None => "" end.

(** An absolute URL with an authority; [None] when the host is invalid. *)
Definition parseHierarchical (sch rest : string) : option t :=
  let '(auth, tail) := splitWhen (isOneOf "/?#") (JS.drop 2 rest) in
  if validAuthority auth then
    let '(p, q, f) := parseTail tail in
    Some {| scheme := sch; authority := auth; path := p; query := q; fragment := f |}
  else None.

(** The directory part of a path, up to and including its last slash. *)
Fixpoint dirname (p : string) : string :=
  match p with
  | EmptyString => EmptyString
  | String c r =>
      if JS.includes r "/" then String c (dirname r)
      else if Ascii.eqb c "/" then "/" else EmptyString
  end.

Definition relativeTo (b : t) (ref : string) : t :=
  let '(p, q, f) := parseTail ref in
  match p with
  | EmptyString =>
      {| scheme := scheme b; authority := authority b; path := path b;
         query := match q with Some _ => q | None => query b end; fragment := f |}
  | String "/" _ =>
      {| scheme := scheme b; authority := authority b; path := p;
         query := q; fragment := f |}
  | _ =>
      {| scheme := scheme b; authority := authority b;
         path := dirname (normalPath (path b)) ++ p; query := q; fragment := f |}
  end.

Definition isC0OrSpace (c : ascii) : bool := (nat_of_ascii c <=? 32)%nat.

Fixpoint stripStart (s : string) : string :=
  match s with
  | String c r => if isC0OrSpace c then stripStart r else s
  | EmptyString => EmptyString
  end.

Fixpoint stripEnd (s : string) : string :=
  match s with
  | String c r =>
      match stripEnd r with
      | EmptyString => if isC0OrSpace c then EmptyString else String c EmptyString
      | r' => String c r'
      end
  | EmptyString => EmptyString
  end.

Definition parseBase (base : string) : option t :=
  match splitScheme (stripEnd (stripStart base)) with
  | Some (sch, rest) =>
      if JS.startsWith rest "//" then parseHierarchical sch rest else None
  | None => None
  end.

Definition href (url base : string) : option string :=
  let url := stripEnd (stripStart url) in
  match splitScheme url with
  | Some (sch, rest) =>
      if JS.startsWith rest "//"
      then option_map serialize (parseHierarchical sch rest)
      else Some (sch ++ ":" ++ rest)
  | None =>
      match parseBase base with
      | Some b =>
          if JS.startsWith url "//"
          then option_map serialize (parseHierarchical (scheme b) url)
          else Some (serialize (relativeTo b url))
      | None => None
      end
  end.

End URL.

(* ===================================================================== *)
(** ** Sample pages, worlds and states *)
(* ===================================================================== *)

Module Examples.
Import Dom Types.

Definition skyParagraph : string :=
  "The sky is blue today because air molecules scatter the short blue wavelengths of sunlight far more strongly than the long red ones, so blue light reaches the eye from every direction of the sky while the sun itself looks slightly yellow.".

Definition skyPage : Document :=
  [Elem "html" []
     [Elem "head" [] [Elem "script" [("src", "/track.js")] []];
      Elem "body" []
        [Elem "article" []
           [Elem "p" [] [Text skyParagraph];
            Elem "img" [("src", "/logo.png"); ("srcset", "/logo2x.png 2x")] [];
            Elem "a" [("href", "next")] [Text "Next"]]]]].

Definition skyAnalysis : AnalysisResult :=
  {| summary := "Why the sky is blue.";
     keyPoints := [{| id := "kp-0"; title := "Scattering";
                      description := "Blue light is scattered most.";
                      quoteAnchor := "sky is blue" |}] |}.

(** Every request fails. *)
Definition offline : World :=
  {| allOrigins := fun _ => None;
     corsProxy := fun _ => Throw (Error "Failed to fetch");
     parseFromString := fun _ => [];
     analyzeArticle := fun _ => Throw (Error "API Key is missing");
     URL_href := URL.href |}.

(** The primary proxy serves a page that parses to [skyPage]. *)
Definition online : World :=
  {| allOrigins := fun _ => Some ("<html><head></head><body><article><p>" ++ skyParagraph ++ "</p></article></body></html>");
     corsProxy := fun _ => Throw (Error "Failed to fetch");
     parseFromString := fun _ => skyPage;
     analyzeArticle := fun _ => Ok skyAnalysis;
     URL_href := URL.href |}.

Definition oldMessage : ChatMessage :=
  {| msgId := "1700000000000"; role := user; text := "What is this about?";
     timestamp := 1700000000000%N |}.

Definition oldDefinition : DictionaryResult :=
  {| word := "scatter"; englishDefinition := "to spread"; chineseDefinition := "-";
     contextExplanation := "light is spread by air" |}.

(** A session in which an earlier article is on screen. *)
Definition readingDirect (url : string) : Direct.State :=
  {| Direct.urlInput := url; Direct.articleContent := "An earlier article.";
     Direct.activeTab := analysisTab; Direct.loadingState := IDLE;
     Direct.analysis := Some skyAnalysis; Direct.dictionary := Some oldDefinition;
     Direct.contextMenuPos := Some (10, 20)%Z;
     Direct.selectedTextData := Some {| selWord := "earlier"; selContext := "An earlier article." |};
     Direct.chatHistory := [oldMessage]; Direct.chatInput := "";
     Direct.selectedImage := None; Direct.imagePrompt := "";
     Direct.imageAnalysisResult := "" |}.

Definition readingIframe (url : string) : Iframe.State :=
  {| Iframe.urlInput := url; Iframe.articleText := "An earlier article.";
     Iframe.iframeHtml := "<html><head></head><body><p>An earlier article.</p></body></html>";
     Iframe.activeTab := analysisTab; Iframe.loadingState := IDLE;
     Iframe.analysis := Some skyAnalysis; Iframe.dictionary := Some oldDefinition;
     Iframe.contextMenuPos := Some (10, 20)%Z;
     Iframe.selectedTextData := Some {| selWord := "earlier"; selContext := "An earlier article." |};
     Iframe.chatHistory := [oldMessage]; Iframe.chatInput := "";
     Iframe.selectedImage := None; Iframe.imagePrompt := "";
     Iframe.imageAnalysisResult := "" |}.

End Examples.

(* ===================================================================== *)
(** ** The busy/idle bookkeeping of the host *)
(* ===================================================================== *)

(** The asynchronous handlers are split at their first [await]: the
    synchronous prefix runs when the trigger arrives, the rest when the
    collaborator settles.  Written for the direct-render [App]; the handlers
    and the markup that gates them are the same in the other variant. *)

Module Busy.
Import Types Direct.

Definition setSelectedImage (v : option string) (s : State) : State :=
  {| urlInput := urlInput s; articleContent := articleContent s;
     activeTab := activeTab s; loadingState := loadingState s;
     analysis := analysis s; dictionary := dictionary s;
     contextMenuPos := contextMenuPos s; selectedTextData := selectedTextData s;
     chatHistory := chatHistory s; chatInput := chatInput s;
     selectedImage := v; imagePrompt := imagePrompt s;
     imageAnalysisResult := imageAnalysisResult s |}.

Definition setImagePrompt (v : string) (s : State) : State :=
  {| urlInput := urlInput s; articleContent := articleContent s;
     activeTab := activeTab s; loadingState := loadingState s;
     analysis := analysis s; dictionary := dictionary s;
     contextMenuPos := contextMenuPos s; selectedTextData := selectedTextData s;
     chatHistory := chatHistory s; chatInput := chatInput s;
     selectedImage := selectedImage s; imagePrompt := v;
     imageAnalysisResult := imageAnalysisResult s |}.

(** The classes of long-running actions. *)
Inductive Task : Type :=
| LoadTask (url : string)
| AnalyzeTask
| DefineTask
| ChatTask
| ImageTask.

Definition sameClass (a b : Task) : bool :=
  match a, b with
  | LoadTask _, LoadTask _ | AnalyzeTask, AnalyzeTask | DefineTask, DefineTask
  | ChatTask, ChatTask | ImageTask, ImageTask => true
  | _, _ => false
  end.

(** The host: the component state, the requests in flight, and the
    [alert]s raised so far. *)
Record System : Type := {
  ui : State;
  inFlight : list Task;
  alerts : list string
}.

Definition initialSystem : System :=
  {| ui := initialState; inFlight := []; alerts := [] |}.

(** [Date.now().toString()] *)
Definition decimal (n : N) : string := NilEmpty.string_of_uint (N.to_uint n).

(** *** Synchronous prefixes of the handlers; [None] is an early return *)

Definition beginManualAnalyze (s : State) : option State :=
  if negb (JS.truthy (articleContent s)) then None
  else Some (setLoadingState ANALYZING s).

Definition beginSendMessage (now : N) (s : State) : option State :=
  if negb (JS.truthy (JS.trim (chatInput s))) then None
  else
    let userMsg := {| msgId := decimal now; role := user; text := chatInput s;
                      timestamp := now |} in
    let newHistory := (chatHistory s ++ [userMsg])%list in
    Some (setLoadingState CHATTING (setChatInput "" (setChatHistory newHistory s))).

Definition beginAnalyzeImage (s : State) : option State :=
  match selectedImage s with
  | None => None
  | Some _ => Some (setLoadingState IMAGE_ANALYZING s)
  end.

(** [handleDefineWord] closes the menu before its guard. *)
Definition beginDefineWord (s : State) : State * bool :=
  let s1 := setContextMenuPos None s in
  match selectedTextData s1 with
  | None => (s1, false)
  | Some _ => (setLoadingState DEFINING s1, true)
  end.

(** *** The rest of the handlers, run when the collaborator settles *)

Definition finishManualAnalyze (r : result AnalysisResult) (sys : System) : System :=
  match r with
  | Ok res => {| ui := setLoadingState IDLE (setAnalysis (Some res) (ui sys));
                 inFlight := inFlight sys; alerts := alerts sys |}
  | Throw _ => {| ui := setLoadingState IDLE (ui sys); inFlight := inFlight sys;
                  alerts := (alerts sys ++ ["Failed to analyze."])%list |}
  end.

Definition finishDefineWord (r : result DictionaryResult) (s : State) : State :=
  match r with
  | Ok res => setLoadingState IDLE (setDictionary (Some res) s)
  | Throw _ => setLoadingState IDLE s
  end.

Definition finishSendMessage (now : N) (r : result string) (s : State) : State :=
  match r with
  | Ok responseText =>
      let botMsg := {| msgId := decimal (now + 1); role := model;
                       text := responseText; timestamp := now |} in
      setLoadingState IDLE (setChatHistory (chatHistory s ++ [botMsg])%list s)
  | Throw _ => setLoadingState IDLE s
  end.

Definition finishAnalyzeImage (r : result string) (s : State) : State :=
  match r with
  | Ok res => setLoadingState IDLE (setImageAnalysisResult res s)
  | Throw _ => setLoadingState IDLE s
  end.

(** *** What the user and the collaborators can do *)

Inductive Event : Type :=
| TypeUrl (v : string)
| ClickLoad
| ClickTab (t : Tab)
| ClickAnalyze
| TypeChat (v : string)
| ClickSend (now : N)
| PressEnter (now : N)
| ChooseImage (data : string)
| TypePrompt (v : string)
| ClickAnalyzeImage
| ClickDefine
| LoadSettled (url : string) (w : World)
| AnalyzeSettled (r : result AnalysisResult)
| DefineSettled (r : result DictionaryResult)
| ChatSettled (now : N) (r : result string)
| ImageSettled (r : result string).

Definition Tab_eqb (a b : Tab) : bool :=
  match a, b with
  | analysisTab, analysisTab | chatTab, chatTab | imageTab, imageTab => true
  | _, _ => false
  end.

Definition isSome {A : Type} (o : option A) : bool :=
  match o with Some _ => true | None => false end.

(** Whether the control behind a user event is rendered and not disabled
    in the markup returned for state [s]. *)
Definition available (ev : Event) (s : State) : bool :=
  match ev with
  | TypeUrl _ | ClickLoad | ClickTab _ => true
  | ClickAnalyze =>
      Tab_eqb (activeTab s) analysisTab && JS.truthy (articleContent s)
      && negb (isSome (analysis s))
      && negb (LoadingState_eqb (loadingState s) ANALYZING)
  | TypeChat _ | PressEnter _ => Tab_eqb (activeTab s) chatTab
  | ClickSend _ =>
      Tab_eqb (activeTab s) chatTab
      && negb (LoadingState_eqb (loadingState s) CHATTING)
  | ChooseImage _ => Tab_eqb (activeTab s) imageTab
  | TypePrompt _ => Tab_eqb (activeTab s) imageTab && isSome (selectedImage s)
  | ClickAnalyzeImage =>
      Tab_eqb (activeTab s) imageTab && isSome (selectedImage s)
      && negb (LoadingState_eqb (loadingState s) IMAGE_ANALYZING)
  | ClickDefine => isSome (contextMenuPos s)
  | LoadSettled _ _ | AnalyzeSettled _ | DefineSettled _ | ChatSettled _ _
  | ImageSettled _ => true
  end.

(** Remove one task of the class of [t]; [None] when none is in flight. *)
Fixpoint settleOne (t : Task) (l : list Task) : option (list Task) :=
  match l with
  | [] => None
  | x :: r =>
      if sameClass t x then Some r
      else option_map (cons x) (settleOne t r)
  end.

Definition started (t : Task) (begun : option State) (sys : System) : System :=
  match begun with
  | Some s => {| ui := s; inFlight := (inFlight sys ++ [t])%list; alerts := alerts sys |}
  | None => sys
  end.

(** Every click bubbles to the root element, whose [onClick] closes the
    custom context menu. *)
Definition bubble (sys : System) : System :=
  {| ui := setContextMenuPos None (ui sys); inFlight := inFlight sys;
     alerts := alerts sys |}.

Definition withUi (f : State -> State) (sys : System) : System :=
  {| ui := f (ui sys); inFlight := inFlight sys; alerts := alerts sys |}.

Definition settled (t : Task) (f : System -> System) (sys : System) : System :=
  match settleOne t (inFlight sys) with
  | Some rest =>
      f {| ui := ui sys; inFlight := rest; alerts := alerts sys |}
  | None => sys
  end.

Definition step (ev : Event) (sys : System) : System :=
  if negb (available ev (ui sys)) then sys
  else
    let s := ui sys in
    match ev with
    | TypeUrl v => withUi (setUrlInput v) sys
    | ClickLoad => bubble (started (LoadTask (urlInput s)) (beginLoad s) sys)
    | ClickTab t => bubble (withUi (setActiveTab t) sys)
    | ClickAnalyze => bubble (started AnalyzeTask (beginManualAnalyze s) sys)
    | TypeChat v => withUi (setChatInput v) sys
    | ClickSend now => bubble (started ChatTask (beginSendMessage now s) sys)
    | PressEnter now => started ChatTask (beginSendMessage now s) sys
    | ChooseImage data =>
        withUi (fun s => setImageAnalysisResult "" (setSelectedImage (Some data) s)) sys
    | TypePrompt v => withUi (setImagePrompt v) sys
    | ClickAnalyzeImage => bubble (started ImageTask (beginAnalyzeImage s) sys)
    | ClickDefine =>
        let '(s1, go) := beginDefineWord s in
        bubble (started DefineTask (if go then Some s1 else None)
                  (withUi (fun _ => s1) sys))
    | LoadSettled url w => settled (LoadTask url) (withUi (finishLoadOf w url)) sys
    | AnalyzeSettled r => settled AnalyzeTask (finishManualAnalyze r) sys
    | DefineSettled r => settled DefineTask (withUi (finishDefineWord r)) sys
    | ChatSettled now r => settled ChatTask (withUi (finishSendMessage now r)) sys
    | ImageSettled r => settled ImageTask (withUi (finishAnalyzeImage r)) sys
    end.

Definition run (evs : list Event) (sys : System) : System :=
  fold_left (fun acc ev => step ev acc) evs sys.

(** How many requests of the class of [t] are in flight. *)
Definition inFlightOf (t : Task) (sys : System) : nat :=
  List.length (filter (sameClass t) (inFlight sys)).

(** The busy value that disables, or hides, the button of a trigger. *)
Definition gatedBy (ev : Event) : option LoadingState :=
  match ev with
  | ClickSend _ => Some CHATTING
  | ClickAnalyzeImage => Some IMAGE_ANALYZING
  | ClickAnalyze => Some ANALYZING
  | _ => None
  end.

(** A session that sends a chat message, starts an image analysis, and
    sends a second chat message, with button clicks only. *)
Definition chatImageChat : list Event :=
  [ClickTab chatTab; TypeChat "What is this about?"; ClickSend 1000;
   ClickTab imageTab; ChooseImage "data:image/png;base64,AAAA"; ClickAnalyzeImage;
   ClickTab chatTab; TypeChat "And why?"; ClickSend 2000].

End Busy.

(* ===================================================================== *)
(** ** String search and replacement *)
(* ===================================================================== *)

Module Str.

(** The text before and after the first occurrence of [pat] in [s]. *)
Fixpoint findFirst (pat s : string) : option (string * string) :=
  if JS.startsWith s pat then Some (EmptyString, JS.drop (String.length pat) s)
  else match s with
       | EmptyString => None
       | String c r =>
           match findFirst pat r with
           | Some (a, b) => Some (String c a, b)
           | None => None
           end
       end.

(** [GetSubstitution] for a string pattern (no capture groups): [$$] is a
    dollar sign, [$&] the match, [$`] the text before it, [$'] the text
    after it; anything else is literal. *)
Fixpoint expand (template before matched after : string) : string :=
  match template with
  | EmptyString => EmptyString
  | String c r =>
      if Ascii.eqb c "$" then
        match r with
        | String d r' =>
            if Ascii.eqb d "$" then String "$" (expand r' before matched after)
            else if Ascii.eqb d "&" then matched ++ expand r' before matched after
            else if Ascii.eqb d "`" then before ++ expand r' before matched after
            else if Ascii.eqb d "'" then after ++ expand r' before matched after
            else String c (expand r before matched after)
        | EmptyString => String c EmptyString
        end
      else String c (expand r before matched after)
  end.

(** [s.replace(pat, template)] with a string pattern: the first occurrence
    only. *)
Definition replace (pat template s : string) : string :=
  match findFirst pat s with
  | Some (before, after) => before ++ expand template before pat after ++ after
  | None => s
  end.

(** [s.split(sep)] for a non-empty separator; [skip] counts the characters
    of a separator occurrence still to be passed over. *)
Fixpoint splitFrom (sep : string) (skip : nat) (s : string) : list string :=
  match s with
  | EmptyString => [EmptyString]
  | String c r =>
      match skip with
      | S k => splitFrom sep k r
      | O =>
          if JS.startsWith s sep
          then EmptyString :: splitFrom sep (String.length sep - 1) r
          else match splitFrom sep 0 r with
               | h :: t => String c h :: t
               | [] => [String c EmptyString]
               end
      end
  end.

Fixpoint chars (s : string) : list string :=
  match s with
  | EmptyString => []
  | String c r => String c EmptyString :: chars r
  end.

(** [s.split(sep)]; an empty separator splits between all code units. *)
Definition split (sep s : string) : list string :=
  match sep with
  | EmptyString => chars s
  | _ => splitFrom sep 0 s
  end.

(** No character of [s] satisfies [p]. *)
Fixpoint free (p : ascii -> bool) (s : string) : bool :=
  match s with
  | EmptyString => true
  | String c r => negb (p c) && free p r
  end.



End Str.

(* ===================================================================== *)
(** ** HTML fragment parsing ([innerHTML] setter) *)
(* ===================================================================== *)

(** A model of the tokenizer and tree builder, enough for markup made of
    text, character references, start tags with attributes and end tags.
    Not modelled: implied end tags and the other tree-correction rules,
    comments and doctypes (skipped), numeric character references and named
    ones other than amp, lt, gt, quot and nbsp, raw-text elements nested
    inside the fragment. *)

Module Parser.
Import Dom.

Inductive token : Type :=
| TChars (s : string)
| TStart (name : string) (attrs : list attr) (selfClosing : bool)
| TEnd (name : string).

(** Decoding of character references, read from the left: where a
    reference starts, its decoded character replaces it and the decoding of
    the rest continues after the reference. *)
Fixpoint unescape (s : string) : string :=
  match s with
  | EmptyString => EmptyString
  | String c r =>
      let u := unescape r in
      if Ascii.eqb c "&" then
        if JS.startsWith r "amp;" then String "&" (JS.drop 4 u)
        else if JS.startsWith r "lt;" then String "<" (JS.drop 3 u)
        else if JS.startsWith r "gt;" then String ">" (JS.drop 3 u)
        else if JS.startsWith r "quot;" then String (ascii_of_nat 34) (JS.drop 5 u)
        else if JS.startsWith r "nbsp;" then String Html.nbsp (JS.drop 5 u)
        else String c u
      else String c u
  end.

(** The tag being read. *)
Record tag : Type := {
  isEnd : bool;
  name : string;
  attrs : list attr
}.

Inductive state : Type :=
| Data (text : string)
| TagOpen (text : string)
| EndTagOpen (text : string)
| TagName (t : tag)
| BeforeAttrName (t : tag)
| AttrName (t : tag) (aname : string)
| AfterAttrName (t : tag) (aname : string)
| BeforeAttrValue (t : tag) (aname : string)
| AttrValueQuoted (q : ascii) (t : tag) (aname avalue : string)
| AttrValueUnquoted (t : tag) (aname avalue : string)
| AfterAttrValue (t : tag)
| SelfClosing (t : tag)
| Bogus.

Definition isSpace (c : ascii) : bool := Extractor.isAsciiWhite c.

Definition snoc (s : string) (c : ascii) : string := s ++ String c EmptyString.

Definition chars (text : string) : list token :=
  match text with EmptyString => [] | _ => [TChars text] end.

(** A finished attribute; a repeated name is dropped. *)
Definition addAttr (t : tag) (aname avalue : string) : tag :=
  {| isEnd := isEnd t; name := name t;
     attrs := match getAttribute aname (attrs t) with
              | Some _ => attrs t
              | None => (attrs t ++ [(aname, unescape avalue)])%list
              end |}.

Definition emit (t : tag) (selfClosing : bool) : list token :=
  if isEnd t then [TEnd (name t)] else [TStart (name t) (attrs t) selfClosing].

Definition dataStep (text : string) (c : ascii) : state * list token :=
  if Ascii.eqb c "<" then (TagOpen text, []) else (Data (snoc text c), []).

Definition beforeAttrNameStep (t : tag) (c : ascii) : state * list token :=
  if isSpace c then (BeforeAttrName t, [])
  else if Ascii.eqb c "/" then (SelfClosing t, [])
  else if Ascii.eqb c ">" then (Data "", emit t false)
  else (AttrName t (String (URL.lower c) ""), []).

Definition step (st : state) (c : ascii) : state * list token :=
  match st with
  | Data text => dataStep text c
  | TagOpen text =>
      if Ascii.eqb c "/" then (EndTagOpen text, [])
      else if URL.isAlpha c
      then (TagName {| isEnd := false; name := String (URL.lower c) ""; attrs := [] |},
            chars text)
      else if Ascii.eqb c "!" || Ascii.eqb c "?" then (Bogus, chars text)
      else dataStep (snoc text "<") c
  | EndTagOpen text =>
      if URL.isAlpha c
      then (TagName {| isEnd := true; name := String (URL.lower c) ""; attrs := [] |},
            chars text)
      else if Ascii.eqb c ">" then (Data text, [])
      else (Bogus, chars text)
  | TagName t =>
      if isSpace c then (BeforeAttrName t, [])
      else if Ascii.eqb c "/" then (SelfClosing t, [])
      else if Ascii.eqb c ">" then (Data "", emit t false)
      else (TagName {| isEnd := isEnd t; name := snoc (name t) (URL.lower c);
                       attrs := attrs t |}, [])
  | BeforeAttrName t => beforeAttrNameStep t c
  | AttrName t aname =>
      if isSpace c then (AfterAttrName t aname, [])
      else if Ascii.eqb c "/" then (SelfClosing (addAttr t aname ""), [])
      else if Ascii.eqb c ">" then (Data "", emit (addAttr t aname "") false)
      else if Ascii.eqb c "=" then (BeforeAttrValue t aname, [])
      else (AttrName t (snoc aname (URL.lower c)), [])
  | AfterAttrName t aname =>
      if isSpace c then (AfterAttrName t aname, [])
      else if Ascii.eqb c "/" then (SelfClosing (addAttr t aname ""), [])
      else if Ascii.eqb c "=" then (BeforeAttrValue t aname, [])
      else if Ascii.eqb c ">" then (Data "", emit (addAttr t aname "") false)
      else (AttrName (addAttr t aname "") (String (URL.lower c) ""), [])
  | BeforeAttrValue t aname =>
      if isSpace c then (BeforeAttrValue t aname, [])
      else if Ascii.eqb c (ascii_of_nat 34) || Ascii.eqb c "'"
      then (AttrValueQuoted c t aname "", [])
      else if Ascii.eqb c ">" then (Data "", emit (addAttr t aname "") false)
      else (AttrValueUnquoted t aname (String c ""), [])
  | AttrValueQuoted q t aname avalue =>
      if Ascii.eqb c q then (AfterAttrValue (addAttr t aname avalue), [])
      else (AttrValueQuoted q t aname (snoc avalue c), [])
  | AttrValueUnquoted t aname avalue =>
      if isSpace c then (BeforeAttrName (addAttr t aname avalue), [])
      else if Ascii.eqb c ">" then (Data "", emit (addAttr t aname avalue) false)
      else (AttrValueUnquoted t aname (snoc avalue c), [])
  | AfterAttrValue t => beforeAttrNameStep t c
  | SelfClosing t =>
      if Ascii.eqb c ">" then (Data "", emit t true)
      else beforeAttrNameStep t c
  | Bogus =>
      if Ascii.eqb c ">" then (Data "", []) else (Bogus, [])
  end.

(** What is left to emit at the end of the input; an unfinished tag is
    dropped. *)
Definition flush (st : state) : list token :=
  match st with
  | Data text => chars text
  | TagOpen text => chars (snoc text "<")
  | EndTagOpen text => chars (text ++ "</")
  | _ => []
  end.

Fixpoint tokenizeFrom (st : state) (s : string) : list token :=
  match s with
  | EmptyString => flush st
  | String c r =>
      let '(st', out) := step st c in (out ++ tokenizeFrom st' r)%list
  end.

Definition tokenize (s : string) : list token := tokenizeFrom (Data "") s.

(** The tokenizer run over a piece of input: the state reached and the
    tokens emitted on the way. *)
Fixpoint run (st : state) (s : string) : state * list token :=
  match s with
  | EmptyString => (st, [])
  | String c r =>
      let '(st1, out1) := step st c in
      let '(st2, out2) := run st1 r in
      (st2, (out1 ++ out2)%list)
  end.

(** *** Tree construction *)

(** An open element and the children it has so far. *)
Record frame : Type := {
  ftag : string;
  fattrs : list attr;
  fkids : list node
}.

(** Text is merged into a preceding text sibling. *)
Fixpoint appendText (d : string) (kids : list node) : list node :=
  match kids with
  | [] => [Text d]
  | [Text d0] => [Text (d0 ++ d)]
  | k :: r => k :: appendText d r
  end.

Definition appendNode (n : node) (kids : list node) : list node :=
  match n with
  | Text EmptyString => kids
  | Text d => appendText d kids
  | Elem _ _ _ => (kids ++ [n])%list
  end.

(** The open elements, innermost first, and the children of the root. *)
Definition insert (n : node) (stack : list frame) (root : list node)
  : list frame * list node :=
  match stack with
  | f :: rest =>
      ({| ftag := ftag f; fattrs := fattrs f; fkids := appendNode n (fkids f) |} :: rest,
       root)
  | [] => ([], appendNode n root)
  end.

(** An open element is closed with the child handed up from the element
    that was closed inside it, if any. *)
Definition adopt (child : option node) (kids : list node) : list node :=
  match child with
  | Some n => appendNode n kids
  | None => kids
  end.

Definition close (child : option node) (f : frame) : node :=
  Elem (ftag f) (fattrs f) (adopt child (fkids f)).

(** Pop the open elements up to and including the innermost [name]. *)
Fixpoint closeUpTo (name : string) (child : option node) (stack : list frame)
  (root : list node) : list frame * list node :=
  match stack with
  | [] => ([], adopt child root)
  | f :: rest =>
      if String.eqb (ftag f) name then insert (close child f) rest root
      else closeUpTo name (Some (close child f)) rest root
  end.

Definition isOpen (name : string) (stack : list frame) : bool :=
  existsb (fun f => String.eqb (ftag f) name) stack.

Fixpoint closeAll (child : option node) (stack : list frame) (root : list node)
  : list node :=
  match stack with
  | [] => adopt child root
  | f :: rest => closeAll (Some (close child f)) rest root
  end.

Fixpoint build (tokens : list token) (stack : list frame) (root : list node)
  : list node :=
  match tokens with
  | [] => closeAll None stack root
  | TChars s :: r =>
      let '(stack', root') := insert (Text (unescape s)) stack root in
      build r stack' root'
  | TStart name attrs _ :: r =>
      if JS.mem name Html.voidElements then
        let '(stack', root') := insert (Elem name attrs []) stack root in
        build r stack' root'
      else build r ({| ftag := name; fattrs := attrs; fkids := [] |} :: stack) root
  | TEnd name :: r =>
      if isOpen name stack then
        let '(stack', root') := closeUpTo name None stack root in
        build r stack' root'
      else build r stack root
  end.

Definition textChild (d : string) : list node :=
  match d with EmptyString => [] | _ => [Text d] end.

(** [el.innerHTML = html] for an element with tag [context]: the new
    children of the element. *)
Definition parseFragment (context html : string) : list node :=
  if JS.mem context Html.rawTextElements then textChild html
  else if JS.mem context Html.rcdataElements then textChild (unescape html)
  else build (tokenize html) [] [].

End Parser.

(* ===================================================================== *)
(** ** Anchor Locator, direct-render variant *)
(* ===================================================================== *)

Module DirectAnchor.
Import Dom Types.

(** The [p] elements under [articleRef] in document order, each given by
    its children.  The surrounding markup is fixed by the component and is
    never touched by the locator. *)
Definition Paragraphs : Type := list (list node).

(** What React renders for a string child. *)
Definition textChild (d : string) : list node := Parser.textChild d.

(** The paragraphs of the reader pane for state [s]: the placeholder or one
    paragraph per non-blank line of the article, followed by the three
    paragraphs of the dictionary popup. *)
Definition renderParagraphs (s : Direct.State) : Paragraphs :=
  ((if JS.truthy (Direct.articleContent s)
    then map textChild
           (filter (fun para => JS.truthy (JS.trim para))
                   (Str.split Html.LF (Direct.articleContent s)))
    else [textChild "Enter a URL to load the article.";
          textChild "Right-click words for definitions."])
   ++ match Direct.dictionary s with
      | Some d => [textChild (englishDefinition d); textChild (chineseDefinition d);
                   textChild (contextExplanation d)]
      | None => []
      end)%list.

Definition highlightSpan (cleanAnchor : string) : string :=
  "<span class=" ++ Html.quot ++ "bg-yellow-200 transition-colors duration-1000"
  ++ Html.quot ++ ">" ++ cleanAnchor ++ "</span>".

(** The [setTimeout] callback waiting to run: the paragraph it captured
    and the markup it will put back. *)
Record Pending : Type := {
  target : nat;
  originalHTML : string
}.

Inductive Outcome : Type :=
| Located (paragraphs : Paragraphs) (scrolledTo : nat) (timer : Pending)
| NotFound (alert : string).

(** The body of the loop for the paragraph [p]. *)
Definition highlight (cleanAnchor : string) (p : list node) : list node :=
  let parts := Str.split cleanAnchor (Html.innerHTML "p" p) in
  if (1 <? List.length parts)%nat
  then Parser.parseFragment "p" (JS.join (highlightSpan cleanAnchor) parts)
  else p.

Fixpoint scan (cleanAnchor : string) (seen rest : Paragraphs) : Outcome :=
  match rest with
  | [] => NotFound "Could not find exact text match for anchor."
  | p :: r =>
      if JS.includes (textContents p) cleanAnchor then
        Located (seen ++ highlight cleanAnchor p :: r)%list (List.length seen)
                {| target := List.length seen;
                   originalHTML := Html.innerHTML "p" p |}
      else scan cleanAnchor (seen ++ [p])%list r
  end.

Definition handleScrollToQuote (anchor : string) (ps : Paragraphs) : Outcome :=
  scan (JS.trim anchor) [] ps.

Fixpoint setNth (k : nat) (p : list node) (ps : Paragraphs) : Paragraphs :=
  match ps, k with
  | [], _ => []
  | _ :: r, O => p :: r
  | q :: r, S k' => q :: setNth k' p r
  end.

(** The timer callback, 3000 ms later: [p.innerHTML = originalHTML]. *)
Definition fire (t : Pending) (ps : Paragraphs) : Paragraphs :=
  setNth (target t) (Parser.parseFragment "p" (originalHTML t)) ps.

Definition highlightDelay : nat := 3000.

End DirectAnchor.

(* ===================================================================== *)
(** ** Anchor Locator, isolated-render variant *)
(* ===================================================================== *)

Module IframeAnchor.
Import Dom Types.

(** The way from a node up to the root element: the element around it, the
    siblings to its left and right, and the way up from that element. *)
Inductive ctx : Type :=
| Top
| Down (tag : string) (attrs : list attr) (left : list node) (up : ctx)
       (right : list node).

Fixpoint plug (c : ctx) (n : node) : node :=
  match c with
  | Top => n
  | Down t a l up r => plug up (Elem t a (l ++ n :: r)%list)
  end.

(** What the handler reaches through [iframeRef]: the root element of the
    mounted document ([None] while no frame is mounted) and the native
    [window.find], where the browser has one. *)
Record Window : Type := {
  document : option node;
  find : option (string -> bool)
}.

(** [doc.body] with its place in the document. *)
Fixpoint bodyAmong (a : list attr) (left rest : list node) : option (ctx * node) :=
  match rest with
  | [] => None
  | n :: r =>
      if String.eqb (tagOf n) "body" || String.eqb (tagOf n) "frameset"
      then Some (Down "html" a left Top r, n)
      else bodyAmong a (left ++ [n])%list r
  end.

Definition bodyOf (root : node) : option (ctx * node) :=
  match root with
  | Elem t a ch => if String.eqb t "html" then bodyAmong a [] ch else None
  | Text _ => None
  end.

Section FirstChild.

Context {A : Type}.

(** What is looked for in a child, given the siblings to its left and
    right. *)
Variable visit : list node -> list node -> node -> option A.

(** The children are tried from left to right. *)
Fixpoint firstChild (left rest : list node) : option A :=
  match rest with
  | [] => None
  | x :: r =>
      match visit left r x with
      | Some found => Some found
      | None => firstChild (left ++ [x])%list r
      end
  end.

End FirstChild.

(** The loop over [walker.nextNode()]: the first text node, in document
    order, whose data includes the anchor. *)
Fixpoint findText (a : string) (c : ctx) (n : node) : option (ctx * string) :=
  match n with
  | Text d => if JS.includes d a then Some (c, d) else None
  | Elem t at_ ch =>
      firstChild (fun left r x => findText a (Down t at_ left c r) x) [] ch
  end.

(** [doc.getElementById(id)]: the first element, in document order, with
    that id. *)
Fixpoint findById (id : string) (c : ctx) (n : node) : option (ctx * node) :=
  match n with
  | Text _ => None
  | Elem t at_ ch =>
      if Extractor.byId id t at_ then Some (c, n)
      else firstChild (fun left r x => findById id (Down t at_ left c r) x) [] ch
  end.

Definition getElementById (id : string) (root : node) : option (ctx * node) :=
  findById id Top root.

Definition highlightSpan (cleanAnchor : string) : string :=
  "<span class=" ++ Html.quot ++ "smartread-highlight" ++ Html.quot
  ++ " id=" ++ Html.quot ++ "temp-highlight" ++ Html.quot ++ ">"
  ++ cleanAnchor ++ "</span>".


Definition spanAttrs : list attr :=
  [("class", "smartread-highlight"); ("id", "temp-highlight")].

Inductive Outcome : Type :=
| Ignored
| Fault (e : exn)
| Highlighted (root : node) (highlightEl : option (ctx * node))
| NativeMatch
| Alerted (alert : string)
| Silent.

(** The [else] branch: the native search. *)
Definition fallback (win : Window) (cleanAnchor : string) : Outcome :=
  match find win with
  | Some nativeFind =>
      if nativeFind cleanAnchor then NativeMatch
      else Alerted "Could not find the exact text in the article view."
  | None => Silent
  end.

Definition handleScrollToQuote (win : Window) (anchor : string) : Outcome :=
  match document win with
  | None => Ignored
  | Some root =>
      if negb (JS.truthy anchor) then Ignored
      else
        let cleanAnchor := JS.trim anchor in
        if negb (JS.truthy cleanAnchor) then Ignored
        else
          match bodyOf root with
          | None => Fault Extractor.nullDeref
          | Some (bc, body) =>
              match findText cleanAnchor bc body with
              | Some (Down t a l up r, d) =>
                  let kids := (l ++ Text d :: r)%list in
                  let html := Str.replace cleanAnchor (highlightSpan cleanAnchor)
                                (Html.innerHTML t kids) in
                  let root1 := plug up (Elem t a (Parser.parseFragment t html)) in
                  Highlighted root1 (getElementById "temp-highlight" root1)
              | _ => fallback win cleanAnchor
              end
          end
  end.

(** The timer callback, 3000 ms later: the highlight element, if there is
    one with a parent element, is replaced by a text node holding the
    anchor. *)
Definition fire (cleanAnchor : string) (highlightEl : option (ctx * node))
  (root : node) : node :=
  match highlightEl with
  | Some (Down t a l up r, _) => plug (Down t a l up r) (Text cleanAnchor)
  | _ => root
  end.

Definition highlightDelay : nat := 3000.

(** The data of the text nodes of a subtree, in document order. *)
Fixpoint textNodes (n : node) : list string :=
  match n with
  | Text d => [d]
  | Elem _ _ ch => flat_map textNodes ch
  end.



(** The text of the mounted document once the timer of a highlight has
    run; [None] when the handler did not highlight. *)
Definition textAfterHighlight (win : Window) (anchor : string) : option string :=
  match handleScrollToQuote win anchor with
  | Highlighted root highlightEl =>
      Some (textContent (fire (JS.trim anchor) highlightEl root))
  | _ => None
  end.


(** A mounted page with one paragraph. *)
Definition page' (kids : list node) : node :=
  Elem "html" []
    [Elem "head" [] [];
     Elem "body" [] [Elem "article" [] [Elem "p" [] kids]]].

Definition page (text : string) : node := page' [Text text].

Definition browser (text : string) : Window :=
  {| document := Some (page text); find := Some (fun _ => false) |}.



End IframeAnchor.

(* ===================================================================== *)
(** ** The model service ([services/geminiService.ts]) *)
(* ===================================================================== *)

Module GeminiService.

(** A value delivered by [JSON.parse]; the properties of an object are kept
    in enumeration order.  Numbers are never inspected and are kept as
    their literal. *)
Inductive json : Type :=
| JNull
| JBool (b : bool)
| JNumber (literal : string)
| JString (s : string)
| JArray (items : list json)
| JObject (props : list (string * json)).

(** [o[key]] on the own properties of an object. *)
Fixpoint getProp (key : string) (props : list (string * json)) : option json :=
  match props with
  | [] => None
  | (k, v) :: r => if String.eqb k key then Some v else getProp key r
  end.

(** [o[key] = value]: an existing property keeps its place, a new one is
    added last. *)
Fixpoint setProp (key : string) (value : json) (props : list (string * json))
  : list (string * json) :=
  match props with
  | [] => [(key, value)]
  | (k, v) :: r =>
      if String.eqb k key then (k, value) :: r
      else (k, v) :: setProp key value r
  end.

(** The decimal digits of an array index, as a template literal prints
    it. *)
Definition decimal (n : nat) : string := NilEmpty.string_of_uint (Nat.to_uint n).

Fixpoint indexed {A : Type} (idx : nat) (l : list A) : list (string * A) :=
  match l with
  | [] => []
  | x :: r => (decimal idx, x) :: indexed (S idx) r
  end.

(** The own enumerable properties copied by [{...v}]. *)
Definition spread (v : json) : list (string * json) :=
  match v with
  | JObject props => props
  | JArray items => indexed 0 items
  | JString s => indexed 0 (map JString (Str.chars s))
  | JNull | JBool _ | JNumber _ => []
  end.

Inductive SchemaType : Type := OBJECT | STRING | ARRAY.

Inductive Schema : Type :=
| MkSchema (type : SchemaType) (description : option string)
           (properties : list (string * Schema)) (items : option Schema)
           (required : list string).

Inductive Part : Type :=
| InlineData (mimeType data : string)
| TextPart (text : string).

Inductive Contents : Type :=
| Prompt (text : string)
| Parts (parts : list Part).

Record Config : Type := {
  responseMimeType : string;
  responseSchema : Schema
}.

(** The argument of [ai.models.generateContent]. *)
Record Request : Type := {
  model : string;
  contents : Contents;
  config : option Config
}.

Definition MODEL_NAME : string := "gemini-3-pro-preview".

Definition stringField (description : string) : Schema :=
  MkSchema STRING (Some description) [] None [].

Definition analysisSchema : Schema :=
  MkSchema OBJECT None
    [("summary", stringField "A concise summary of the article in 2-3 sentences.");
     ("keyPoints",
      MkSchema ARRAY
        (Some "A list of 5-8 most important pieces of information or arguments from the text.")
        []
        (Some (MkSchema OBJECT None
           [("title", stringField "A short, catchy headline for this point.");
            ("description", stringField "A brief explanation of the point.");
            ("quoteAnchor", stringField "A unique, verbatim, EXACT text snippet (5-10 words) strictly copied from the article text. Do not change punctuation or capitalization. This anchor must be found in the text to allow scrolling to it.")]
           None ["title"; "description"; "quoteAnchor"]))
        [])]
    None ["summary"; "keyPoints"].

Definition dictionarySchema : Schema :=
  MkSchema OBJECT None
    [("word", MkSchema STRING None [] None []);
     ("englishDefinition", stringField "Definition in English.");
     ("chineseDefinition", stringField "Definition in Traditional Chinese (Taiwan/HK style).");
     ("contextExplanation", stringField "Explanation of how the word is specifically used in the provided context sentence.")]
    None ["word"; "englishDefinition"; "chineseDefinition"; "contextExplanation"].

Definition jsonConfig (schema : Schema) : option Config :=
  Some {| responseMimeType := "application/json"; responseSchema := schema |}.

(** [response.text || fallback]: the text may be missing or empty. *)
Definition textOr (fallback : string) (response : option string) : string :=
  match response with
  | Some t => if JS.truthy t then t else fallback
  | None => fallback
  end.

Definition analysisRequest (text : string) : Request :=
  {| model := MODEL_NAME;
     contents := Prompt ("Analyze the following article text. Provide a summary and key points. For the 'quoteAnchor', you MUST select a unique string of text that exists EXACTLY in the source text below. "
                         ++ Html.LF ++ Html.LF ++ "Text:" ++ Html.LF ++ text);
     config := jsonConfig analysisSchema |}.

(** [`kp-${idx}`] *)
Definition idAt (idx : nat) : json := JString ("kp-" ++ decimal idx).

(** [(kp, idx) => ({ ...kp, id: `kp-${idx}` })] *)
Definition withId (idx : nat) (kp : json) : json :=
  JObject (setProp "id" (idAt idx) (spread kp)).

(** [items.map(f)] with the index passed to the callback. *)
Fixpoint mapFrom {A B : Type} (f : nat -> A -> B) (idx : nat) (l : list A) : list B :=
  match l with
  | [] => []
  | x :: r => f idx x :: mapFrom f (S idx) r
  end.

Definition AnalysisFailed : exn := Error "Failed to analyze article.".

(** The body of the [try] block of [analyzeArticle]; [None] when an
    exception is raised inside it: [JSON.parse] fails, the parsed value is
    [null], or its [keyPoints] has no [map] method. *)
Definition addIds (parsed : result json) : option json :=
  match parsed with
  | Ok (JObject props) =>
      match getProp "keyPoints" props with
      | Some (JArray keyPoints) =>
          Some (JObject (setProp "keyPoints" (JArray (mapFrom withId 0 keyPoints)) props))
      | _ => None
      end
  | _ => None
  end.

Definition definitionRequest (word contextSentence : string) : Request :=
  {| model := MODEL_NAME;
     contents := Prompt ("Define the word " ++ Html.quot ++ word ++ Html.quot ++ "."
                         ++ Html.LF ++ "Context sentence: " ++ Html.quot
                         ++ contextSentence ++ Html.quot);
     config := jsonConfig dictionarySchema |}.

Definition articleLimit : nat := 10000.

Definition speaker (msg : Types.ChatMessage) : string :=
  match Types.role msg with Types.user => "User" | Types.model => "AI" end.

(** The prompt assembled by [chatWithGemini]. *)
Definition chatPrompt (history : list Types.ChatMessage) (newMessage : string)
  (articleContext : option string) : string :=
  let prompt := "" in
  let prompt :=
    match articleContext with
    | Some context =>
        if JS.truthy context then
          prompt ++ "System: You are an AI assistant helping a user read an article."
          ++ Html.LF ++ "Article Content: " ++ JS.take articleLimit context ++ "..."
          ++ Html.LF ++ Html.LF
        else prompt
    | None => prompt
    end in
  let prompt :=
    fold_left (fun prompt msg => prompt ++ speaker msg ++ ": " ++ Types.text msg ++ Html.LF)
              history prompt in
  prompt ++ "User: " ++ newMessage ++ Html.LF ++ "AI:".

Definition chatRequest (history : list Types.ChatMessage) (newMessage : string)
  (articleContext : option string) : Request :=
  {| model := MODEL_NAME;
     contents := Prompt (chatPrompt history newMessage articleContext);
     config := None |}.

(** [base64Image.split(',')[1] || base64Image] *)
Definition imageData (base64Image : string) : string :=
  match nth_error (Str.split "," base64Image) 1 with
  | Some data => if JS.truthy data then data else base64Image
  | None => base64Image
  end.

Definition imageRequest (base64Image prompt : string) : Request :=
  {| model := MODEL_NAME;
     contents := Parts [InlineData "image/jpeg" (imageData base64Image);
                        TextPart (if JS.truthy prompt then prompt
                                  else "Describe this image in detail.")];
     config := None |}.

Section WithService.

(** [process.env.API_KEY || ''] *)
Variable API_KEY : string.

(** [ai.models.generateContent(request)]: the [text] of the response
    ([None] when it has none), or the error the call is rejected with. *)
Variable generateContent : Request -> result (option string).

(** [JSON.parse], with the [SyntaxError] it throws. *)
Variable JSON_parse : string -> result json.

Definition analyzeArticle (text : string) : result json :=
  if negb (JS.truthy API_KEY) then Throw (Error "API Key is missing")
  else
    response <- generateContent (analysisRequest text) ;;
    let jsonStr := textOr "{}" response in
    match addIds (JSON_parse jsonStr) with
    | Some result => Ok result
    | None => Throw AnalysisFailed
    end.

Definition defineWord (word contextSentence : string) : result json :=
  response <- generateContent (definitionRequest word contextSentence) ;;
  JSON_parse (textOr "{}" response).

Definition chatWithGemini (history : list Types.ChatMessage) (newMessage : string)
  (articleContext : option string) : result string :=
  response <- generateContent (chatRequest history newMessage articleContext) ;;
  Ok (textOr "I couldn't generate a response." response).

Definition analyzeImage (base64Image prompt : string) : result string :=
  response <- generateContent (imageRequest base64Image prompt) ;;
  Ok (textOr "No analysis provided." response).

End WithService.

(** The ids of the key points of an analysis result, as the component
    reads them for its React keys. *)
Definition idOf (kp : json) : option json :=
  match kp with JObject props => getProp "id" props | _ => None end.

Definition keyPointsOf (result : json) : list json :=
  match result with
  | JObject props =>
      match getProp "keyPoints" props with
      | Some (JArray keyPoints) => keyPoints
      | _ => []
      end
  | _ => []
  end.

(** An answer of the model, as parsed; its second key point comes with an
    id of its own. *)
Definition sampleAnswer : json :=
  JObject
    [("summary", JString "Why the sky is blue.");
     ("keyPoints",
      JArray
        [JObject [("title", JString "Scattering");
                  ("description", JString "Blue light is scattered most.");
                  ("quoteAnchor", JString "sky is blue")];
         JObject [("id", JString "first"); ("title", JString "Sunsets");
                  ("description", JString "Red light travels further.");
                  ("quoteAnchor", JString "long red ones")]])].

(** An article of 10200 characters. *)
Definition longArticle : string :=
  String.concat "" (repeat "The sky is blue. " 600).

(** A model that always answers with [response], and a parser that reads
    every text as [parsed]. *)
Definition answering (response : option string) : Request -> result (option string) :=
  fun _ => Ok response.

Definition reading (parsed : json) : string -> result json :=
  fun _ => Ok parsed.

End GeminiService.

(* ===================================================================== *)
(** ** Chat with the model, from click to reply *)
(* ===================================================================== *)

Module Chat.
Import Types Direct.

Section WithService.

Variable generateContent : GeminiService.Request -> result (option string).

(** [userMsg], for a click at time [now]. *)
Definition userMessage (now : N) (s : State) : ChatMessage :=
  {| msgId := Busy.decimal now; role := user; text := chatInput s; timestamp := now |}.

(** The call [chatWithGemini(newHistory, userMsg.text, articleContent)]
    made for a click in state [s]. *)
Definition request (now : N) (s : State) : GeminiService.Request :=
  GeminiService.chatRequest (chatHistory s ++ [userMessage now s])%list (chatInput s)
                            (Some (articleContent s)).

(** [handleSendMessage] run to its end without any other event in
    between; [now] and [later] are the values of [Date.now()] at the click
    and at the reply. *)
Definition handleSendMessage (now later : N) (s : State) : State :=
  match Busy.beginSendMessage now s with
  | None => s
  | Some s1 =>
      Busy.finishSendMessage later
        (GeminiService.chatWithGemini generateContent (chatHistory s1) (chatInput s)
           (Some (articleContent s)))
        s1
  end.

End WithService.

(** The prompt that goes to the model for a click in state [s]. *)
Definition sentPrompt (now : N) (s : State) : option string :=
  match Busy.beginSendMessage now s with
  | None => None
  | Some s1 =>
      Some (GeminiService.chatPrompt (chatHistory s1) (chatInput s)
              (Some (articleContent s)))
  end.

End Chat.

(* ===================================================================== *)
(** ** Overlays of the component *)
(* ===================================================================== *)

Module View.
Import Types Direct.

Record Position : Type := { top : Z; left : Z }.

(** Where the [Defining...] tooltip is rendered; [None] when it is not. *)
Definition definingTooltip (s : State) : option Position :=
  if LoadingState_eqb (loadingState s) DEFINING then
    Some {| top := match contextMenuPos s with Some (_, y) => y + 10 | None => 0 end;
            left := match contextMenuPos s with Some (x, _) => x + 10 | None => 0 end |}
  else None.

(** Whether the reader pane shows its placeholder instead of an article. *)
Definition showsPlaceholder (s : State) : bool := negb (JS.truthy (articleContent s)).

(** The same for the isolated-render variant, which mounts the frame only
    for a non-empty [iframeHtml]. *)
Definition showsPlaceholder' (s : Iframe.State) : bool :=
  negb (JS.truthy (Iframe.iframeHtml s)).

End View.

(* ===================================================================== *)
(** ** Sessions *)
(* ===================================================================== *)

Module Session.
Import Types.

Definition isLoad (ev : Busy.Event) : bool :=
  match ev with Busy.ClickLoad => true | _ => false end.

(** The captured selection, if there is one, holds a word that is trimmed
    and not empty. *)
Definition wordIsClean (captured : option SelectedTextData) : Prop :=
  match captured with
  | Some data => selWord data <> "" /\ JS.trim (selWord data) = selWord data
  | None => True
  end.

(** The text [handleManualAnalyze] asks the model to analyse; [None] is
    its early return. *)
Definition manualAnalysisText (s : Direct.State) : option string :=
  if negb (JS.truthy (Direct.articleContent s)) then None
  else Some (Direct.articleContent s).

(** The page is served, but the model service has no API key. *)
Definition keyless : World :=
  {| allOrigins := allOrigins Examples.online;
     corsProxy := corsProxy Examples.online;
     parseFromString := parseFromString Examples.online;
     analyzeArticle := fun _ => Throw (Error "API Key is missing");
     URL_href := URL_href Examples.online |}.

(** The host with an earlier article on screen and no request in flight. *)
Definition reading (url : string) : Busy.System :=
  {| Busy.ui := Examples.readingDirect url; Busy.inFlight := []; Busy.alerts := [] |}.

(** A load during which no other handler runs: the click on the load
    button, directly followed by the end of the requests it has started. *)
Definition loadAlone (url : string) (w : World) : list Busy.Event :=
  [Busy.ClickLoad; Busy.LoadSettled url w].

(** What can happen in the host: the events of [Busy], and a right click
    on a paragraph of the article, with the selection the window has at
    that moment. *)
Inductive Action : Type :=
| Host (ev : Busy.Event)
| ContextMenu (e : MouseEvent) (selection : option Selection).

(** Whether a paragraph carrying [onContextMenu] is rendered: one is, for
    every non-blank line of a non-empty article. *)
Definition hasParagraph (s : Direct.State) : bool :=
  JS.truthy (Direct.articleContent s)
  && existsb (fun para => JS.truthy (JS.trim para))
             (Str.split Html.LF (Direct.articleContent s)).

Definition act (a : Action) (sys : Busy.System) : Busy.System :=
  match a with
  | Host ev => Busy.step ev sys
  | ContextMenu e selection =>
      if hasParagraph (Busy.ui sys)
      then Busy.withUi (fun s => fst (Direct.handleContextMenu e selection s)) sys
      else sys
  end.

Definition play (acts : list Action) (sys : Busy.System) : Busy.System :=
  fold_left (fun acc a => act a acc) acts sys.

(** The reader loads the sample page, selects a word, opens the context
    menu on it and asks for its definition. *)
Definition lookUp : list Action :=
  [Host Busy.ClickLoad;
   Host (Busy.LoadSettled "https://example.com/blog-post" Examples.online);
   ContextMenu {| clientX := 120; clientY := 80 |}
               (Some {| toString := " scatter "; anchorNode := Some (Some Examples.skyParagraph) |});
   Host Busy.ClickDefine].

(** A question is sent, the load button is clicked before the reply has
    arrived, then the reply arrives and the load ends. *)
Definition replyDuringLoad (now later : N) (reply url : string) (w : World)
  : list Busy.Event :=
  [Busy.ClickSend now; Busy.ClickLoad; Busy.ChatSettled later (Ok reply);
   Busy.LoadSettled url w].

(** The reader asks about the article on screen and clicks the load button
    before the reply has arrived. *)
Definition askThenLoad : list Busy.Event :=
  [Busy.ClickTab chatTab; Busy.TypeChat "What is the earlier article about?";
   Busy.ClickSend 1000; Busy.ClickLoad;
   Busy.ChatSettled 2000 (Ok "It is about trains.");
   Busy.LoadSettled "https://example.com/post" Examples.online].

End Session.

(* ===================================================================== *)
(** ** Template contents *)
(* ===================================================================== *)

(** The parser puts what stands between the tags of a [template] element
    into a document fragment of its own, the template contents.  These
    nodes are no children of the element: [querySelectorAll], tree walkers
    and [textContent] do not reach them, which is why the trees of [Dom]
    do not have them; but the serialization of the element writes them
    out.  Here the tree is given together with its template contents. *)

Module Template.
Import Dom.

Inductive node : Type :=
| Text (data : string)
| Elem (tag : string) (attrs : list attr) (children : list node)
| Template (attrs : list attr) (content : list node).

Definition Document : Type := list node.

(** Induction principle that also gives the hypothesis for the children
    and for the template contents. *)
Fixpoint node_rect' (P : node -> Type) (Q : list node -> Type)
  (HT : forall d, P (Text d))
  (HE : forall t a ch, Q ch -> P (Elem t a ch))
  (HI : forall a c, Q c -> P (Template a c))
  (HN : Q [])
  (HC : forall n ns, P n -> Q ns -> Q (n :: ns))
  (n : node) : P n :=
  match n with
  | Text d => HT d
  | Elem t a ch =>
      HE t a ch
        ((fix go (l : list node) : Q l :=
            match l with
            | [] => HN
            | x :: xs => HC x xs (node_rect' P Q HT HE HI HN HC x) (go xs)
            end) ch)
  | Template a c =>
      HI a c
        ((fix go (l : list node) : Q l :=
            match l with
            | [] => HN
            | x :: xs => HC x xs (node_rect' P Q HT HE HI HN HC x) (go xs)
            end) c)
  end.

Definition forest_rect' (P : node -> Type) (Q : list node -> Type)
  (HT : forall d, P (Text d))
  (HE : forall t a ch, Q ch -> P (Elem t a ch))
  (HI : forall a c, Q c -> P (Template a c))
  (HN : Q [])
  (HC : forall n ns, P n -> Q ns -> Q (n :: ns)) : forall l, Q l :=
  fix go (l : list node) : Q l :=
    match l with
    | [] => HN
    | x :: xs => HC x xs (node_rect' P Q HT HE HI HN HC x) (go xs)
    end.

(** The tree that selectors, tree walkers and [textContent] work on: a
    [template] element is an element without children. *)
Fixpoint light (n : node) : Dom.node :=
  match n with
  | Text d => Dom.Text d
  | Elem t a ch => Dom.Elem t a (map light ch)
  | Template a _ => Dom.Elem "template" a []
  end.

Definition tagOf (n : node) : string :=
  match n with
  | Elem t _ _ => t
  | Template _ _ => "template"
  | Text _ => "#text"
  end.

(** The elements that [querySelectorAll] ranges over, in document order:
    the descendants by the child relation. *)
Fixpoint elements (n : node) : list node :=
  match n with
  | Text _ => []
  | Elem _ _ ch => n :: flat_map elements ch
  | Template _ _ => [n]
  end.

Definition elementsOf (ns : list node) : list node := flat_map elements ns.

Definition tagsOf (ns : list node) : list string := map tagOf (elementsOf ns).

(** The tags of all elements, those inside template contents included. *)
Fixpoint allTags (n : node) : list string :=
  match n with
  | Text _ => []
  | Elem t _ ch => t :: flat_map allTags ch
  | Template _ c => "template" :: flat_map allTags c
  end.

Definition matches (sel : selector) (n : node) : bool :=
  match n with
  | Elem t a _ => sel t a
  | Template a _ => sel "template" a
  | Text _ => false
  end.

(** [doc.querySelectorAll(sel).forEach(el => el.remove())]: every matching
    element is detached together with its subtree; nothing inside template
    contents is matched. *)
Fixpoint removeFrom (sel : selector) (n : node) : list node :=
  match n with
  | Text _ => [n]
  | Elem t a ch =>
      if sel t a then [] else [Elem t a (flat_map (removeFrom sel) ch)]
  | Template a c => if sel "template" a then [] else [n]
  end.

Definition removeAll (sel : selector) (d : Document) : Document :=
  flat_map (removeFrom sel) d.

(** Direct-render variant, [handleLoadArticle] step 1. *)
Definition cleanUp (doc : Document) : Document :=
  fold_left (fun d tag => removeAll (byTag tag) d) Sanitizer.irrelevantTags doc.

(** Isolated-render variant, [handleLoadArticle] step 1. *)
Definition sanitize (doc : Document) : Document :=
  removeAll (byTags Sanitizer.sanitizedTags) doc.

(** The HTML fragment serialization algorithm: for a [template] element
    the nodes of its template contents are written in place of children. *)
Fixpoint serializeNode (parent : string) (n : node) : string :=
  match n with
  | Text d => if JS.mem parent Html.rawTextElements then d else Html.escapeText d
  | Elem t a ch =>
      "<" ++ t ++ Html.serializeAttrs a ++ ">" ++
      (if JS.mem t Html.voidElements then ""
       else String.concat "" (map (serializeNode t) ch) ++ "</" ++ t ++ ">")
  | Template a c =>
      "<template" ++ Html.serializeAttrs a ++ ">" ++
      String.concat "" (map (serializeNode "template") c) ++ "</template>"
  end.

Definition isElement (n : node) : bool :=
  match n with Text _ => false | _ => true end.

(** [doc.documentElement.outerHTML] *)
Definition documentHtml (doc : Document) : result string :=
  match find isElement doc with
  | Some root => Ok (serializeNode "" root)
  | None => Throw Extractor.nullDeref
  end.

(** A page that keeps a script in a template. *)
Definition inertPage : Document :=
  [Elem "html" []
     [Elem "head" [] [];
      Elem "body" []
        [Template [("id", "row")] [Elem "script" [] [Text "track()"]];
         Elem "p" [] [Text "intro"]]]].

End Template.

(* ===================================================================== *)
(** * Properties *)
(* ===================================================================== *)

(** ** Sanitizer *)

Module SanitizerFacts.
Import Dom Sanitizer.

Lemma mem_In (x : string) (l : list string) : JS.mem x l = true <-> In x l.
Proof.
  unfold JS.mem. rewrite existsb_exists. split.
  - intros [y [Hy He]]. apply String.eqb_eq in He. now subst.
  - intros H. exists x. split; [assumption | apply String.eqb_refl].
Qed.

(** What survives a removal pass does not match the selector, and carries
    the tag of an element that was already there. *)
Lemma removeFrom_elements (sel : selector) (n : node) :
  forall e, In e (elementsOf (removeFrom sel n)) ->
            matches sel e = false /\ In (tagOf e) (tagsOf [n]).
Proof.
  induction n using node_rect' with
    (Q := fun ch => forall e, In e (elementsOf (flat_map (removeFrom sel) ch)) ->
                              matches sel e = false /\ In (tagOf e) (tagsOf ch)).
  - simpl. intros e [].
  - intros e. simpl. destruct (sel t a) eqn:Hs; simpl; [intros [] |].
    rewrite app_nil_r. intros [He | He].
    + subst e. simpl. split; [assumption | now left].
    + destruct (IHn e He) as [Hm Ht]. split; [assumption |].
      unfold tagsOf in *. simpl. rewrite app_nil_r. now right.
  - simpl. intros e [].
  - intros e. unfold elementsOf, tagsOf in *. simpl.
    rewrite flat_map_app, map_app. rewrite !in_app_iff.
    intros [He | He].
    + destruct (IHn e) as [Hm Ht].
      { exact He. }
      split; [assumption |]. left. simpl in Ht. now rewrite app_nil_r in Ht.
    + destruct (IHn0 e He) as [Hm Ht]. split; [assumption | now right].
Qed.

Lemma removeAll_elements (sel : selector) (d : Document) :
  forall e, In e (elementsOf (removeAll sel d)) ->
            matches sel e = false /\ In (tagOf e) (tagsOf d).
Proof.
  induction d as [| n d IH]; intros e; simpl; [intros [] |].
  unfold removeAll, elementsOf, tagsOf in *. simpl.
  rewrite flat_map_app, map_app, !in_app_iff.
  intros [He | He].
  - destruct (removeFrom_elements sel n e He) as [Hm Ht].
    split; [assumption |]. left. unfold tagsOf, elementsOf in Ht.
    simpl in Ht. now rewrite app_nil_r in Ht.
  - destruct (IH e He) as [Hm Ht]. split; [assumption | now right].
Qed.

Lemma elementsOf_is_elem (d : Document) (e : node) :
  In e (elementsOf d) -> exists t a ch, e = Elem t a ch.
Proof.
  revert e.
  induction d using forest_rect' with
    (P := fun n => forall e, In e (elements n) -> exists t a ch, e = Elem t a ch);
    simpl; intros e He; try contradiction.
  - destruct He as [He | He]; [subst; eauto | now apply IHd].
  - unfold elementsOf in He. simpl in He. apply in_app_iff in He.
    destruct He as [He | He]; [now apply IHd | now apply IHd0].
Qed.

Lemma removeAll_tags_subset (sel : selector) (d : Document) (t : string) :
  In t (tagsOf (removeAll sel d)) -> In t (tagsOf d).
Proof.
  unfold tagsOf at 1. rewrite in_map_iff. intros [e [<- He]].
  now apply removeAll_elements in He.
Qed.

Lemma removeAll_byTag_absent (t : string) (d : Document) :
  ~ In t (tagsOf (removeAll (byTag t) d)).
Proof.
  unfold tagsOf. rewrite in_map_iff. intros [e [Ht He]].
  destruct (elementsOf_is_elem _ _ He) as [t' [a [ch ->]]].
  apply removeAll_elements in He. destruct He as [Hm _].
  simpl in *. unfold byTag in Hm. subst t'. now rewrite String.eqb_refl in Hm.
Qed.

Lemma removeAll_byTags_absent (ts : list string) (d : Document) (t : string) :
  In t ts -> ~ In t (tagsOf (removeAll (byTags ts) d)).
Proof.
  intros Hin. unfold tagsOf. rewrite in_map_iff. intros [e [Ht He]].
  destruct (elementsOf_is_elem _ _ He) as [t' [a [ch ->]]].
  apply removeAll_elements in He. destruct He as [Hm _].
  simpl in *. unfold byTags in Hm. subst t'.
  apply mem_In in Hin. congruence.
Qed.

Lemma fold_removeAll_subset (ts : list string) (d : Document) (t : string) :
  In t (tagsOf (fold_left (fun d tag => removeAll (byTag tag) d) ts d)) ->
  In t (tagsOf d).
Proof.
  revert d. induction ts as [| x ts IH]; intros d; simpl; [trivial |].
  intros H. apply IH in H. now apply removeAll_tags_subset in H.
Qed.

Lemma fold_removeAll_absent (ts : list string) (d : Document) (t : string) :
  In t ts ->
  ~ In t (tagsOf (fold_left (fun d tag => removeAll (byTag tag) d) ts d)).
Proof.
  revert d. induction ts as [| x ts IH]; intros d; simpl; [intros [] |].
  intros [-> | Hin].
  - intros H. apply fold_removeAll_subset in H.
    now apply removeAll_byTag_absent in H.
  - now apply IH.
Qed.

(** Where nothing matches, a removal pass changes nothing. *)
Lemma removeAll_noop (sel : selector) (d : Document) :
  existsb (matches sel) (elementsOf d) = false -> removeAll sel d = d.
Proof.
  unfold removeAll, elementsOf.
  induction d using forest_rect' with
    (P := fun n => existsb (matches sel) (elements n) = false ->
                   removeFrom sel n = [n]).
  - reflexivity.
  - intros H. cbn [elements existsb matches] in H.
    apply orb_false_iff in H. destruct H as [Ht Hch].
    cbn [removeFrom]. rewrite Ht. now rewrite IHd.
  - reflexivity.
  - intros H. cbn [flat_map] in *. rewrite existsb_app in H.
    apply orb_false_iff in H. destruct H as [H1 H2].
    now rewrite IHd, IHd0.
Qed.

(** *** Documents with template contents *)

Lemma light_removeFrom (sel : selector) (n : Template.node) :
  map Template.light (Template.removeFrom sel n) = removeFrom sel (Template.light n).
Proof.
  induction n using Template.node_rect' with
    (Q := fun ch => map Template.light (flat_map (Template.removeFrom sel) ch)
                    = flat_map (removeFrom sel) (map Template.light ch)).
  - reflexivity.
  - cbn [Template.removeFrom Template.light removeFrom].
    destruct (sel t a); [reflexivity |].
    cbn [map Template.light]. now rewrite IHn.
  - cbn [Template.removeFrom Template.light removeFrom].
    destruct (sel "template" a); reflexivity.
  - reflexivity.
  - cbn [flat_map map]. now rewrite map_app, IHn, IHn0.
Qed.

(** On the tree that selectors reach, a removal pass with template
    contents is the removal pass without them. *)
Lemma light_removeAll (sel : selector) (d : Template.Document) :
  map Template.light (Template.removeAll sel d) = removeAll sel (map Template.light d).
Proof.
  unfold Template.removeAll, removeAll.
  induction d as [| n d IH]; [reflexivity |].
  cbn [flat_map map]. now rewrite map_app, light_removeFrom, IH.
Qed.

Lemma light_fold (ts : list string) (d : Template.Document) :
  map Template.light (fold_left (fun d tag => Template.removeAll (byTag tag) d) ts d)
  = fold_left (fun d tag => removeAll (byTag tag) d) ts (map Template.light d).
Proof.
  revert d. induction ts as [| t ts IH]; intros d; [reflexivity |].
  cbn [fold_left]. now rewrite IH, light_removeAll.
Qed.

Lemma tagOf_light (n : Template.node) : tagOf (Template.light n) = Template.tagOf n.
Proof. now destruct n. Qed.

Lemma tagsOf_light (d : Template.Document) :
  tagsOf (map Template.light d) = Template.tagsOf d.
Proof.
  unfold tagsOf, Template.tagsOf, elementsOf, Template.elementsOf.
  induction d using Template.forest_rect' with
    (P := fun n => map tagOf (elements (Template.light n))
                   = map Template.tagOf (Template.elements n)).
  - reflexivity.
  - cbn [Template.light elements Template.elements map tagOf Template.tagOf].
    now rewrite IHd.
  - reflexivity.
  - reflexivity.
  - cbn [map flat_map]. now rewrite !map_app, IHd, IHd0.
Qed.

(** A template element that a removal pass leaves was there before, with
    the same contents. *)
Lemma removeFrom_template (sel : selector) (a : list attr) (c : list Template.node)
  (n : Template.node) :
  In (Template.Template a c) (Template.elementsOf (Template.removeFrom sel n)) ->
  In (Template.Template a c) (Template.elements n).
Proof.
  unfold Template.elementsOf.
  induction n using Template.node_rect' with
    (Q := fun ch =>
            In (Template.Template a c)
               (flat_map Template.elements (flat_map (Template.removeFrom sel) ch)) ->
            In (Template.Template a c) (flat_map Template.elements ch)).
  - intros [].
  - cbn [Template.removeFrom]. destruct (sel t a0); [intros [] |].
    cbn [flat_map Template.elements]. rewrite app_nil_r.
    intros [H | H]; [discriminate H | right; now apply IHn].
  - cbn [Template.removeFrom]. destruct (sel "template" a0); [intros [] |].
    cbn [flat_map Template.elements]. now rewrite app_nil_r.
  - intros [].
  - cbn [flat_map]. rewrite flat_map_app, !in_app_iff.
    intros [H | H]; [left; now apply IHn | right; now apply IHn0].
Qed.

Lemma removeAll_template (sel : selector) (a : list attr) (c : list Template.node)
  (d : Template.Document) :
  In (Template.Template a c) (Template.elementsOf (Template.removeAll sel d)) ->
  In (Template.Template a c) (Template.elementsOf d).
Proof.
  unfold Template.removeAll, Template.elementsOf.
  induction d as [| n d IH]; [intros [] |].
  cbn [flat_map]. rewrite flat_map_app, !in_app_iff.
  intros [H | H]; [left; now apply (removeFrom_template sel) | right; now apply IH].
Qed.

Lemma fold_template (ts : list string) (a : list attr) (c : list Template.node) :
  forall d,
    In (Template.Template a c)
       (Template.elementsOf
          (fold_left (fun d tag => Template.removeAll (byTag tag) d) ts d)) ->
    In (Template.Template a c) (Template.elementsOf d).
Proof.
  induction ts as [| t ts IH]; intros d H; [exact H |].
  cbn [fold_left] in H. apply IH in H. now apply removeAll_template in H.
Qed.

Lemma matches_tagOf (ts : list string) (d : Template.Document) (e : Template.node) :
  In e (Template.elementsOf d) ->
  Template.matches (byTags ts) e = JS.mem (Template.tagOf e) ts /\
  (forall t, Template.matches (byTag t) e = String.eqb (Template.tagOf e) t).
Proof.
  unfold Template.elementsOf.
  induction d using Template.forest_rect' with
    (P := fun n => In e (Template.elements n) ->
                   Template.matches (byTags ts) e = JS.mem (Template.tagOf e) ts /\
                   (forall t, Template.matches (byTag t) e
                              = String.eqb (Template.tagOf e) t)).
  - intros [].
  - cbn [Template.elements]. intros [<- | H]; [now split | now apply IHd].
  - cbn [Template.elements]. intros [<- | []]. now split.
  - intros [].
  - cbn [flat_map]. rewrite in_app_iff. intros [H | H]; [now apply IHd | now apply IHd0].
Qed.

(** Where nothing that selectors reach matches, a removal pass changes
    nothing, whatever the templates hold. *)
Lemma removeAll_fixed (sel : selector) (d : Template.Document) :
  (forall e, In e (Template.elementsOf d) -> Template.matches sel e = false) ->
  Template.removeAll sel d = d.
Proof.
  unfold Template.removeAll, Template.elementsOf.
  induction d using Template.forest_rect' with
    (P := fun n => (forall e, In e (Template.elements n) ->
                              Template.matches sel e = false) ->
                   Template.removeFrom sel n = [n]).
  - reflexivity.
  - intros H. cbn [Template.removeFrom].
    rewrite (H (Template.Elem t a ch) (or_introl eq_refl) : sel t a = false).
    rewrite IHd; [reflexivity |]. intros e He. apply H. now right.
  - intros H. cbn [Template.removeFrom].
    now rewrite (H (Template.Template a c) (or_introl eq_refl) : sel "template" a = false).
  - reflexivity.
  - intros H. cbn [flat_map].
    rewrite IHd, IHd0; [reflexivity | |]; intros e He; apply H; cbn [flat_map];
      apply in_app_iff; [now right | now left].
Qed.

Lemma sanitize_fixed (ts : list string) (d : Template.Document) :
  (forall t, In t ts -> ~ In t (Template.tagsOf d)) ->
  Template.removeAll (byTags ts) d = d /\
  fold_left (fun d tag => Template.removeAll (byTag tag) d) ts d = d.
Proof.
  intros H. split.
  - apply removeAll_fixed. intros e He.
    rewrite (proj1 (matches_tagOf ts d e He)).
    destruct (JS.mem (Template.tagOf e) ts) eqn:M; [| reflexivity].
    apply mem_In in M. elim (H _ M). unfold Template.tagsOf. now apply in_map.
  - induction ts as [| t ts IH]; [reflexivity |].
    cbn [fold_left]. rewrite removeAll_fixed.
    + apply IH. intros t' Ht'. apply H. now right.
    + intros e He. rewrite (proj2 (matches_tagOf [] d e He)).
      destruct (String.eqb (Template.tagOf e) t) eqn:M; [| reflexivity].
      apply String.eqb_eq in M. elim (H t (or_introl eq_refl)).
      rewrite <- M. unfold Template.tagsOf. now apply in_map.
Qed.

(** C1, as stated, fails.  The tag list of the direct-render variant has
    neither [object] nor [embed], so such elements stay in the tree.  And
    in both variants the elements are found by [querySelectorAll], which
    does not look into the contents of a [template] element: a script
    there stays, and the isolated-render variant writes it into the page
    it hands to the frame. *)
Lemma C1_listed_tags_remain :
  In "object" (tagsOf pluginPage) /\
  tagsOf (cleanUp pluginPage) = ["html"; "head"; "body"; "p"; "object"; "embed"] /\
  (~ (forall t, In t ["script"; "iframe"; "object"; "embed"] ->
                ~ In t (tagsOf (cleanUp pluginPage)))) /\
  Template.sanitize Template.inertPage = Template.inertPage /\
  Template.cleanUp Template.inertPage = Template.inertPage /\
  In "script" (flat_map Template.allTags (Template.sanitize Template.inertPage)) /\
  Template.documentHtml (Template.sanitize Template.inertPage)
  = Ok ("<html><head></head><body><template id=" ++ Html.quot ++ "row" ++ Html.quot
        ++ "><script>track()</script></template><p>intro</p></body></html>").
Proof.
  split; [vm_compute; tauto |]. split; [reflexivity |]. split.
  - intros H. apply (H "object").
    + simpl. tauto.
    + vm_compute. tauto.
  - repeat split. vm_compute. tauto.
Qed.

(** C1 (amended): after sanitizing, no element that selectors reach (the
    elements of the document tree, to which the contents of [template]
    elements do not belong) is a [script] or an [iframe], in either
    variant; the isolated-render variant also leaves no [object] and no
    [embed] there, the direct-render variant also none of style, noscript,
    svg, nav, footer, header, aside, form, ads and button.  The contents of
    [template] elements are not touched: a template that is left has the
    contents it had, and a document without listed element in reach of
    selectors is returned as it is, whatever its templates hold.  On the
    tree that selectors reach, the sanitizers are the ones of
    [Sanitizer]. *)
Theorem C1_sanitizer_removes_listed_tags (doc : Template.Document) :
  (forall t, In t ["script"; "iframe"; "object"; "embed"] ->
             ~ In t (Template.tagsOf (Template.sanitize doc))) /\
  (forall t, In t ["script"; "style"; "noscript"; "iframe"; "svg"; "nav";
                   "footer"; "header"; "aside"; "form"; "ads"; "button"] ->
             ~ In t (Template.tagsOf (Template.cleanUp doc))) /\
  (forall a c,
     In (Template.Template a c) (Template.elementsOf (Template.sanitize doc)) \/
     In (Template.Template a c) (Template.elementsOf (Template.cleanUp doc)) ->
     In (Template.Template a c) (Template.elementsOf doc)) /\
  ((forall t, In t ["script"; "iframe"; "object"; "embed"] ->
              ~ In t (Template.tagsOf doc)) ->
   Template.sanitize doc = doc) /\
  ((forall t, In t ["script"; "style"; "noscript"; "iframe"; "svg"; "nav";
                    "footer"; "header"; "aside"; "form"; "ads"; "button"] ->
              ~ In t (Template.tagsOf doc)) ->
   Template.cleanUp doc = doc) /\
  map Template.light (Template.sanitize doc) = sanitize (map Template.light doc) /\
  map Template.light (Template.cleanUp doc) = cleanUp (map Template.light doc).
Proof.
  assert (S : map Template.light (Template.sanitize doc) = sanitize (map Template.light doc))
    by apply light_removeAll.
  assert (C : map Template.light (Template.cleanUp doc) = cleanUp (map Template.light doc))
    by apply light_fold.
  split; [| split; [| split; [| split; [| split; [| split]]]]]; try assumption.
  - intros t Ht. rewrite <- tagsOf_light, S. now apply removeAll_byTags_absent.
  - intros t Ht. rewrite <- tagsOf_light, C. now apply fold_removeAll_absent.
  - intros a c [H | H]; [now apply removeAll_template in H | now apply fold_template in H].
  - intros H. now apply (sanitize_fixed sanitizedTags).
  - intros H. now apply (sanitize_fixed irrelevantTags).
Qed.

End SanitizerFacts.

(** ** Text Extractor *)

Module ExtractorFacts.
Import Dom Types Extractor.

(** C3: when the text drawn from the primary content region is shorter
    than the configured minimum (200 characters for block collection, 100
    for whole-region text), the extractor throws the too-short error and
    does not return the text. *)
Theorem C3_short_text_is_rejected (v : variant) (doc : Document) (text : string) :
  primaryText v doc = Ok text ->
  String.length text < configuredMinimum v ->
  configuredMinimum v = match v with BlockCollection => 200 | WholeRegion => 100 end /\
  extractor v doc = Throw (tooShort v) /\
  extractor v doc <> Ok text.
Proof.
  intros Htext Hlen. split; [now destruct v |].
  assert (H : extractor v doc = Throw (tooShort v)).
  { destruct v; simpl in *; unfold extract, extract'; rewrite Htext; simpl;
      apply Nat.ltb_lt in Hlen; now rewrite Hlen. }
  split; [exact H | rewrite H; discriminate].
Qed.

Lemma C3_short_text_is_rejected_witness :
  extractor BlockCollection helloPage = Throw ExtractionTooShort /\
  extractor WholeRegion helloPage = Throw ExtractionTooShort'.
Proof.
  split.
  - apply (C3_short_text_is_rejected BlockCollection helloPage "").
    + reflexivity.
    + simpl. unfold minimumLength. lia.
  - apply (C3_short_text_is_rejected WholeRegion helloPage
             "Hello world. The sky is blue today.").
    + reflexivity.
    + simpl. unfold minimumLength'. lia.
Defined.

(** In the load handlers a too-short extraction ends in the failure
    notice; the short text is never stored and no analysis is started. *)
Lemma short_extraction_shows_notice (w : World) (s : Direct.State) (html text : string) :
  fetchHtml w (Direct.urlInput s) = Ok html ->
  extractedText (Sanitizer.cleanUp (parseFromString w html)) = Ok text ->
  String.length text < 200 ->
  Direct.articleContent (Direct.finishLoad w s) = Direct.failureNotice ExtractionTooShort /\
  Direct.analysis (Direct.finishLoad w s) = Direct.analysis s.
Proof.
  intros Hf Ht Hlen. unfold Direct.finishLoad, Direct.finishLoadOf, Direct.tryLoadOf.
  rewrite Hf. unfold extract. rewrite Ht. simpl.
  apply Nat.ltb_lt in Hlen. unfold minimumLength. rewrite Hlen. simpl. auto.
Qed.

Lemma short_extraction_shows_notice' (w : World) (s : Iframe.State) (html text : string)
  (doc : Document) :
  fetchHtml w (Iframe.urlInput s) = Ok html ->
  Iframe.renderable w (Iframe.urlInput s) html = Ok doc ->
  Extractor.documentElement doc <> None ->
  cleanText doc = Ok text ->
  String.length text < 100 ->
  Iframe.iframeHtml (Iframe.finishLoad w s) = Iframe.failureNotice ExtractionTooShort' /\
  Iframe.articleText (Iframe.finishLoad w s) = Iframe.articleText s /\
  Iframe.analysis (Iframe.finishLoad w s) = Iframe.analysis s.
Proof.
  intros Hf Hr Hd Ht Hlen. unfold Iframe.finishLoad, Iframe.tryLoad.
  rewrite Hf, Hr. unfold Iframe.documentHtml.
  destruct (documentElement doc) as [root |]; [| contradiction].
  unfold extract'. rewrite Ht. simpl.
  apply Nat.ltb_lt in Hlen. unfold minimumLength'. rewrite Hlen. simpl. auto.
Qed.

(** The selector list of the block collection picks exactly the proper
    descendants with one of the nine block tags. *)
Lemma querySelectorAll_blockTags (root el : node) :
  In el (querySelectorAll (byTags blockTags) root) <->
  In el (descendants root) /\ matches (byTags blockTags) el = true.
Proof. unfold querySelectorAll. apply filter_In. Qed.

(** C5, as stated, fails on its own scenario: the paragraph has 35
    characters, the filter keeps only blocks longer than 40, so no block
    survives and the extraction is rejected as too short. *)
Lemma C5_hello_article_is_not_extracted :
  contentRoot (Sanitizer.cleanUp helloPage) = Some helloArticle /\
  String.length "Hello world. The sky is blue today." = 35 /\
  textBlocks helloArticle = [] /\
  extract (Sanitizer.cleanUp helloPage) <> Ok "Hello world. The sky is blue today.".
Proof.
  repeat split; try reflexivity. vm_compute. discriminate.
Qed.

(** C5 (amended): under the chosen content root the block-collection
    extractor takes every p, h1-h6, li and blockquote descendant, trims its
    text, keeps exactly the blocks whose trimmed length exceeds 40 (a block
    of 40 characters or fewer is discarded) and joins the survivors with a
    blank line; for the scenario document the only block has 35 characters,
    nothing survives, and the extraction fails as too short. *)
Theorem C5_block_collection (doc : Document) (root : node) :
  contentRoot doc = Some root ->
  extractedText doc = Ok (JS.join (Html.LF ++ Html.LF) (textBlocks root)) /\
  (forall b, In b (textBlocks root) <->
             40 < String.length b /\
             exists el, In el (descendants root) /\
                        In (tagOf el) ["p"; "h1"; "h2"; "h3"; "h4"; "h5"; "h6"; "li"; "blockquote"] /\
                        b = JS.trim (textContent el)) /\
  (forall el, String.length (JS.trim (textContent el)) <= 40 ->
              ~ In (JS.trim (textContent el)) (textBlocks root)) /\
  extract (Sanitizer.cleanUp helloPage) = Throw ExtractionTooShort.
Proof.
  intros Hroot. split; [unfold extractedText; now rewrite Hroot |].
  assert (Hin : forall b, In b (textBlocks root) <->
             40 < String.length b /\
             exists el, In el (descendants root) /\ In (tagOf el) blockTags /\
                        b = JS.trim (textContent el)).
  { intros b. unfold textBlocks. rewrite filter_In, in_map_iff. split.
    - intros [[el [Hb Hel]] Hlen]. apply Nat.ltb_lt in Hlen. split; [assumption |].
      exists el. apply querySelectorAll_blockTags in Hel. destruct Hel as [Hd Hm].
      split; [assumption |]. split; [| now symmetry].
      destruct el as [d | t a ch]; [discriminate |].
      apply (proj1 (SanitizerFacts.mem_In t blockTags)). exact Hm.
    - intros [Hlen [el [Hd [Ht Hb]]]]. split; [| now apply Nat.ltb_lt].
      exists el. split; [now symmetry |]. apply querySelectorAll_blockTags.
      split; [assumption |].
      destruct (SanitizerFacts.elementsOf_is_elem (childrenOf root) el) as [t [a [ch ->]]].
      { destruct root; simpl in *; [contradiction | assumption]. }
      apply (proj2 (SanitizerFacts.mem_In t blockTags)). exact Ht. }
  split; [exact Hin |]. split; [| reflexivity].
  intros el Hshort Hb. apply Hin in Hb. lia.
Qed.

Lemma C5_block_collection_witness :
  extractedText (Sanitizer.cleanUp helloPage) = Ok "" /\
  extract (Sanitizer.cleanUp helloPage) = Throw ExtractionTooShort.
Proof.
  destruct (C5_block_collection (Sanitizer.cleanUp helloPage) helloArticle)
    as [H1 [_ [_ H4]]].
  - reflexivity.
  - split; [exact H1 | exact H4].
Defined.

End ExtractorFacts.

(** ** Article load *)

Module LoadFacts.
Import Dom Types Examples.

Lemma truthy_nonempty (s : string) : s <> "" -> JS.truthy s = true.
Proof. destruct s; [contradiction | reflexivity]. Qed.

(** C10, as stated, fails.  An invocation with an empty URL input returns
    at once, and the earlier analysis, chat history and article stay as
    they are.  And what is cleared at the click can be filled again before
    the load ends: the reply to a question about the earlier article
    arrives while the new page is being fetched, and is appended to the
    chat that the load has emptied. *)
Lemma C10_previous_article_remains :
  Direct.handleLoadArticle online (readingDirect "") = readingDirect "" /\
  Direct.analysis (Direct.handleLoadArticle online (readingDirect "")) = Some skyAnalysis /\
  Direct.chatHistory (Direct.handleLoadArticle online (readingDirect "")) = [oldMessage] /\
  Iframe.handleLoadArticle online (readingIframe "") = readingIframe "" /\
  Iframe.dictionary (Iframe.handleLoadArticle online (readingIframe "")) = Some oldDefinition /\
  Direct.articleContent
    (Busy.ui (Busy.run Session.askThenLoad (Session.reading "https://example.com/post")))
  = skyParagraph /\
  Direct.chatHistory
    (Busy.ui (Busy.run Session.askThenLoad (Session.reading "https://example.com/post")))
  = [{| msgId := "2001"; role := model; text := "It is about trains.";
        timestamp := 2000 |}].
Proof. repeat split. Qed.

(** Closes the field equations left after a case analysis of the load. *)
Ltac fields := repeat split; assumption || (symmetry; assumption).

(** What the rest of the load leaves behind is a function of the world and
    the state at the first [fetch]. *)
Lemma direct_finishLoadOf_fields (w : World) (url : string) (s s' : Direct.State) :
  Direct.analysis s' = Direct.analysis s ->
  Direct.articleContent s' = Direct.articleContent s ->
  Direct.chatHistory (Direct.finishLoadOf w url s) = Direct.chatHistory s /\
  Direct.analysis (Direct.finishLoadOf w url s) = Direct.analysis (Direct.finishLoadOf w url s') /\
  Direct.articleContent (Direct.finishLoadOf w url s) =
    Direct.articleContent (Direct.finishLoadOf w url s').
Proof.
  intros Ha Hc. unfold Direct.finishLoadOf, Direct.tryLoadOf.
  destruct (fetchHtml w url) as [html | e];
    [| fields].
  destruct (Extractor.extract _) as [text | e];
    [| fields].
  destruct (analyzeArticle w text) as [r | e]; fields.
Qed.

Lemma iframe_finishLoad_fields (w : World) (s s' : Iframe.State) :
  Iframe.urlInput s' = Iframe.urlInput s ->
  Iframe.analysis s' = Iframe.analysis s ->
  Iframe.articleText s' = Iframe.articleText s ->
  Iframe.iframeHtml s' = Iframe.iframeHtml s ->
  Iframe.chatHistory (Iframe.finishLoad w s) = Iframe.chatHistory s /\
  Iframe.dictionary (Iframe.finishLoad w s) = Iframe.dictionary s /\
  Iframe.analysis (Iframe.finishLoad w s) = Iframe.analysis (Iframe.finishLoad w s') /\
  Iframe.articleText (Iframe.finishLoad w s) = Iframe.articleText (Iframe.finishLoad w s') /\
  Iframe.iframeHtml (Iframe.finishLoad w s) = Iframe.iframeHtml (Iframe.finishLoad w s').
Proof.
  intros Hu Ha Hc Hh. unfold Iframe.finishLoad, Iframe.tryLoad. rewrite Hu.
  destruct (fetchHtml w (Iframe.urlInput s)) as [html | e];
    [| fields].
  destruct (Iframe.renderable _ _ _) as [doc | e];
    [| fields].
  destruct (Iframe.documentHtml doc) as [h | e];
    [| fields].
  destruct (Extractor.extract' doc) as [text | e];
    [| fields].
  destruct (analyzeArticle w text) as [r | e]; fields.
Qed.

(** The request a click has just started can be settled. *)
Lemma settleOne_last (t t' : Busy.Task) (l : list Busy.Task) :
  Busy.sameClass t t' = true -> Busy.settleOne t (l ++ [t'])%list <> None.
Proof.
  intros H. induction l as [| x l IH]; cbn [List.app Busy.settleOne].
  - now rewrite H.
  - destruct (Busy.sameClass t x); [discriminate |].
    destruct (Busy.settleOne t (l ++ [t'])%list); [discriminate | now elim IH].
Qed.

(** The click on the load button, for a non-empty URL input. *)
Lemma step_ClickLoad (sys : Busy.System) :
  Direct.urlInput (Busy.ui sys) <> "" ->
  Busy.step Busy.ClickLoad sys
  = {| Busy.ui := Direct.setContextMenuPos None (Direct.clearArticle (Busy.ui sys));
       Busy.inFlight := (Busy.inFlight sys ++ [Busy.LoadTask (Direct.urlInput (Busy.ui sys))])%list;
       Busy.alerts := Busy.alerts sys |}.
Proof.
  intros H. unfold Busy.step. cbn [Busy.available negb].
  unfold Direct.beginLoad. rewrite (truthy_nonempty _ H). reflexivity.
Qed.

(** A load during which nothing else happens is the synchronous prefix
    followed by the rest of the handler. *)
Lemma loadAlone_ui (w : World) (sys : Busy.System) :
  Direct.urlInput (Busy.ui sys) <> "" ->
  Busy.ui (Busy.run (Session.loadAlone (Direct.urlInput (Busy.ui sys)) w) sys)
  = Direct.finishLoadOf w (Direct.urlInput (Busy.ui sys))
      (Direct.setContextMenuPos None (Direct.clearArticle (Busy.ui sys))).
Proof.
  intros H. unfold Busy.run, Session.loadAlone. cbn [fold_left].
  rewrite (step_ClickLoad sys H).
  unfold Busy.step. cbn [Busy.available negb Busy.ui].
  unfold Busy.settled. cbn [Busy.inFlight Busy.ui Busy.alerts].
  destruct (Busy.settleOne _ _) as [rest |] eqn:E.
  - reflexivity.
  - now apply settleOne_last in E.
Qed.

(** C10 (amended): an invocation of the article load with an empty URL
    input returns at once and changes nothing.  Every invocation with a
    non-empty URL input clears the analysis, the chat history and the
    article text (in the iframe variant also the rendered HTML and the
    dictionary popup) at the click, before anything is fetched.  When no
    other handler runs between the click and the end of the load, then
    whatever the fetch and the later steps do, the chat history is empty at
    the end, and the analysis and the article content do not depend on what
    was there before. *)
Theorem C10_load_clears_previous_article (w : World) :
  (forall s : Direct.State,
     (Direct.urlInput s = "" ->
      Direct.beginLoad s = None /\ Direct.handleLoadArticle w s = s) /\
     (Direct.urlInput s <> "" ->
      exists s1, Direct.beginLoad s = Some s1 /\
                 Direct.analysis s1 = None /\ Direct.chatHistory s1 = [] /\
                 Direct.articleContent s1 = "")) /\
  (forall s : Iframe.State,
     (Iframe.urlInput s = "" ->
      Iframe.beginLoad s = None /\ Iframe.handleLoadArticle w s = s) /\
     (Iframe.urlInput s <> "" ->
      exists s1, Iframe.beginLoad s = Some s1 /\
                 Iframe.analysis s1 = None /\ Iframe.chatHistory s1 = [] /\
                 Iframe.articleText s1 = "" /\ Iframe.iframeHtml s1 = "" /\
                 Iframe.dictionary s1 = None)) /\
  (forall sys : Busy.System,
     (Direct.urlInput (Busy.ui sys) = "" -> Busy.step Busy.ClickLoad sys = Busy.bubble sys) /\
     (Direct.urlInput (Busy.ui sys) <> "" ->
      Direct.analysis (Busy.ui (Busy.step Busy.ClickLoad sys)) = None /\
      Direct.chatHistory (Busy.ui (Busy.step Busy.ClickLoad sys)) = [] /\
      Direct.articleContent (Busy.ui (Busy.step Busy.ClickLoad sys)) = "" /\
      Busy.inFlight (Busy.step Busy.ClickLoad sys)
      = (Busy.inFlight sys ++ [Busy.LoadTask (Direct.urlInput (Busy.ui sys))])%list)) /\
  (forall sys sys' : Busy.System,
     Direct.urlInput (Busy.ui sys) <> "" ->
     Direct.urlInput (Busy.ui sys') = Direct.urlInput (Busy.ui sys) ->
     let ended := Busy.run (Session.loadAlone (Direct.urlInput (Busy.ui sys)) w) in
     Direct.chatHistory (Busy.ui (ended sys)) = [] /\
     Direct.analysis (Busy.ui (ended sys)) = Direct.analysis (Busy.ui (ended sys')) /\
     Direct.articleContent (Busy.ui (ended sys))
     = Direct.articleContent (Busy.ui (ended sys'))) /\
  (forall s s' s1 s1' : Iframe.State,
     Iframe.beginLoad s = Some s1 -> Iframe.beginLoad s' = Some s1' ->
     Iframe.urlInput s' = Iframe.urlInput s ->
     Iframe.handleLoadArticle w s = Iframe.finishLoad w s1 /\
     Iframe.chatHistory (Iframe.finishLoad w s1) = [] /\
     Iframe.dictionary (Iframe.finishLoad w s1) = None /\
     Iframe.analysis (Iframe.finishLoad w s1) = Iframe.analysis (Iframe.finishLoad w s1') /\
     Iframe.articleText (Iframe.finishLoad w s1)
     = Iframe.articleText (Iframe.finishLoad w s1') /\
     Iframe.iframeHtml (Iframe.finishLoad w s1)
     = Iframe.iframeHtml (Iframe.finishLoad w s1')).
Proof.
  split; [| split; [| split; [| split]]].
  - intros s. unfold Direct.handleLoadArticle, Direct.beginLoad. split.
    + intros ->. now split.
    + intros H. rewrite (truthy_nonempty _ H). eexists. repeat split.
  - intros s. unfold Iframe.handleLoadArticle, Iframe.beginLoad. split.
    + intros ->. now split.
    + intros H. rewrite (truthy_nonempty _ H). eexists. repeat split.
  - intros sys. split.
    + intros H. unfold Busy.step. cbn [Busy.available negb].
      unfold Direct.beginLoad. now rewrite H.
    + intros H. rewrite (step_ClickLoad sys H). repeat split.
  - intros sys sys' H H'. cbv zeta.
    assert (H2 : Direct.urlInput (Busy.ui sys') <> "") by now rewrite H'.
    pose proof (loadAlone_ui w sys H) as E. pose proof (loadAlone_ui w sys' H2) as E'.
    rewrite H' in E'. rewrite E, E'.
    destruct (direct_finishLoadOf_fields w (Direct.urlInput (Busy.ui sys))
                (Direct.setContextMenuPos None (Direct.clearArticle (Busy.ui sys)))
                (Direct.setContextMenuPos None (Direct.clearArticle (Busy.ui sys'))))
      as [H1 [H3 H4]]; [reflexivity | reflexivity |].
    rewrite H1. fields.
  - intros s s' s1 s1'. unfold Iframe.handleLoadArticle, Iframe.beginLoad.
    destruct (negb (JS.truthy (Iframe.urlInput s))); [discriminate |].
    destruct (negb (JS.truthy (Iframe.urlInput s'))); [discriminate |].
    intros B B' Hu. injection B as <-. injection B' as <-.
    destruct (iframe_finishLoad_fields w (Iframe.clearArticle s)
                (Iframe.clearArticle s')) as [H1 [H2 [H3 [H4 H5]]]];
      [exact Hu | reflexivity | reflexivity | reflexivity |].
    rewrite H1, H2. fields.
Qed.

Lemma C10_load_clears_previous_article_witness :
  Direct.chatHistory
    (Busy.ui (Busy.run (Session.loadAlone "https://example.com/post" offline)
                (Session.reading "https://example.com/post"))) = [] /\
  Direct.analysis
    (Busy.ui (Busy.run (Session.loadAlone "https://example.com/blog-post" online)
                (Session.reading "https://example.com/blog-post")))
  = Direct.analysis
      (Busy.ui (Busy.run (Session.loadAlone "https://example.com/blog-post" online)
                  Busy.initialSystem)) /\
  Iframe.dictionary
    (Iframe.finishLoad online
       (Iframe.clearArticle (readingIframe "https://example.com/post"))) = None.
Proof.
  destruct (C10_load_clears_previous_article offline) as [_ [_ [_ [D _]]]].
  destruct (C10_load_clears_previous_article online) as [_ [_ [_ [D' I]]]].
  split; [| split].
  - refine (proj1 (D (Session.reading "https://example.com/post")
                     (Session.reading "https://example.com/post") _ eq_refl)).
    discriminate.
  - refine (proj1 (proj2 (D' (Session.reading "https://example.com/blog-post")
                             Busy.initialSystem _ eq_refl))).
    discriminate.
  - refine (proj1 (proj2 (proj2 (I (readingIframe "https://example.com/post")
                                   (readingIframe "https://example.com/post")
                                   _ _ eq_refl eq_refl eq_refl)))).
Defined.

End LoadFacts.

(** ** Selection Capture *)

Module SelectionFacts.
Import Dom Types Examples.

Lemma take_length (n : nat) (s : string) :
  n <= String.length s -> String.length (JS.take n s) = n.
Proof.
  revert s. induction n as [| n IH]; intros [| c r] H; simpl in *; try lia.
  rewrite IH; lia.
Qed.

Lemma append_length (a b : string) :
  String.length (a ++ b) = String.length a + String.length b.
Proof. induction a as [| c a IH]; simpl; [reflexivity | now rewrite IH]. Qed.

(** C7, as stated, fails on an empty selection: only the menu position is
    reset, the word and context captured earlier stay. *)
Lemma C7_empty_selection_keeps_captured_data :
  let sel := Some {| toString := ""; anchorNode := None |} in
  let e := {| clientX := 5; clientY := 6 |} in
  Direct.selectedTextData
    (fst (Direct.handleContextMenu e sel (readingDirect "https://example.com/post")))
  = Some {| selWord := "earlier"; selContext := "An earlier article." |} /\
  Iframe.selectedTextData
    (fst (Iframe.handleIframeContextMenu (100, 50)%Z e sel
            (readingIframe "https://example.com/post")))
  = Some {| selWord := "earlier"; selContext := "An earlier article." |} /\
  String.length
    (Iframe.truncateContext
       (Examples.skyParagraph)) = 203.
Proof. repeat split. Qed.

(** C7 (amended): both context-menu handlers always suppress the default
    menu.  When there is no selection or its trimmed text is empty, only
    the menu position is reset; the word and context captured earlier are
    left as they are.  Otherwise the captured data is the trimmed selection
    and, as context, the text of the parent element of the anchor node (the
    empty string without one); the iframe variant keeps a context of up to
    200 characters whole and cuts a longer one to its first 200 characters
    followed by three dots. *)
Theorem C7_selection_capture (rect : Z * Z) (e : MouseEvent)
  (selection : option Selection) (sD : Direct.State) (sI : Iframe.State) :
  snd (Direct.handleContextMenu e selection sD) = true /\
  snd (Iframe.handleIframeContextMenu rect e selection sI) = true /\
  match selection with
  | None =>
      fst (Direct.handleContextMenu e selection sD) = Direct.setContextMenuPos None sD /\
      fst (Iframe.handleIframeContextMenu rect e selection sI) = Iframe.setContextMenuPos None sI
  | Some sel =>
      if String.eqb (JS.trim (toString sel)) "" then
        fst (Direct.handleContextMenu e selection sD) = Direct.setContextMenuPos None sD /\
        fst (Iframe.handleIframeContextMenu rect e selection sI) = Iframe.setContextMenuPos None sI
      else
        let sD' := fst (Direct.handleContextMenu e selection sD) in
        let sI' := fst (Iframe.handleIframeContextMenu rect e selection sI) in
        Direct.selectedTextData sD' =
          Some {| selWord := JS.trim (toString sel); selContext := Types.parentText sel |} /\
        Direct.contextMenuPos sD' = Some (clientX e, clientY e) /\
        Iframe.selectedTextData sI' =
          Some {| selWord := JS.trim (toString sel);
                  selContext := Iframe.truncateContext (Types.parentText sel) |} /\
        Iframe.contextMenuPos sI' = Some (fst rect + clientX e, snd rect + clientY e)%Z
  end /\
  (forall context,
     Iframe.truncateContext context =
       if (String.length context <=? 200)%nat then context
       else JS.take 200 context ++ "...") /\
  (forall context,
     String.length (Iframe.truncateContext context) =
       if (String.length context <=? 200)%nat then String.length context else 203).
Proof.
  split; [| split; [| split; [| split]]].
  - unfold Direct.handleContextMenu. destruct selection as [sel |]; [| reflexivity].
    now destruct (_ =? 0)%nat.
  - unfold Iframe.handleIframeContextMenu. destruct selection as [sel |]; [| reflexivity].
    simpl. now destruct (_ && _).
  - destruct selection as [sel |]; [| split; reflexivity].
    unfold Direct.handleContextMenu, Iframe.handleIframeContextMenu, parentText. simpl.
    destruct (JS.trim (toString sel)) as [| c r] eqn:Ht; simpl; [split; reflexivity |].
    repeat split.
    destruct (anchorNode sel) as [[t |] |]; reflexivity.
  - intros context. unfold Iframe.truncateContext, Iframe.contextLimit.
    destruct (Nat.ltb_spec 200 (String.length context));
      destruct (Nat.leb_spec (String.length context) 200); try lia; reflexivity.
  - intros context. unfold Iframe.truncateContext, Iframe.contextLimit.
    destruct (Nat.ltb_spec 200 (String.length context));
      destruct (Nat.leb_spec (String.length context) 200); try lia; try reflexivity.
    rewrite append_length, take_length by lia. reflexivity.
Qed.

End SelectionFacts.

(** ** URL Rewriter *)

Module RewriterFacts.
Import Dom Rewriter.

Lemma getAttribute_setAttribute (n v : string) (a : list attr) :
  getAttribute n (setAttribute n v a) = Some v.
Proof.
  induction a as [| [k x] a IH]; simpl.
  - now rewrite String.eqb_refl.
  - destruct (String.eqb k n) eqn:E; simpl; now rewrite E.
Qed.

Lemma getAttribute_setAttribute_other (n m v : string) (a : list attr) :
  n <> m -> getAttribute m (setAttribute n v a) = getAttribute m a.
Proof.
  intros Hne. induction a as [| [k x] a IH]; simpl.
  - apply String.eqb_neq in Hne. now rewrite Hne.
  - destruct (String.eqb k n) eqn:E; simpl.
    + apply String.eqb_eq in E. subst k.
      apply String.eqb_neq in Hne. now rewrite Hne.
    + now rewrite IH.
Qed.

Lemma getAttribute_removeAttribute_other (n m : string) (a : list attr) :
  n <> m -> getAttribute m (removeAttribute n a) = getAttribute m a.
Proof.
  intros Hne. induction a as [| [k x] a IH]; simpl; [reflexivity |].
  destruct (String.eqb k n) eqn:E; simpl.
  - apply String.eqb_eq in E. subst k.
    apply String.eqb_neq in Hne. now rewrite Hne.
  - now rewrite IH.
Qed.

Lemma setAttribute_same (n v : string) (a : list attr) :
  getAttribute n a = Some v -> setAttribute n v a = a.
Proof.
  induction a as [| [k x] a IH]; simpl; [discriminate |].
  destruct (String.eqb k n) eqn:E.
  - now intros [= ->].
  - intros H. now rewrite IH.
Qed.

Lemma removeAttribute_idem (n : string) (a : list attr) :
  removeAttribute n (removeAttribute n a) = removeAttribute n a.
Proof.
  induction a as [| [k x] a IH]; simpl; [reflexivity |].
  destruct (String.eqb k n) eqn:E; simpl; [assumption |].
  now rewrite E, IH.
Qed.

Section WithURL.

Variable URL_href : string -> string -> option string.
Variable baseUrl : string.

#[local] Abbreviation toAbsolute := (Rewriter.toAbsolute URL_href baseUrl).
#[local] Abbreviation absolutize := (Rewriter.absolutize URL_href baseUrl).
#[local] Abbreviation rewriteAttrs := (Rewriter.rewriteAttrs URL_href baseUrl).
#[local] Abbreviation rewriteNode := (Rewriter.rewriteNode URL_href baseUrl).
#[local] Abbreviation rewriteUrls := (Rewriter.rewriteUrls URL_href baseUrl).
#[local] Abbreviation rewritten := (Rewriter.rewritten URL_href baseUrl).
#[local] Abbreviation rewrittenFrom := (Rewriter.rewrittenFrom URL_href baseUrl).

Lemma getAttribute_absolutize (name : string) (a : list attr) :
  getAttribute name (absolutize name a) = option_map rewritten (getAttribute name a).
Proof.
  unfold Rewriter.absolutize, rewritten, Rewriter.toAbsolute.
  destruct (getAttribute name a) as [v |] eqn:E; simpl; [| now rewrite E].
  destruct (JS.truthy v); [apply getAttribute_setAttribute | now rewrite E].
Qed.

Lemma getAttribute_rewriteAttrs (tag name : string) (a : list attr) :
  resourceAttribute tag = Some name ->
  getAttribute name (rewriteAttrs tag a) = option_map rewritten (getAttribute name a).
Proof.
  unfold resourceAttribute, Rewriter.rewriteAttrs.
  destruct (String.eqb tag "img"); [intros [= <-] |
    destruct (String.eqb tag "link"); [intros [= <-] |
      destruct (String.eqb tag "a"); [intros [= <-] | discriminate]]].
  - unfold rewriteImg. rewrite getAttribute_removeAttribute_other by discriminate.
    apply getAttribute_absolutize.
  - apply getAttribute_absolutize.
  - unfold rewriteA. rewrite getAttribute_setAttribute_other by discriminate.
    apply getAttribute_absolutize.
Qed.

(** The three [querySelectorAll] passes amount to one traversal. *)
Lemma forEach_passes_fused (n : node) :
  forEachTag "a" (rewriteA URL_href baseUrl)
    (forEachTag "link" (rewriteLink URL_href baseUrl)
       (forEachTag "img" (rewriteImg URL_href baseUrl) n)) = rewriteNode n.
Proof.
  induction n using node_rect' with
    (Q := fun ch =>
            map (forEachTag "a" (rewriteA URL_href baseUrl))
              (map (forEachTag "link" (rewriteLink URL_href baseUrl))
                 (map (forEachTag "img" (rewriteImg URL_href baseUrl)) ch))
            = map rewriteNode ch).
  - reflexivity.
  - cbn [forEachTag Rewriter.rewriteNode]. rewrite IHn. f_equal.
    unfold Rewriter.rewriteAttrs.
    destruct (String.eqb t "img") eqn:E1.
    { apply String.eqb_eq in E1. subst t. reflexivity. }
    destruct (String.eqb t "link") eqn:E2.
    { apply String.eqb_eq in E2. subst t. reflexivity. }
    reflexivity.
  - reflexivity.
  - cbn [map]. now rewrite IHn, IHn0.
Qed.

Lemma rewriteUrls_fused (doc : Document) :
  rewriteUrls doc = map rewriteNode doc.
Proof.
  unfold Rewriter.rewriteUrls. rewrite !map_map.
  apply map_ext. intros n. apply forEach_passes_fused.
Qed.

Lemma elements_rewriteNode (n : node) :
  elements (rewriteNode n) = map rewriteNode (elements n).
Proof.
  induction n using node_rect' with
    (Q := fun ch => flat_map elements (map rewriteNode ch)
                    = map rewriteNode (flat_map elements ch)).
  - reflexivity.
  - cbn [Rewriter.rewriteNode elements map]. now rewrite IHn.
  - reflexivity.
  - cbn [map flat_map]. now rewrite map_app, IHn, IHn0.
Qed.

Lemma elementsOf_rewriteUrls (doc : Document) :
  elementsOf (rewriteUrls doc) = map rewriteNode (elementsOf doc).
Proof.
  rewrite rewriteUrls_fused. unfold elementsOf.
  induction doc as [| n doc IH]; [reflexivity |].
  cbn [map flat_map]. now rewrite map_app, elements_rewriteNode, IH.
Qed.

Lemma rewriteNode_rewrittenFrom (e : node) : rewrittenFrom e (rewriteNode e).
Proof.
  destruct e as [d | t a ch]; simpl.
  - split; [reflexivity | discriminate].
  - split; [reflexivity |]. intros name H. now apply getAttribute_rewriteAttrs.
Qed.

Lemma rewriteUrls_elements (doc : Document) :
  Forall2 rewrittenFrom (elementsOf doc) (elementsOf (rewriteUrls doc)).
Proof.
  rewrite elementsOf_rewriteUrls.
  induction (elementsOf doc) as [| e l IH]; constructor;
    [apply rewriteNode_rewrittenFrom | exact IH].
Qed.

(** *** Idempotence *)

Lemma absolutize_absolutized (name : string) (a b : list attr) :
  (forall v, getAttribute name a = Some v -> JS.truthy v = true ->
             toAbsolute (toAbsolute v) = toAbsolute v) ->
  getAttribute name b = getAttribute name (absolutize name a) ->
  absolutize name b = b.
Proof.
  intros Hst Hb. unfold Rewriter.absolutize at 1. rewrite Hb.
  rewrite getAttribute_absolutize.
  destruct (getAttribute name a) as [v |] eqn:E; simpl; [| reflexivity].
  unfold rewritten. fold (toAbsolute v).
  destruct (JS.truthy v) eqn:T.
  - destruct (JS.truthy (toAbsolute v)); [| reflexivity].
    rewrite (Hst v eq_refl T). apply setAttribute_same.
    rewrite Hb, getAttribute_absolutize, E. simpl. unfold rewritten. now rewrite T.
  - now rewrite T.
Qed.

Lemma absolutize_idem (name : string) (a : list attr) :
  (forall v, getAttribute name a = Some v -> JS.truthy v = true ->
             toAbsolute (toAbsolute v) = toAbsolute v) ->
  absolutize name (absolutize name a) = absolutize name a.
Proof.
  intros Hst. now apply (absolutize_absolutized name a).
Qed.

Lemma rewriteAttrs_idem (tag : string) (a : list attr) :
  (forall v, resourceUrl (Elem tag a []) = Some v ->
             toAbsolute (toAbsolute v) = toAbsolute v) ->
  rewriteAttrs tag (rewriteAttrs tag a) = rewriteAttrs tag a.
Proof.
  unfold resourceUrl, resourceAttribute, Rewriter.rewriteAttrs. simpl.
  destruct (String.eqb tag "img"); [|
    destruct (String.eqb tag "link"); [|
      destruct (String.eqb tag "a"); [| reflexivity]]]; intros Hst.
  - unfold rewriteImg.
    rewrite (absolutize_absolutized "src" a).
    + apply removeAttribute_idem.
    + intros v E T. apply Hst. now rewrite E, T.
    + apply getAttribute_removeAttribute_other. discriminate.
  - unfold rewriteLink. apply absolutize_idem.
    intros v E T. apply Hst. now rewrite E, T.
  - unfold rewriteA.
    rewrite (absolutize_absolutized "href" a).
    + apply setAttribute_same, getAttribute_setAttribute.
    + intros v E T. apply Hst. now rewrite E, T.
    + apply getAttribute_setAttribute_other. discriminate.
Qed.

Lemma resourceUrl_children_irrelevant (t : string) (a : list attr) (ch : list node) :
  resourceUrl (Elem t a ch) = resourceUrl (Elem t a []).
Proof. reflexivity. Qed.

Lemma rewriteNode_idem (n : node) :
  (forall v, In v (resourceUrls [n]) -> toAbsolute (toAbsolute v) = toAbsolute v) ->
  rewriteNode (rewriteNode n) = rewriteNode n.
Proof.
  induction n using node_rect' with
    (Q := fun ch =>
            (forall v, In v (resourceUrls ch) -> toAbsolute (toAbsolute v) = toAbsolute v) ->
            map rewriteNode (map rewriteNode ch) = map rewriteNode ch).
  - reflexivity.
  - intros Hst. cbn [Rewriter.rewriteNode]. f_equal.
    + apply rewriteAttrs_idem. intros v Hv. apply Hst.
      unfold resourceUrls, elementsOf. cbn [flat_map elements].
      rewrite app_nil_r. cbn [flat_map]. rewrite resourceUrl_children_irrelevant, Hv.
      now left.
    + apply IHn. intros v Hv. apply Hst.
      unfold resourceUrls, elementsOf in *. cbn [flat_map elements].
      rewrite app_nil_r. cbn [flat_map]. apply in_or_app. now right.
  - reflexivity.
  - intros Hst. cbn [map]. f_equal.
    + apply IHn. intros v Hv. apply Hst.
      unfold resourceUrls, elementsOf in *. cbn [flat_map] in *.
      rewrite app_nil_r in Hv. rewrite flat_map_app. apply in_or_app. now left.
    + apply IHn0. intros v Hv. apply Hst.
      unfold resourceUrls, elementsOf in *. cbn [flat_map].
      rewrite flat_map_app. apply in_or_app. now right.
Qed.

Lemma rewriteUrls_idem (doc : Document) :
  (forall v, In v (resourceUrls doc) -> toAbsolute (toAbsolute v) = toAbsolute v) ->
  rewriteUrls (rewriteUrls doc) = rewriteUrls doc.
Proof.
  intros Hst. rewrite !rewriteUrls_fused.
  induction doc as [| n doc IH]; [reflexivity |].
  cbn [map]. f_equal.
  - apply rewriteNode_idem. intros v Hv. apply Hst.
    unfold resourceUrls, elementsOf in *. cbn [flat_map] in *.
    rewrite app_nil_r in Hv. rewrite flat_map_app. apply in_or_app. now left.
  - apply IH. intros v Hv. apply Hst.
    unfold resourceUrls, elementsOf in *. cbn [flat_map].
    rewrite flat_map_app. apply in_or_app. now right.
Qed.

End WithURL.

End RewriterFacts.

Module RewriterClaims.
Import Dom Rewriter RewriterFacts.

(** C4, as stated, fails for the empty reference: standard resolution of
    the empty string yields the base URL, but the rewriter skips empty
    attribute values and leaves them empty. *)
Lemma C4_empty_reference_is_left_alone :
  URL.href "" "https://example.com/post" = Some "https://example.com/post" /\
  rewriteUrls URL.href "https://example.com/post" (logoPage "") = logoPage "" /\
  rewriteUrls URL.href "https://example.com/post" (logoPage "")
    <> logoPage "https://example.com/post".
Proof. repeat split. discriminate. Qed.

(** C4 (amended): the rewriter keeps the element structure and, on every
    img (src), link (href) and a (href), replaces a non-empty attribute
    value by the result of resolving it against the base URL; when the
    resolution fails the value is kept as it is, an empty or missing
    attribute is not touched, and no error is raised.  With the reference
    resolver, [/logo.png] against [https://example.com/post] becomes
    [https://example.com/logo.png], and a reference with an invalid host is
    passed through. *)
Theorem C4_rewriter_resolves_references
  (URL_href : string -> string -> option string) (base : string) (doc : Document) :
  Forall2
    (fun e e' =>
       tagOf e' = tagOf e /\
       forall name, resourceAttribute (tagOf e) = Some name ->
         getAttribute name (attrsOf e') =
         match getAttribute name (attrsOf e) with
         | Some v =>
             Some (if String.eqb v "" then v
                   else match URL_href v base with
                        | Some href => href
                        | None => v
                        end)
         | None => None
         end)
    (elementsOf doc) (elementsOf (rewriteUrls URL_href base doc)) /\
  rewriteUrls URL.href "https://example.com/post" (logoPage "/logo.png")
    = logoPage "https://example.com/logo.png" /\
  URL.href "https://exa mple.com/logo.png" "https://example.com/post" = None /\
  rewriteUrls URL.href "https://example.com/post" (logoPage "https://exa mple.com/logo.png")
    = logoPage "https://exa mple.com/logo.png".
Proof.
  split; [| repeat split].
  eapply Forall2_impl; [| apply rewriteUrls_elements].
  intros e e' [Ht Ha]. split; [exact Ht |].
  intros name Hn. rewrite (Ha name Hn).
  destruct (getAttribute name (attrsOf e)) as [v |]; [| reflexivity].
  simpl. unfold rewritten. now destruct v.
Qed.

Lemma C4_rewriter_resolves_references_witness :
  getAttribute "href"
    (attrsOf (nth 7 (elementsOf (rewriteUrls URL.href "https://example.com/post"
                                   Examples.skyPage)) (Text "")))
  = Some "https://example.com/next".
Proof.
  pose proof (proj1 (C4_rewriter_resolves_references URL.href
                       "https://example.com/post" Examples.skyPage)) as H.
  assert (Hn : forall (l l' : list node) R, Forall2 R l l' ->
                 forall i, i < List.length l -> R (nth i l (Text "")) (nth i l' (Text ""))).
  { intros l l' R HF. induction HF; intros i Hi; simpl in *; [lia |].
    destruct i; [assumption | apply IHHF; lia]. }
  destruct (Hn _ _ _ H 7) as [_ Ha]; [simpl; lia |].
  rewrite (Ha "href"); reflexivity.
Defined.

(** C9: the rewriter is idempotent, provided resolution is stable on what
    it produced for the references of the document (an already absolute URL
    resolves to itself): a second run with the same base URL changes
    nothing. *)
Theorem C9_rewriter_idempotent
  (URL_href : string -> string -> option string) (base : string) (doc : Document) :
  (forall v, In v (resourceUrls doc) ->
             toAbsolute URL_href base (toAbsolute URL_href base v)
             = toAbsolute URL_href base v) ->
  rewriteUrls URL_href base (rewriteUrls URL_href base doc)
  = rewriteUrls URL_href base doc.
Proof. apply rewriteUrls_idem. Qed.

Lemma C9_rewriter_idempotent_witness :
  resourceUrls Examples.skyPage = ["/logo.png"; "next"] /\
  rewriteUrls URL.href "https://example.com/post"
    (rewriteUrls URL.href "https://example.com/post" Examples.skyPage)
  = rewriteUrls URL.href "https://example.com/post" Examples.skyPage.
Proof.
  split; [reflexivity |].
  apply (C9_rewriter_idempotent URL.href "https://example.com/post" Examples.skyPage).
  intros v Hv. simpl in Hv.
  destruct Hv as [<- | [<- | []]]; reflexivity.
Defined.

(** The stability premise follows from the usual property of URL
    serialization: the [href] of a URL parses back to itself. *)
Lemma rewriter_idempotent_for_stable_resolver
  (URL_href : string -> string -> option string) (base : string) (doc : Document) :
  (forall u href, URL_href u base = Some href -> URL_href href base = Some href) ->
  rewriteUrls URL_href base (rewriteUrls URL_href base doc)
  = rewriteUrls URL_href base doc.
Proof.
  intros Hst. apply rewriteUrls_idem. intros v _. unfold toAbsolute.
  destruct (URL_href v base) as [h |] eqn:E.
  - now rewrite (Hst v h E).
  - now rewrite E.
Qed.

End RewriterClaims.

(** ** Busy/idle bookkeeping *)

Module BusyFacts.
Import Types Direct Busy.

(** C8, as stated, fails: the load button is never disabled, so two loads
    run at once; and because there is one state variable for all classes,
    starting an image analysis re-enables the send button while a chat
    request is still in flight. *)
Lemma C8_same_class_requests_overlap :
  loadingState (ui (run [ClickLoad] initialSystem)) = ANALYZING /\
  inFlight (run [ClickLoad; ClickLoad] initialSystem)
    = [LoadTask "https://example.com/blog-post"; LoadTask "https://example.com/blog-post"] /\
  inFlightOf (LoadTask "") (run [ClickLoad; ClickLoad] initialSystem) = 2 /\
  inFlight (run chatImageChat initialSystem) = [ChatTask; ImageTask; ChatTask] /\
  inFlightOf ChatTask (run chatImageChat initialSystem) = 2.
Proof. repeat split. Qed.

(** C8 (amended): the host keeps a single loading-state variable with the
    values IDLE, ANALYZING, DEFINING, CHATTING and IMAGE_ANALYZING; while it
    holds CHATTING a click on the send button starts nothing, while it holds
    IMAGE_ANALYZING a click on the analyze-image button starts nothing, and
    while it holds ANALYZING a click on the manual analyze button starts
    nothing: the state of the host is left exactly as it was. *)
Theorem C8_busy_value_blocks_its_button (ev : Event) (busy : LoadingState)
  (sys : System) :
  gatedBy ev = Some busy ->
  loadingState (ui sys) = busy ->
  step ev sys = sys /\ inFlight (step ev sys) = inFlight sys.
Proof.
  intros Hg Hb.
  assert (H : available ev (ui sys) = false).
  { destruct ev; simpl in Hg; try discriminate; injection Hg as <-;
      simpl; rewrite Hb; simpl; now rewrite ?andb_false_r. }
  unfold step. rewrite H. simpl. split; reflexivity.
Qed.

Lemma C8_busy_value_blocks_its_button_witness :
  let sys := run [ClickTab chatTab; TypeChat "What is this about?"; ClickSend 1000;
                  TypeChat "And why?"] initialSystem in
  inFlight sys = [ChatTask] /\ step (ClickSend 2000) sys = sys.
Proof.
  split; [reflexivity |].
  apply (C8_busy_value_blocks_its_button (ClickSend 2000) CHATTING); reflexivity.
Defined.

(** The Enter key of the chat input calls the same handler without looking
    at the loading state. *)
Lemma enter_key_is_not_gated :
  inFlight (run [ClickTab chatTab; TypeChat "What is this about?"; PressEnter 1000;
                 TypeChat "And why?"; PressEnter 2000] initialSystem)
  = [ChatTask; ChatTask].
Proof. reflexivity. Qed.

End BusyFacts.

(** ** Anchor Locator: the not-found path *)

Module NotFoundFacts.
Import Dom Types.

Lemma scan_not_found (a : string) (rest seen : DirectAnchor.Paragraphs) :
  forallb (fun p => negb (JS.includes (textContents p) a)) rest = true ->
  DirectAnchor.scan a seen rest
  = DirectAnchor.NotFound "Could not find exact text match for anchor.".
Proof.
  revert seen. induction rest as [| p r IH]; intros seen H; simpl in *.
  - reflexivity.
  - apply andb_true_iff in H. destruct H as [Hp Hr].
    apply negb_true_iff in Hp. rewrite Hp. now apply IH.
Qed.

Lemma findText_none (a : string) (n : node) :
  forall c, forallb (fun d => negb (JS.includes d a)) (IframeAnchor.textNodes n) = true ->
            IframeAnchor.findText a c n = None.
Proof.
  induction n using node_rect' with
    (Q := fun ch => forall t at_ c left,
            forallb (fun d => negb (JS.includes d a))
                    (flat_map IframeAnchor.textNodes ch) = true ->
            IframeAnchor.firstChild
              (fun left r x => IframeAnchor.findText a (IframeAnchor.Down t at_ left c r) x)
              left ch = None).
  - intros c H. simpl in *. rewrite andb_true_r in H.
    apply negb_true_iff in H. now rewrite H.
  - intros c H. simpl. now apply IHn.
  - reflexivity.
  - intros t at_ c left H. cbn [flat_map] in H.
    rewrite forallb_app in H. apply andb_true_iff in H. destruct H as [H1 H2].
    cbn [IframeAnchor.firstChild]. rewrite (IHn _ H1). now apply IHn0.
Qed.

Lemma trim_empty : JS.trim "" = "".
Proof. reflexivity. Qed.

(** C6, as stated, fails in both variants, because the search is for the
    trimmed anchor: an anchor with a trailing blank that occurs nowhere
    verbatim is nevertheless located through its trimmed form, and in the
    iframe variant an anchor of blanks only makes the handler return
    without any notice. *)
Lemma C6_untrimmed_anchor_gets_no_notice :
  JS.includes "The sky is blue" "sky is blue " = false /\
  DirectAnchor.handleScrollToQuote "sky is blue " [[Text "The sky is blue"]]
    <> DirectAnchor.NotFound "Could not find exact text match for anchor." /\
  forallb (fun d => negb (JS.includes d "   "))
    (IframeAnchor.textNodes (IframeAnchor.page "Hello world. The sky is blue today."))
    = true /\
  IframeAnchor.handleScrollToQuote
    (IframeAnchor.browser "Hello world. The sky is blue today.") "   "
    = IframeAnchor.Ignored.
Proof. repeat split. vm_compute. discriminate. Qed.

(** C6 (amended): when the trimmed anchor occurs in the text of no
    paragraph, the direct-render locator raises its not-found notice; when
    the trimmed anchor is not empty, occurs in no text node under the body
    of the mounted document, and the native search of the frame exists and
    does not find it either, the iframe locator raises its not-found
    notice.  Both handlers are total: they end in one of their outcomes. *)
Theorem C6_not_found_is_reported (anchor : string)
  (ps : DirectAnchor.Paragraphs)
  (win : IframeAnchor.Window) (root body : node) (bc : IframeAnchor.ctx)
  (nativeFind : string -> bool) :
  forallb (fun p => negb (JS.includes (textContents p) (JS.trim anchor))) ps = true ->
  IframeAnchor.document win = Some root ->
  IframeAnchor.bodyOf root = Some (bc, body) ->
  JS.trim anchor <> "" ->
  forallb (fun d => negb (JS.includes d (JS.trim anchor)))
          (IframeAnchor.textNodes body) = true ->
  IframeAnchor.find win = Some nativeFind ->
  nativeFind (JS.trim anchor) = false ->
  DirectAnchor.handleScrollToQuote anchor ps
    = DirectAnchor.NotFound "Could not find exact text match for anchor." /\
  IframeAnchor.handleScrollToQuote win anchor
    = IframeAnchor.Alerted "Could not find the exact text in the article view.".
Proof.
  intros Hps Hdoc Hbody Hne Htext Hfind Hnative. split.
  - now apply scan_not_found.
  - unfold IframeAnchor.handleScrollToQuote. rewrite Hdoc.
    assert (Ha : JS.truthy anchor = true).
    { destruct anchor; [now elim Hne | reflexivity]. }
    assert (Hc : JS.truthy (JS.trim anchor) = true).
    { destruct (JS.trim anchor); [now elim Hne | reflexivity]. }
    rewrite Ha, Hc. cbn [negb]. rewrite Hbody.
    rewrite (findText_none _ _ _ Htext).
    unfold IframeAnchor.fallback. now rewrite Hfind, Hnative.
Qed.

Lemma C6_not_found_is_reported_witness :
  DirectAnchor.handleScrollToQuote "nonexistent phrase xyz"
    [[Text "Hello world. The sky is blue today."]]
    = DirectAnchor.NotFound "Could not find exact text match for anchor." /\
  IframeAnchor.handleScrollToQuote
    (IframeAnchor.browser "Hello world. The sky is blue today.")
    "nonexistent phrase xyz"
    = IframeAnchor.Alerted "Could not find the exact text in the article view.".
Proof.
  apply (C6_not_found_is_reported "nonexistent phrase xyz"
           [[Text "Hello world. The sky is blue today."]]
           (IframeAnchor.browser "Hello world. The sky is blue today.")
           (IframeAnchor.page "Hello world. The sky is blue today.")
           (Elem "body" [] [Elem "article" []
              [Elem "p" [] [Text "Hello world. The sky is blue today."]]])
           (IframeAnchor.Down "html" [] [Elem "head" [] []] IframeAnchor.Top [])
           (fun _ => false));
    try reflexivity.
  discriminate.
Defined.

End NotFoundFacts.

(** ** Strings, serialization and parsing *)

Module ParserFacts.
Import Dom Parser.


Lemma append_assoc (a b c : string) : (a ++ b) ++ c = a ++ b ++ c.
Proof. induction a as [| x a IH]; simpl; [reflexivity | now rewrite IH]. Qed.


Lemma free_app (p : ascii -> bool) (a b : string) :
  Str.free p (a ++ b) = Str.free p a && Str.free p b.
Proof.
  induction a as [| c a IH]; simpl; [reflexivity |].
  now rewrite IH, andb_assoc.
Qed.

Lemma startsWith_app (s a : string) :
  JS.startsWith s a = true -> s = a ++ JS.drop (String.length a) s.
Proof.
  revert s. induction a as [| x a IH]; intros s H; simpl in *.
  - now destruct s.
  - destruct s as [| y s]; [discriminate |].
    apply andb_true_iff in H. destruct H as [Hxy Hs].
    apply Ascii.eqb_eq in Hxy. subst y. simpl. f_equal. now apply IH.
Qed.

(** The first occurrence splits the text around the pattern. *)
Lemma findFirst_includes (a s : string) :
  JS.includes s a = true ->
  exists pre post, Str.findFirst a s = Some (pre, post) /\ s = pre ++ a ++ post.
Proof.
  induction s as [| c s IH]; intros H.
  - simpl in H. rewrite orb_false_r in H. simpl. rewrite H.
    exists "", (JS.drop (String.length a) ""). split; [reflexivity |].
    now apply startsWith_app.
  - cbn [JS.includes] in H. cbn [Str.findFirst].
    destruct (JS.startsWith (String c s) a) eqn:E.
    + exists "", (JS.drop (String.length a) (String c s)). split; [reflexivity |].
      now apply startsWith_app.
    + simpl in H. destruct (IH H) as [pre [post [Hf Hs]]].
      rewrite Hf. exists (String c pre), post. split; [reflexivity |].
      simpl. now rewrite <- Hs.
Qed.













End ParserFacts.

(** ** Anchor Locator: locating and restoring *)

Module AnchorFacts.
Import Dom Parser ParserFacts IframeAnchor.






























(** *** Direct-render variant *)

Lemma startsWith_prefix (a post : string) : JS.startsWith (a ++ post) a = true.
Proof.
  induction a as [| x a IH]; [reflexivity |].
  cbn [append JS.startsWith]. now rewrite Ascii.eqb_refl, IH.
Qed.

Lemma includes_infix (pre a post : string) : JS.includes (pre ++ a ++ post) a = true.
Proof.
  induction pre as [| x pre IH].
  - cbn [append]. destruct (a ++ post) eqn:E; cbn [JS.includes];
      rewrite <- E, startsWith_prefix; reflexivity.
  - cbn [append JS.includes]. rewrite IH. apply orb_true_r.
Qed.

Lemma trimStart_suffix (a : string) : exists u, a = u ++ JS.trimStart a.
Proof.
  induction a as [| x a [u IH]]; [now exists "" |].
  cbn [JS.trimStart]. destruct (JS.isWhite x).
  - exists (String x u). cbn [append]. now rewrite <- IH.
  - now exists "".
Qed.

Lemma trimEnd_prefix (a : string) : exists v, a = JS.trimEnd a ++ v.
Proof.
  induction a as [| x a [v IH]]; [now exists "" |].
  cbn [JS.trimEnd]. destruct (JS.trimEnd a) as [| y r] eqn:E.
  - destruct (JS.isWhite x).
    + now exists (String x a).
    + exists a. reflexivity.
  - exists v. cbn [append]. f_equal. exact IH.
Qed.






(** The reader pane holds nothing but plain text paragraphs. *)
Lemma renderParagraphs_plain (s : Direct.State) :
  exists texts, DirectAnchor.renderParagraphs s = map DirectAnchor.textChild texts.
Proof.
  unfold DirectAnchor.renderParagraphs.
  destruct (JS.truthy (Direct.articleContent s)).
  - destruct (Direct.dictionary s) as [dict |].
    + eexists (_ ++ [_; _; _])%list. rewrite map_app. reflexivity.
    + eexists. rewrite app_nil_r. reflexivity.
  - destruct (Direct.dictionary s) as [dict |].
    + now eexists [_; _; _; _; _].
    + now eexists [_; _].
Qed.

End AnchorFacts.

Module AnchorClaims.
Import Dom Parser IframeAnchor AnchorFacts.




(** A dollar sign in the anchor is read by [String.replace] as a
    replacement pattern, so the span can show another text than the anchor;
    the timer puts the anchor itself back. *)
Lemma dollar_anchor_is_restored :
  handleScrollToQuote (browser "pay $$5 now") "$$5"
  = Highlighted
      (page' [Text "pay "; Elem "span" spanAttrs [Text "$5"]; Text " now"])
      (Some (Down "p" [] [Text "pay "]
               (Down "article" [] []
                  (Down "body" [] [] (Down "html" [] [Elem "head" [] []] Top []) []) [])
               [Text " now"],
             Elem "span" spanAttrs [Text "$5"])) /\
  textAfterHighlight (browser "pay $$5 now") "$$5" = Some "pay $$5 now".
Proof. split; reflexivity. Qed.

End AnchorClaims.

(** ** The model service *)

Module GeminiFacts.
Import GeminiService.

Lemma getProp_setProp (key : string) (v : json) (props : list (string * json)) :
  getProp key (setProp key v props) = Some v.
Proof.
  induction props as [| [k x] r IH]; simpl.
  - now rewrite String.eqb_refl.
  - destruct (String.eqb k key) eqn:E; simpl; now rewrite E.
Qed.

Lemma getProp_setProp_other (key other : string) (v : json)
  (props : list (string * json)) :
  other <> key -> getProp other (setProp key v props) = getProp other props.
Proof.
  intros H. induction props as [| [k x] r IH]; simpl.
  - apply String.eqb_neq in H. rewrite String.eqb_sym in H. now rewrite H.
  - destruct (String.eqb k key) eqn:E; simpl.
    + apply String.eqb_eq in E. subst k.
      destruct (String.eqb key other) eqn:E'; [| reflexivity].
      apply String.eqb_eq in E'. now elim H.
    + now rewrite IH.
Qed.

Lemma decimal_inj (i j : nat) : decimal i = decimal j -> i = j.
Proof.
  unfold decimal. intros H.
  apply (f_equal NilEmpty.uint_of_string) in H. rewrite !NilEmpty.usu in H.
  injection H as H. apply (f_equal Nat.of_uint) in H.
  now rewrite !DecimalNat.Unsigned.of_to in H.
Qed.

Lemma idAt_inj : Injective (fun idx => Some (idAt idx)).
Proof.
  intros i j H. unfold idAt in H. injection H as H. now apply decimal_inj.
Qed.

Lemma idOf_withId (idx : nat) (kp : json) : idOf (withId idx kp) = Some (idAt idx).
Proof. unfold withId, idOf. now rewrite getProp_setProp. Qed.

Lemma ids_mapFrom (l : list json) :
  forall k, map idOf (mapFrom withId k l) = map (fun idx => Some (idAt idx)) (seq k (List.length l)).
Proof.
  induction l as [| x r IH]; intros k; [reflexivity |].
  cbn [mapFrom map List.length seq]. now rewrite idOf_withId, IH.
Qed.

Lemma length_mapFrom {A B : Type} (f : nat -> A -> B) (l : list A) :
  forall k, List.length (mapFrom f k l) = List.length l.
Proof. induction l as [| x r IH]; intros k; simpl; [reflexivity | now rewrite IH]. Qed.

Lemma nth_mapFrom (l : list json) :
  forall k i, i < List.length l ->
              nth i (mapFrom withId k l) JNull = withId (k + i) (nth i l JNull).
Proof.
  induction l as [| x r IH]; intros k i H; simpl in *; [lia |].
  destruct i as [| i].
  - now rewrite Nat.add_0_r.
  - rewrite IH by lia. now rewrite Nat.add_succ_r.
Qed.

Lemma keyPointsOf_addIds (parsed : result json) (result : json) :
  addIds parsed = Some result ->
  exists props keyPoints,
    parsed = Ok (JObject props) /\
    getProp "keyPoints" props = Some (JArray keyPoints) /\
    result = JObject (setProp "keyPoints" (JArray (mapFrom withId 0 keyPoints)) props) /\
    keyPointsOf result = mapFrom withId 0 keyPoints.
Proof.
  unfold addIds. intros H.
  destruct parsed as [[| | | | | props] |]; try discriminate.
  destruct (getProp "keyPoints" props) as [[| | | | keyPoints |] |] eqn:E; try discriminate.
  injection H as H. exists props, keyPoints. subst result.
  repeat split; [exact E |]. unfold keyPointsOf. now rewrite getProp_setProp.
Qed.

Section WithService.

Variable API_KEY : string.
Variable generateContent : Request -> result (option string).
Variable JSON_parse : string -> result json.

#[local] Abbreviation analyzeArticle := (GeminiService.analyzeArticle API_KEY generateContent JSON_parse).
#[local] Abbreviation defineWord := (GeminiService.defineWord generateContent JSON_parse).

Lemma analyzeArticle_ok (text : string) (result : json) :
  analyzeArticle text = Ok result ->
  exists response,
    generateContent (analysisRequest text) = Ok response /\
    addIds (JSON_parse (textOr "{}" response)) = Some result.
Proof.
  unfold GeminiService.analyzeArticle.
  destruct (negb (JS.truthy API_KEY)); [discriminate |].
  destruct (generateContent (analysisRequest text)) as [response |]; [| discriminate].
  cbn [bind]. intros H. exists response. split; [reflexivity |].
  destruct (addIds _); [now injection H as -> | discriminate].
Qed.

End WithService.

(** X1: The key points of every analysis result carry the ids [kp-0], [kp-1],
    ... in order, whatever ids the model answered with; the ids are
    pairwise distinct. *)
Theorem analyzeArticle_numbers_the_key_points
  (API_KEY : string) (generateContent : Request -> result (option string))
  (JSON_parse : string -> result json) (text : string) (result : json) :
  analyzeArticle API_KEY generateContent JSON_parse text = Ok result ->
  map idOf (keyPointsOf result)
  = map (fun idx => Some (JString ("kp-" ++ decimal idx)))
        (seq 0 (List.length (keyPointsOf result))) /\
  NoDup (map idOf (keyPointsOf result)).
Proof.
  intros H. apply analyzeArticle_ok in H. destruct H as [response [_ H]].
  apply keyPointsOf_addIds in H.
  destruct H as [props [keyPoints [_ [_ [_ H]]]]]. rewrite H.
  rewrite ids_mapFrom, length_mapFrom. split; [reflexivity |].
  apply Injective_map_NoDup; [exact idAt_inj | apply seq_NoDup].
Qed.

Lemma analyzeArticle_numbers_the_key_points_witness :
  map idOf (keyPointsOf
    match analyzeArticle "key" (answering (Some "{...}")) (reading sampleAnswer)
                         "The sky is blue." with
    | Ok result => result
    | Throw _ => JNull
    end)
  = [Some (JString "kp-0"); Some (JString "kp-1")].
Proof.
  apply (analyzeArticle_numbers_the_key_points "key" (answering (Some "{...}"))
           (reading sampleAnswer) "The sky is blue." _ eq_refl).
Defined.

(** X2: Apart from the ids, [analyzeArticle] hands on what the model answered:
    every other property of the answer and of each of its key points is
    unchanged, and no key point is added or dropped. *)
Theorem analyzeArticle_keeps_the_answer
  (API_KEY : string) (generateContent : Request -> result (option string))
  (JSON_parse : string -> result json) (text : string) (result : json) :
  analyzeArticle API_KEY generateContent JSON_parse text = Ok result ->
  exists response props keyPoints,
    generateContent (analysisRequest text) = Ok response /\
    JSON_parse (textOr "{}" response) = Ok (JObject props) /\
    getProp "keyPoints" props = Some (JArray keyPoints) /\
    List.length (keyPointsOf result) = List.length keyPoints /\
    (forall key, key <> "keyPoints" ->
                 getProp key (spread result) = getProp key props) /\
    (forall i key, i < List.length keyPoints -> key <> "id" ->
                   getProp key (spread (nth i (keyPointsOf result) JNull))
                   = getProp key (spread (nth i keyPoints JNull))).
Proof.
  intros H. apply analyzeArticle_ok in H. destruct H as [response [Hg H]].
  apply keyPointsOf_addIds in H.
  destruct H as [props [keyPoints [Hp [Hk [Hr Hkp]]]]].
  exists response, props, keyPoints. rewrite Hkp, length_mapFrom.
  repeat split; try assumption.
  - intros key Hkey. subst result. cbn [spread].
    now apply getProp_setProp_other.
  - intros i key Hi Hkey. rewrite nth_mapFrom by exact Hi.
    unfold withId. cbn [spread]. now apply getProp_setProp_other.
Qed.

Lemma analyzeArticle_keeps_the_answer_witness :
  getProp "quoteAnchor"
    (spread (nth 1 (keyPointsOf
       match analyzeArticle "key" (answering (Some "{...}")) (reading sampleAnswer)
                            "The sky is blue." with
       | Ok result => result
       | Throw _ => JNull
       end) JNull))
  = Some (JString "long red ones").
Proof.
  destruct (analyzeArticle_keeps_the_answer "key" (answering (Some "{...}"))
              (reading sampleAnswer) "The sky is blue." _ eq_refl)
    as [response [props [keyPoints [Hg [Hp [Hk [Hl [Ht Hf]]]]]]]].
  injection Hp as <-. injection Hk as <-.
  etransitivity; [apply (Hf 1 "quoteAnchor"); [simpl; lia | discriminate] |].
  reflexivity.
Defined.

(** X3: The three ways [analyzeArticle] fails, and no other: without an API
    key, whatever the model would answer; with the error of the request,
    handed on as it is; and with one fixed message whenever the answer
    cannot be read as an object with an array of key points, be it that
    [JSON.parse] throws or that the parsed value is of another shape.  An
    answer that can be read so is returned with its key points numbered. *)
Theorem analyzeArticle_errors
  (API_KEY : string) (generateContent : Request -> result (option string))
  (JSON_parse : string -> result json) (text : string) :
  (API_KEY = "" ->
   analyzeArticle API_KEY generateContent JSON_parse text
   = Throw (Error "API Key is missing")) /\
  (API_KEY <> "" ->
   forall e,
     generateContent (analysisRequest text) = Throw e ->
     analyzeArticle API_KEY generateContent JSON_parse text = Throw e) /\
  (API_KEY <> "" ->
   forall response,
     generateContent (analysisRequest text) = Ok response ->
     (forall props keyPoints,
        JSON_parse (textOr "{}" response) = Ok (JObject props) ->
        getProp "keyPoints" props <> Some (JArray keyPoints)) ->
     analyzeArticle API_KEY generateContent JSON_parse text
     = Throw (Error "Failed to analyze article.")) /\
  (API_KEY <> "" ->
   forall response props keyPoints,
     generateContent (analysisRequest text) = Ok response ->
     JSON_parse (textOr "{}" response) = Ok (JObject props) ->
     getProp "keyPoints" props = Some (JArray keyPoints) ->
     analyzeArticle API_KEY generateContent JSON_parse text
     = Ok (JObject (setProp "keyPoints" (JArray (mapFrom withId 0 keyPoints)) props))) /\
  (forall e,
     analyzeArticle API_KEY generateContent JSON_parse text = Throw e ->
     (API_KEY = "" /\ e = Error "API Key is missing") \/
     (API_KEY <> "" /\ generateContent (analysisRequest text) = Throw e) \/
     (API_KEY <> "" /\ e = Error "Failed to analyze article." /\
      exists response,
        generateContent (analysisRequest text) = Ok response /\
        forall props keyPoints,
          JSON_parse (textOr "{}" response) = Ok (JObject props) ->
          getProp "keyPoints" props <> Some (JArray keyPoints))).
Proof.
  assert (U : forall parsed,
            addIds parsed = None <->
            forall props keyPoints,
              parsed = Ok (JObject props) ->
              getProp "keyPoints" props <> Some (JArray keyPoints)).
  { intros parsed. unfold addIds. split.
    - intros A props keyPoints -> G. rewrite G in A. discriminate A.
    - intros H. destruct parsed as [[| | | | | props] |]; try reflexivity.
      destruct (getProp "keyPoints" props) as [[| | | | kps |] |] eqn:G;
        try reflexivity.
      now elim (H props kps eq_refl). }
  unfold GeminiService.analyzeArticle.
  split; [now intros -> |].
  split; [intros K e G; rewrite (LoadFacts.truthy_nonempty _ K), G; reflexivity |].
  split; [| split].
  - intros K response G H. rewrite (LoadFacts.truthy_nonempty _ K), G.
    cbn [negb bind]. apply U in H. now rewrite H.
  - intros K response props keyPoints G P A.
    rewrite (LoadFacts.truthy_nonempty _ K), G. cbn [negb bind].
    rewrite P. cbn [addIds]. now rewrite A.
  - intros e. destruct API_KEY as [| c k]; cbn [JS.truthy negb].
    + intros H. injection H as <-. now left.
    + intros H. right.
      destruct (generateContent (analysisRequest text)) as [response |] eqn:G;
        cbn [bind] in H.
      * right. split; [discriminate |].
        destruct (addIds _) eqn:A; [discriminate |]. injection H as <-.
        split; [reflexivity |]. exists response. split; [reflexivity |].
        now apply U.
      * left. split; [discriminate | now injection H as ->].
Qed.

(** X4: An empty answer of the model is read as the text of an empty object:
    [analyzeArticle] then fails, while [defineWord] succeeds with a result
    that has none of the fields of a definition. *)
Theorem empty_answer
  (API_KEY : string) (generateContent : Request -> result (option string))
  (JSON_parse : string -> result json) (text word context : string) :
  API_KEY <> "" ->
  JSON_parse "{}" = Ok (JObject []) ->
  (generateContent (analysisRequest text) = Ok None \/
   generateContent (analysisRequest text) = Ok (Some "")) ->
  (generateContent (definitionRequest word context) = Ok None \/
   generateContent (definitionRequest word context) = Ok (Some "")) ->
  analyzeArticle API_KEY generateContent JSON_parse text
  = Throw (Error "Failed to analyze article.") /\
  defineWord generateContent JSON_parse word context = Ok (JObject []) /\
  forall field, getProp field (spread (JObject [])) = None.
Proof.
  intros Hkey Hparse Ha Hd.
  unfold GeminiService.analyzeArticle, GeminiService.defineWord.
  destruct API_KEY as [| c k]; [now elim Hkey |]. cbn [JS.truthy negb].
  split; [| split; [| reflexivity]].
  - destruct Ha as [-> | ->]; cbn [bind textOr JS.truthy]; now rewrite Hparse.
  - destruct Hd as [-> | ->]; cbn [bind textOr JS.truthy]; exact Hparse.
Qed.

Lemma empty_answer_witness :
  analyzeArticle "key" (answering None) (reading (JObject [])) "The sky is blue."
  = Throw (Error "Failed to analyze article.") /\
  defineWord (answering None) (reading (JObject [])) "scatter" "Air scatters light."
  = Ok (JObject []).
Proof.
  destruct (empty_answer "key" (answering None) (reading (JObject []))
              "The sky is blue." "scatter" "Air scatters light.") as [H1 [H2 _]];
    [discriminate | reflexivity | now left | now left |].
  split; [exact H1 | exact H2].
Defined.

End GeminiFacts.

(** ** Chat *)

Module ChatFacts.
Import Types Direct.
Import ParserFacts.

Lemma beginSendMessage_some (now : N) (s : State) :
  JS.trim (chatInput s) <> "" ->
  Busy.beginSendMessage now s
  = Some (setLoadingState CHATTING
            (setChatInput ""
               (setChatHistory
                  (chatHistory s ++ [{| msgId := Busy.decimal now; role := user;
                                        text := chatInput s; timestamp := now |}])%list s))).
Proof.
  intros H. unfold Busy.beginSendMessage.
  destruct (JS.trim (chatInput s)); [now elim H | reflexivity].
Qed.

Lemma beginSendMessage_none (now : N) (s : State) :
  JS.trim (chatInput s) = "" -> Busy.beginSendMessage now s = None.
Proof. intros H. unfold Busy.beginSendMessage. now rewrite H. Qed.

(** The lines of the history are appended to what comes before them. *)
Lemma transcript_app (history : list ChatMessage) (a b : string) :
  fold_left (fun prompt msg =>
               prompt ++ GeminiService.speaker msg ++ ": " ++ text msg ++ Html.LF)
            history (a ++ b)
  = a ++ fold_left (fun prompt msg =>
                      prompt ++ GeminiService.speaker msg ++ ": " ++ text msg ++ Html.LF)
                   history b.
Proof.
  revert b. induction history as [| m r IH]; intros b; [reflexivity |].
  cbn [fold_left]. rewrite append_assoc. apply IH.
Qed.

Lemma chatPrompt_snoc (history : list ChatMessage) (msg : ChatMessage)
  (newMessage : string) (context : option string) :
  exists before,
    GeminiService.chatPrompt history newMessage context
    = before ++ "User: " ++ newMessage ++ Html.LF ++ "AI:" /\
    GeminiService.chatPrompt (history ++ [msg]) newMessage context
    = before ++ (GeminiService.speaker msg ++ ": " ++ text msg ++ Html.LF)
      ++ "User: " ++ newMessage ++ Html.LF ++ "AI:".
Proof.
  unfold GeminiService.chatPrompt. eexists. split; [reflexivity |].
  rewrite fold_left_app. cbn [fold_left]. now rewrite append_assoc.
Qed.

(** X5: The prompt that [handleSendMessage] sends states the new message
    twice: once as the last line of the history it passes, which already
    holds the message, and once as the new message. *)
Theorem chat_prompt_repeats_the_message (now : N) (s : State) :
  JS.trim (chatInput s) <> "" ->
  exists before,
    GeminiService.chatPrompt (chatHistory s) (chatInput s) (Some (articleContent s))
    = before ++ "User: " ++ chatInput s ++ Html.LF ++ "AI:" /\
    Chat.sentPrompt now s
    = Some (before ++ "User: " ++ chatInput s ++ Html.LF
                   ++ "User: " ++ chatInput s ++ Html.LF ++ "AI:").
Proof.
  intros H. unfold Chat.sentPrompt. rewrite (beginSendMessage_some now s H).
  cbn [chatHistory setLoadingState setChatInput setChatHistory].
  destruct (chatPrompt_snoc (chatHistory s)
              {| msgId := Busy.decimal now; role := user; text := chatInput s;
                 timestamp := now |}
              (chatInput s) (Some (articleContent s))) as [before [H1 H2]].
  exists before. split; [exact H1 |]. rewrite H2.
  cbn [GeminiService.speaker role text]. now rewrite !append_assoc.
Qed.

Lemma chat_prompt_repeats_the_message_witness :
  exists before,
    GeminiService.chatPrompt [] "Why is it blue?" (Some "")
    = before ++ "User: Why is it blue?" ++ Html.LF ++ "AI:" /\
    Chat.sentPrompt 1000 (setChatInput "Why is it blue?" initialState)
    = Some (before ++ "User: Why is it blue?" ++ Html.LF
                   ++ "User: Why is it blue?" ++ Html.LF ++ "AI:").
Proof.
  apply (chat_prompt_repeats_the_message 1000
           (setChatInput "Why is it blue?" initialState)).
  discriminate.
Defined.

Lemma textOr_nonempty (fallback : string) (response : option string) :
  fallback <> "" ->
  GeminiService.textOr fallback response <> "" /\
  (response = Some (GeminiService.textOr fallback response) \/
   GeminiService.textOr fallback response = fallback).
Proof.
  intros H. unfold GeminiService.textOr.
  destruct response as [[| c t] |]; cbn [JS.truthy]; split; auto; discriminate.
Qed.

(** X6: [handleSendMessage] from click to reply, with no other event in
    between.  A blank input changes nothing.  Otherwise the history gains
    the user's message, holding the input as typed (not trimmed), the input
    box is emptied and the state is idle at the end; a reply of the model
    follows the message, its text is never empty (an empty answer is
    replaced by a fixed sentence); when the request fails the message stays
    without reply and no error is shown.  In both cases every other part of
    the state is as it was. *)
Theorem handleSendMessage_outcome
  (generateContent : GeminiService.Request -> result (option string))
  (now later : N) (s : State) :
  let s' := Chat.handleSendMessage generateContent now later s in
  match JS.trim (chatInput s) with
  | EmptyString => s' = s
  | String _ _ =>
      loadingState s' = IDLE /\ chatInput s' = "" /\
      text (Chat.userMessage now s) = chatInput s /\
      match generateContent (Chat.request now s) with
      | Ok response =>
          exists botMsg,
            chatHistory s' = (chatHistory s ++ [Chat.userMessage now s; botMsg])%list /\
            role botMsg = model /\ text botMsg <> "" /\
            (response = Some (text botMsg) \/
             text botMsg = "I couldn't generate a response.") /\
            s' = setLoadingState IDLE
                   (setChatInput ""
                      (setChatHistory
                         (chatHistory s ++ [Chat.userMessage now s; botMsg])%list s))
      | Throw _ =>
          chatHistory s' = (chatHistory s ++ [Chat.userMessage now s])%list /\
          s' = setLoadingState IDLE
                 (setChatInput ""
                    (setChatHistory (chatHistory s ++ [Chat.userMessage now s])%list s))
      end
  end.
Proof.
  cbv zeta. unfold Chat.handleSendMessage.
  destruct (JS.trim (chatInput s)) as [| c t] eqn:E.
  - now rewrite beginSendMessage_none.
  - rewrite beginSendMessage_some by (rewrite E; discriminate).
    cbn [chatHistory setLoadingState setChatInput setChatHistory].
    unfold GeminiService.chatWithGemini. fold (Chat.userMessage now s).
    fold (Chat.request now s).
    destruct (generateContent (Chat.request now s)) as [response | e];
      cbn [bind Busy.finishSendMessage].
    + repeat split. eexists. split.
      * cbn [chatHistory setLoadingState setChatInput setChatHistory].
        rewrite <- app_assoc. reflexivity.
      * cbn [role text]. split; [reflexivity |].
        split; [apply textOr_nonempty; discriminate |].
        split; [apply textOr_nonempty; discriminate |].
        unfold setLoadingState, setChatInput, setChatHistory.
        cbn [urlInput articleContent activeTab loadingState analysis dictionary
             contextMenuPos selectedTextData chatHistory chatInput selectedImage
             imagePrompt imageAnalysisResult].
        rewrite <- app_assoc. reflexivity.
    + repeat split.
Qed.

Lemma take_app (n : nat) :
  forall c tail, n <= String.length c -> JS.take n (c ++ tail) = JS.take n c.
Proof.
  induction n as [| n IH]; intros c tail H.
  - reflexivity.
  - destruct c as [| x c]; simpl in *; [lia |]. rewrite IH by lia. reflexivity.
Qed.

(** X7: Of the article, the chat prompt holds the first 10000 characters only:
    what follows them never reaches the model. *)
Theorem chat_prompt_is_capped (history : list ChatMessage)
  (newMessage article tail : string) :
  GeminiService.articleLimit <= String.length article ->
  GeminiService.articleLimit = 10000 /\
  GeminiService.chatPrompt history newMessage (Some (article ++ tail))
  = GeminiService.chatPrompt history newMessage (Some article).
Proof.
  intros H. split; [reflexivity |]. unfold GeminiService.chatPrompt.
  rewrite take_app by exact H.
  destruct article as [| c a]; [| reflexivity].
  simpl in H. unfold GeminiService.articleLimit in H.
  exfalso. revert H. apply Nat.nle_succ_0.
Qed.

Lemma chat_prompt_is_capped_witness :
  GeminiService.chatPrompt [] "Why?" (Some (GeminiService.longArticle ++ "The end."))
  = GeminiService.chatPrompt [] "Why?" (Some GeminiService.longArticle).
Proof.
  apply (chat_prompt_is_capped [] "Why?" GeminiService.longArticle "The end.").
  apply Nat.leb_le. vm_compute. reflexivity.
Defined.

End ChatFacts.

(** ** Splitting at a separator *)

Module SplitFacts.
Import ParserFacts.

Lemma startsWith_char (c x : ascii) (r : string) :
  JS.startsWith (String x r) (String c "") = Ascii.eqb c x.
Proof. cbn [JS.startsWith]. now rewrite andb_true_r. Qed.

(** Splitting at a one-character separator: text without the separator is
    one part. *)
Lemma splitFrom_free (c : ascii) (s : string) :
  Str.free (Ascii.eqb c) s = true -> Str.splitFrom (String c "") 0 s = [s].
Proof.
  induction s as [| x r IH]; intros H; [reflexivity |].
  cbn [Str.free] in H. apply andb_true_iff in H. destruct H as [Hx Hr].
  apply negb_true_iff in Hx.
  cbn [Str.splitFrom]. rewrite startsWith_char, Hx. now rewrite (IH Hr).
Qed.

(** The first part ends at the first separator. *)
Lemma splitFrom_app (c : ascii) (a rest : string) :
  Str.free (Ascii.eqb c) a = true ->
  Str.splitFrom (String c "") 0 (a ++ String c rest)
  = a :: Str.splitFrom (String c "") 0 rest.
Proof.
  induction a as [| x r IH]; intros H.
  - cbn [append Str.splitFrom]. rewrite startsWith_char, Ascii.eqb_refl.
    reflexivity.
  - cbn [Str.free] in H. apply andb_true_iff in H. destruct H as [Hx Hr].
    apply negb_true_iff in Hx.
    cbn [append Str.splitFrom]. rewrite startsWith_char, Hx. now rewrite (IH Hr).
Qed.

End SplitFacts.

(** ** Image analysis *)

Module ImageFacts.
Import GeminiService SplitFacts.

(** X8: [analyzeImage] sends what follows the first comma of a data URL, up to
    the next comma if there is one; an image string without a comma, or
    with nothing after its first comma, is sent whole.  The media type sent
    is [image/jpeg] whatever the header of the data URL says, and an empty
    prompt is replaced by a fixed one. *)
Theorem analyzeImage_payload (header payload rest prompt : string) :
  Str.free (Ascii.eqb ",") header = true ->
  Str.free (Ascii.eqb ",") payload = true ->
  imageData header = header /\
  imageData (header ++ "," ++ payload)
  = match payload with EmptyString => header ++ "," | _ => payload end /\
  imageData (header ++ "," ++ payload ++ "," ++ rest)
  = match payload with
    | EmptyString => header ++ "," ++ payload ++ "," ++ rest
    | _ => payload
    end /\
  contents (imageRequest (header ++ "," ++ payload) prompt)
  = Parts [InlineData "image/jpeg" (imageData (header ++ "," ++ payload));
           TextPart match prompt with
                    | EmptyString => "Describe this image in detail."
                    | _ => prompt
                    end].
Proof.
  intros Hh Hp. unfold imageData, Str.split.
  split; [| split; [| split]].
  - now rewrite (splitFrom_free "," header Hh).
  - cbn [append]. rewrite (splitFrom_app "," header payload Hh).
    rewrite (splitFrom_free "," payload Hp). cbn [nth_error].
    now destruct payload.
  - cbn [append]. rewrite (splitFrom_app "," header _ Hh).
    rewrite (splitFrom_app "," payload rest Hp). cbn [nth_error].
    now destruct payload.
  - unfold imageRequest. cbn [contents]. now destruct prompt.
Qed.

Lemma analyzeImage_payload_witness :
  imageData "data:image/png;base64,iVBORw0KGgo=" = "iVBORw0KGgo=".
Proof.
  apply (analyzeImage_payload "data:image/png;base64" "iVBORw0KGgo=" "" "");
    reflexivity.
Defined.

End ImageFacts.

(** ** Sessions *)

Module SessionFacts.
Import Types Direct Busy.

Lemma finishLoadOf_fields (w : World) (url : string) (s : State) :
  loadingState (finishLoadOf w url s) = IDLE /\
  chatHistory (finishLoadOf w url s) = chatHistory s /\
  contextMenuPos (finishLoadOf w url s) = contextMenuPos s.
Proof.
  unfold finishLoadOf, tryLoadOf.
  destruct (fetchHtml w url) as [html | e]; [| repeat split].
  destruct (Extractor.extract _) as [text | e]; [| repeat split].
  destruct (analyzeArticle w text); repeat split.
Qed.

Lemma run_snoc (evs : list Event) (ev : Event) (sys : System) :
  run (evs ++ [ev]) sys = step ev (run evs sys).
Proof. unfold run. now rewrite fold_left_app. Qed.

Lemma app_not_nil {A : Type} (l : list A) (x : A) : (l ++ [x])%list <> [].
Proof. now destruct l. Qed.

(** A step keeps the state idle when it leaves nothing in flight. *)
Lemma step_idle (ev : Event) (sys : System) :
  (inFlight sys = [] -> loadingState (ui sys) = IDLE) ->
  inFlight (step ev sys) = [] -> loadingState (ui (step ev sys)) = IDLE.
Proof.
  intros I. unfold step.
  destruct (negb (available ev (ui sys))); [exact I |].
  destruct ev; cbn [withUi bubble ui inFlight];
    try exact I;
    unfold started, settled.
  - destruct (beginLoad (ui sys)); cbn [ui inFlight]; [| exact I].
    intros H. now apply app_not_nil in H.
  - destruct (beginManualAnalyze (ui sys)); cbn [ui inFlight]; [| exact I].
    intros H. now apply app_not_nil in H.
  - destruct (beginSendMessage now (ui sys)); cbn [ui inFlight]; [| exact I].
    intros H. now apply app_not_nil in H.
  - destruct (beginSendMessage now (ui sys)); cbn [ui inFlight]; [| exact I].
    intros H. now apply app_not_nil in H.
  - destruct (beginAnalyzeImage (ui sys)); cbn [ui inFlight]; [| exact I].
    intros H. now apply app_not_nil in H.
  - destruct (beginDefineWord (ui sys)) as [s1 go] eqn:B.
    cbn [ui inFlight withUi bubble started].
    destruct go; cbn [ui inFlight].
    + intros H. now apply app_not_nil in H.
    + unfold beginDefineWord in B.
      destruct (selectedTextData (setContextMenuPos None (ui sys)));
        [discriminate B |]. injection B as <-. exact I.
  - destruct (settleOne (LoadTask url) (inFlight sys)); [| exact I].
    intros _. cbn [withUi ui]. apply finishLoadOf_fields.
  - destruct (settleOne AnalyzeTask (inFlight sys)); [| exact I].
    intros _. now destruct r.
  - destruct (settleOne DefineTask (inFlight sys)); [| exact I].
    intros _. now destruct r.
  - destruct (settleOne ChatTask (inFlight sys)); [| exact I].
    intros _. now destruct r.
  - destruct (settleOne ImageTask (inFlight sys)); [| exact I].
    intros _. now destruct r.
Qed.

(** A right click starts no request and leaves the busy value alone. *)
Lemma act_idle (a : Session.Action) (sys : System) :
  (inFlight sys = [] -> loadingState (ui sys) = IDLE) ->
  inFlight (Session.act a sys) = [] -> loadingState (ui (Session.act a sys)) = IDLE.
Proof.
  destruct a as [ev | e selection]; cbn [Session.act]; [apply step_idle |].
  intros I. destruct (Session.hasParagraph (ui sys)); [| exact I].
  cbn [withUi ui inFlight]. unfold handleContextMenu.
  destruct selection as [sel |]; [| exact I].
  destruct (String.length (JS.trim (toString sel)) =? 0)%nat; exact I.
Qed.

Lemma play_snoc (acts : list Session.Action) (a : Session.Action) (sys : System) :
  Session.play (acts ++ [a]) sys = Session.act a (Session.play acts sys).
Proof. unfold Session.play. now rewrite fold_left_app. Qed.

(** X9: However the user's actions (typing, clicks, right clicks on the
    article) and the replies of the collaborators are interleaved, the
    component is idle whenever no request is in flight: every handler,
    [handleDefineWord] included, resets the busy value when its request
    ends, so no busy indicator outlives the requests.  This holds for the
    sessions from the initial state, and from any state that is idle when
    nothing is in flight. *)
Theorem idle_when_nothing_in_flight (acts : list Session.Action) (sys : System) :
  (inFlight sys = [] -> loadingState (ui sys) = IDLE) ->
  inFlight (Session.play acts sys) = [] ->
  loadingState (ui (Session.play acts sys)) = IDLE.
Proof.
  intros I. induction acts as [| a acts IH] using rev_ind; [exact I |].
  rewrite play_snoc. now apply act_idle.
Qed.

Lemma idle_when_nothing_in_flight_witness :
  loadingState (ui (Session.play Session.lookUp initialSystem)) = DEFINING /\
  inFlight (Session.play Session.lookUp initialSystem) = [DefineTask] /\
  loadingState
    (ui (Session.play (Session.lookUp
                       ++ [Session.Host (DefineSettled (Ok Examples.oldDefinition))])
           initialSystem)) = IDLE.
Proof.
  split; [reflexivity |]. split; [reflexivity |].
  apply (idle_when_nothing_in_flight
           (Session.lookUp ++ [Session.Host (DefineSettled (Ok Examples.oldDefinition))])
           initialSystem).
  - reflexivity.
  - reflexivity.
Defined.

(** Apart from a click on the load button, a step only adds to the chat
    history. *)
Lemma step_history (ev : Event) (sys : System) :
  Session.isLoad ev = false ->
  exists added, chatHistory (ui (step ev sys)) = (chatHistory (ui sys) ++ added)%list.
Proof.
  intros L. unfold step.
  destruct (negb (available ev (ui sys))); [exists []; now rewrite app_nil_r |].
  destruct ev; try discriminate L; cbn [withUi bubble ui];
    unfold started, settled;
    try (exists []; now rewrite app_nil_r).
  - destruct (beginManualAnalyze (ui sys)) as [s1 |] eqn:B; cbn [ui];
      [| exists []; now rewrite app_nil_r].
    unfold beginManualAnalyze in B.
    destruct (negb _); [discriminate |]. injection B as <-.
    exists []. now rewrite app_nil_r.
  - destruct (beginSendMessage now (ui sys)) as [s1 |] eqn:B; cbn [ui];
      [| exists []; now rewrite app_nil_r].
    unfold beginSendMessage in B.
    destruct (negb _); [discriminate |]. injection B as <-.
    eexists. reflexivity.
  - destruct (beginSendMessage now (ui sys)) as [s1 |] eqn:B; cbn [ui];
      [| exists []; now rewrite app_nil_r].
    unfold beginSendMessage in B.
    destruct (negb _); [discriminate |]. injection B as <-.
    eexists. reflexivity.
  - destruct (beginAnalyzeImage (ui sys)) as [s1 |] eqn:B; cbn [ui];
      [| exists []; now rewrite app_nil_r].
    unfold beginAnalyzeImage in B.
    destruct (selectedImage (ui sys)); [| discriminate]. injection B as <-.
    exists []. now rewrite app_nil_r.
  - destruct (beginDefineWord (ui sys)) as [s1 go] eqn:B.
    unfold beginDefineWord in B.
    destruct (selectedTextData (setContextMenuPos None (ui sys)));
      injection B as <- <-; cbn [ui withUi]; exists []; now rewrite app_nil_r.
  - destruct (settleOne (LoadTask url) (inFlight sys)); cbn [ui withUi];
      [| exists []; now rewrite app_nil_r].
    exists []. rewrite app_nil_r.
    apply (proj1 (proj2 (finishLoadOf_fields w url (ui sys)))).
  - destruct (settleOne AnalyzeTask (inFlight sys)); cbn [ui];
      [| exists []; now rewrite app_nil_r].
    destruct r; exists []; now rewrite app_nil_r.
  - destruct (settleOne DefineTask (inFlight sys)); cbn [ui withUi];
      [| exists []; now rewrite app_nil_r].
    destruct r; exists []; now rewrite app_nil_r.
  - destruct (settleOne ChatTask (inFlight sys)); cbn [ui withUi];
      [| exists []; now rewrite app_nil_r].
    destruct r; cbn [finishSendMessage];
      [eexists; reflexivity | exists []; now rewrite app_nil_r].
  - destruct (settleOne ImageTask (inFlight sys)); cbn [ui withUi];
      [| exists []; now rewrite app_nil_r].
    destruct r; exists []; now rewrite app_nil_r.
Qed.

(** X10: As long as the load button is not clicked, the chat history only
    grows: no message is ever changed, reordered or removed, however
    requests and replies are interleaved. *)
Theorem chat_history_only_grows (evs : list Event) (sys : System) :
  existsb Session.isLoad evs = false ->
  exists added,
    chatHistory (ui (run evs sys)) = (chatHistory (ui sys) ++ added)%list.
Proof.
  induction evs as [| ev evs IH] using rev_ind; intros H.
  - exists []. now rewrite app_nil_r.
  - rewrite existsb_app in H. apply orb_false_iff in H. destruct H as [H1 H2].
    cbn [existsb] in H2. rewrite orb_false_r in H2.
    destruct (IH H1) as [a1 E1]. rewrite run_snoc.
    destruct (step_history ev (run evs sys) H2) as [a2 E2].
    exists (a1 ++ a2)%list. now rewrite E2, E1, app_assoc.
Qed.

Lemma chat_history_only_grows_witness :
  exists added,
    chatHistory (ui (run [ClickTab chatTab; TypeChat "And why?"; PressEnter 2000;
                          ChatSettled 3000 (Ok "Because of scattering.")]
                         {| ui := Examples.readingDirect "https://example.com/post";
                            inFlight := []; alerts := [] |}))
    = ([Examples.oldMessage] ++ added)%list.
Proof.
  apply (chat_history_only_grows
           [ClickTab chatTab; TypeChat "And why?"; PressEnter 2000;
            ChatSettled 3000 (Ok "Because of scattering.")]
           {| ui := Examples.readingDirect "https://example.com/post";
              inFlight := []; alerts := [] |}).
  reflexivity.
Defined.

(** X11: When [handleDefineWord] starts a request, the [Defining...] tooltip is
    rendered in the top-left corner of the window and not next to the
    selected word: the handler has closed the context menu, whose position
    the tooltip is placed by. *)
Theorem defining_tooltip_is_at_the_origin (s : State) :
  selectedTextData s <> None ->
  snd (beginDefineWord s) = true /\
  loadingState (fst (beginDefineWord s)) = DEFINING /\
  View.definingTooltip (fst (beginDefineWord s))
  = Some {| View.top := 0; View.left := 0 |}.
Proof.
  intros H. unfold beginDefineWord.
  cbn [selectedTextData setContextMenuPos].
  destruct (selectedTextData s); [| now elim H].
  repeat split.
Qed.

Lemma defining_tooltip_is_at_the_origin_witness :
  contextMenuPos (Examples.readingDirect "https://example.com/post") = Some (10, 20)%Z /\
  View.definingTooltip
    (fst (beginDefineWord (Examples.readingDirect "https://example.com/post")))
  = Some {| View.top := 0; View.left := 0 |}.
Proof.
  split; [reflexivity |].
  apply (defining_tooltip_is_at_the_origin
           (Examples.readingDirect "https://example.com/post")).
  discriminate.
Defined.

End SessionFacts.

(** ** Fetching the page *)

Module FetchFacts.
Import Types.

(** X12: The proxy strategy.  What [fetchHtml] returns has at least 50
    characters and is what one of the two proxies served.  A non-empty
    answer of the primary proxy is final: the fallback is not consulted,
    even if the answer is then rejected as too short. *)
Theorem fetchHtml_sources (w : World) (url : string) :
  (forall html,
     fetchHtml w url = Ok html ->
     50 <= String.length html /\
     (allOrigins w url = Some html \/ corsProxy w url = Ok html)) /\
  (forall contents,
     allOrigins w url = Some contents -> contents <> "" ->
     fetchHtml w url
     = if (String.length contents <? 50)%nat then Throw RetrievedTooShort
       else Ok contents) /\
  (allOrigins w url = None \/ allOrigins w url = Some "" ->
   forall e, corsProxy w url = Throw e -> fetchHtml w url = Throw e).
Proof.
  unfold fetchHtml. split; [| split].
  - intros html H.
    assert (G : forall r : result string,
              bind r (fun html0 =>
                        if negb (JS.truthy html0) || (String.length html0 <? 50)%nat
                        then Throw RetrievedTooShort else Ok html0) = Ok html ->
              50 <= String.length html /\ r = Ok html).
    { intros [h | e]; cbn [bind]; [| discriminate].
      destruct (negb (JS.truthy h)); cbn [orb]; [discriminate |].
      destruct (String.length h <? 50)%nat eqn:L; [discriminate |].
      intros E. injection E as <-. apply Nat.ltb_ge in L. now split. }
    apply G in H. destruct H as [H1 H2]. split; [exact H1 |].
    destruct (allOrigins w url) as [c |]; [| now right].
    destruct (JS.truthy c); [left; now injection H2 as -> | now right].
  - intros contents -> Hne. destruct contents as [| c r]; [now elim Hne |].
    reflexivity.
  - intros [-> | ->] e ->; reflexivity.
Qed.

End FetchFacts.

(** ** How a load ends *)

Module OutcomeFacts.
Import Types.

Lemma failureNotice_nonempty (e : exn) : Direct.failureNotice e <> "".
Proof. discriminate. Qed.

Lemma extract_ok (doc : Dom.Document) (text : string) :
  Extractor.extract doc = Ok text ->
  Extractor.extractedText doc = Ok text /\ 200 <= String.length text.
Proof.
  unfold Extractor.extract.
  destruct (Extractor.extractedText doc) as [t | e]; cbn [bind]; [| discriminate].
  destruct (String.length t <? Extractor.minimumLength)%nat eqn:L; [discriminate |].
  intros H. injection H as <-. apply Nat.ltb_ge in L. now split.
Qed.

Lemma extract'_ok (doc : Dom.Document) (text : string) :
  Extractor.extract' doc = Ok text ->
  Extractor.cleanText doc = Ok text /\ 100 <= String.length text.
Proof.
  unfold Extractor.extract'.
  destruct (Extractor.cleanText doc) as [t | e]; cbn [bind]; [| discriminate].
  destruct (String.length t <? Extractor.minimumLength')%nat eqn:L; [discriminate |].
  intros H. injection H as <-. apply Nat.ltb_ge in L. now split.
Qed.

Lemma length_nonempty (s : string) (n : nat) : S n <= String.length s -> s <> "".
Proof. destruct s; simpl; [lia | discriminate]. Qed.

(** X13: How a load of the direct-render variant ends, for a non-empty URL
    input and with no other handler running between the click and the end
    of the load: the component is idle again, the chat is empty, and the
    reader pane shows either an article of at least 200 characters together
    with its analysis, or a failure notice and no analysis.  It does not
    show the placeholder, nor an analysis without its article. *)
Theorem direct_load_outcome (w : World) (sys : Busy.System) :
  Direct.urlInput (Busy.ui sys) <> "" ->
  let url := Direct.urlInput (Busy.ui sys) in
  let s' := Busy.ui (Busy.run (Session.loadAlone url w) sys) in
  Direct.loadingState s' = IDLE /\
  Direct.urlInput s' = url /\
  Direct.chatHistory s' = [] /\
  View.showsPlaceholder s' = false /\
  ((exists html text result,
      fetchHtml w url = Ok html /\
      Extractor.extractedText (Sanitizer.cleanUp (parseFromString w html)) = Ok text /\
      200 <= String.length text /\
      analyzeArticle w text = Ok result /\
      Direct.articleContent s' = text /\ Direct.analysis s' = Some result) \/
   (exists e,
      Direct.articleContent s' = Direct.failureNotice e /\
      Direct.analysis s' = None)).
Proof.
  intros Hurl. cbv zeta. rewrite (LoadFacts.loadAlone_ui w sys Hurl).
  unfold Direct.finishLoadOf, Direct.tryLoadOf, View.showsPlaceholder.
  destruct (fetchHtml w (Direct.urlInput (Busy.ui sys))) as [html | e] eqn:F;
    [| repeat split; right; exists e; now split].
  destruct (Extractor.extract _) as [text | e] eqn:X;
    [| repeat split; right; exists e; now split].
  apply extract_ok in X. destruct X as [X L].
  destruct (analyzeArticle w text) as [result | e] eqn:A;
    [| repeat split; right; exists e; now split].
  cbn [Direct.loadingState Direct.urlInput Direct.chatHistory Direct.articleContent
       Direct.analysis Direct.setArticleContent Direct.setAnalysis
       Direct.setLoadingState Direct.setContextMenuPos Direct.clearArticle
       Direct.setChatHistory].
  repeat split.
  - assert (N : text <> "") by (apply (length_nonempty _ 199); lia).
    now rewrite (LoadFacts.truthy_nonempty _ N).
  - left. exists html, text, result. repeat split; assumption.
Qed.

Lemma direct_load_outcome_witness :
  Direct.articleContent
    (Busy.ui (Busy.run (Session.loadAlone "https://example.com/post" Examples.online)
                (Session.reading "https://example.com/post"))) = Examples.skyParagraph /\
  Direct.analysis
    (Busy.ui (Busy.run (Session.loadAlone "https://example.com/post" Examples.offline)
                (Session.reading "https://example.com/post"))) = None.
Proof.
  destruct (direct_load_outcome Examples.online (Session.reading "https://example.com/post"))
    as [_ [_ [_ [_ H1]]]]; [discriminate |].
  destruct (direct_load_outcome Examples.offline (Session.reading "https://example.com/post"))
    as [_ [_ [_ [_ H2]]]]; [discriminate |].
  split.
  - destruct H1 as [[html [text [result [_ [_ [_ [_ [H _]]]]]]]] | [e [H _]]];
      reflexivity.
  - destruct H2 as [[html [text [result [F _]]]] | [e [_ H]]];
      [discriminate F | exact H].
Defined.

Lemma documentHtml_nonempty (doc : Dom.Document) (html : string) :
  Iframe.documentHtml doc = Ok html -> html <> "".
Proof.
  unfold Iframe.documentHtml, Extractor.documentElement.
  destruct (find _ doc) as [root |] eqn:F; [| discriminate].
  apply find_some in F. destruct F as [_ F].
  destruct root as [d | t a ch]; [discriminate |].
  intros H. injection H as <-. discriminate.
Qed.

(** X14: How a load of the isolated-render variant ends, for a non-empty URL
    input and with no other handler running between the click and the end
    of the load: the component is idle again, chat and dictionary are
    empty, and the frame is mounted.  Either the page was rendered, with an
    extracted text of at least 100 characters and its analysis, or the
    frame shows the failure notice and there is no analysis; the extracted
    text survives a failed analysis only. *)
Theorem iframe_load_outcome (w : World) (s s1 : Iframe.State) :
  Iframe.beginLoad s = Some s1 ->
  let s' := Iframe.finishLoad w s1 in
  Iframe.urlInput s <> "" /\
  Iframe.handleLoadArticle w s = s' /\
  Iframe.loadingState s' = IDLE /\
  Iframe.chatHistory s' = [] /\
  Iframe.dictionary s' = None /\
  View.showsPlaceholder' s' = false /\
  ((exists rawHtml doc text result,
      fetchHtml w (Iframe.urlInput s) = Ok rawHtml /\
      Iframe.renderable w (Iframe.urlInput s) rawHtml = Ok doc /\
      Extractor.cleanText doc = Ok text /\ 100 <= String.length text /\
      analyzeArticle w text = Ok result /\
      Iframe.articleText s' = text /\ Iframe.analysis s' = Some result) \/
   (exists e,
      Iframe.iframeHtml s' = Iframe.failureNotice e /\
      Iframe.analysis s' = None /\
      (Iframe.articleText s' = "" \/
       100 <= String.length (Iframe.articleText s') /\
       analyzeArticle w (Iframe.articleText s') = Throw e))).
Proof.
  intros B. cbv zeta.
  unfold Iframe.handleLoadArticle. rewrite B.
  unfold Iframe.beginLoad in B.
  destruct (Iframe.urlInput s) as [| c u] eqn:U; [discriminate B |].
  cbn [JS.truthy negb] in B. injection B as <-.
  split; [discriminate |]. split; [reflexivity |].
  unfold Iframe.finishLoad, Iframe.tryLoad, View.showsPlaceholder'.
  cbn [Iframe.urlInput Iframe.clearArticle Iframe.setDictionary Iframe.setIframeHtml
       Iframe.setArticleText Iframe.setChatHistory Iframe.setAnalysis
       Iframe.setLoadingState].
  rewrite U.
  destruct (fetchHtml w (String c u)) as [rawHtml | e] eqn:F;
    [| repeat split; right; exists e; repeat split; now left].
  destruct (Iframe.renderable w (String c u) rawHtml) as [doc | e] eqn:R;
    [| repeat split; right; exists e; repeat split; now left].
  destruct (Iframe.documentHtml doc) as [html | e] eqn:D;
    [| repeat split; right; exists e; repeat split; now left].
  destruct (Extractor.extract' doc) as [text | e] eqn:X;
    [| repeat split; right; exists e; repeat split; now left].
  apply extract'_ok in X. destruct X as [X L].
  destruct (analyzeArticle w text) as [result | e] eqn:A.
  - cbn [Iframe.loadingState Iframe.chatHistory Iframe.dictionary Iframe.iframeHtml
         Iframe.articleText Iframe.analysis Iframe.setIframeHtml Iframe.setArticleText
         Iframe.setAnalysis Iframe.setLoadingState].
    repeat split.
    + apply documentHtml_nonempty in D.
      now rewrite (LoadFacts.truthy_nonempty _ D).
    + left. exists rawHtml, doc, text, result. repeat split; assumption.
  - repeat split. right. exists e.
    cbn [Iframe.loadingState Iframe.chatHistory Iframe.dictionary Iframe.iframeHtml
         Iframe.articleText Iframe.analysis Iframe.setIframeHtml Iframe.setArticleText
         Iframe.setAnalysis Iframe.setLoadingState].
    repeat split. right. now split.
Qed.

Lemma iframe_load_outcome_witness :
  Iframe.analysis
    (Iframe.finishLoad Examples.online
       (Iframe.clearArticle (Examples.readingIframe "https://example.com/post")))
  = Some Examples.skyAnalysis /\
  Iframe.iframeHtml
    (Iframe.finishLoad Examples.offline
       (Iframe.clearArticle (Examples.readingIframe "https://example.com/post")))
  = Iframe.failureNotice (Error "Failed to fetch").
Proof.
  destruct (iframe_load_outcome Examples.online
              (Examples.readingIframe "https://example.com/post") _ eq_refl)
    as [_ [_ [_ [_ [_ [_ H1]]]]]].
  split; [| reflexivity].
  destruct H1 as [[rawHtml [doc [text [result [_ [_ [_ [_ [_ [_ H]]]]]]]]]] | [e [_ [H _]]]];
    [| discriminate H].
  reflexivity.
Defined.

(** X15: A failed analysis after a successful extraction.  The direct-render
    variant then shows the failure notice in place of the article it has
    extracted; the isolated-render variant replaces the rendered page by
    its notice but keeps the extracted text, which the chat goes on to
    use. *)
Theorem analysis_failure_hides_the_article
  (w : World) (sD : Direct.State) (sI : Iframe.State)
  (htmlD htmlI page textD textI : string) (doc : Dom.Document) (e : exn) :
  Direct.urlInput sD <> "" ->
  fetchHtml w (Direct.urlInput sD) = Ok htmlD ->
  Extractor.extract (Sanitizer.cleanUp (parseFromString w htmlD)) = Ok textD ->
  analyzeArticle w textD = Throw e ->
  Iframe.urlInput sI <> "" ->
  fetchHtml w (Iframe.urlInput sI) = Ok htmlI ->
  Iframe.renderable w (Iframe.urlInput sI) htmlI = Ok doc ->
  Iframe.documentHtml doc = Ok page ->
  Extractor.extract' doc = Ok textI ->
  analyzeArticle w textI = Throw e ->
  Direct.articleContent (Direct.handleLoadArticle w sD) = Direct.failureNotice e /\
  Direct.analysis (Direct.handleLoadArticle w sD) = None /\
  Iframe.iframeHtml (Iframe.handleLoadArticle w sI) = Iframe.failureNotice e /\
  Iframe.articleText (Iframe.handleLoadArticle w sI) = textI /\
  Iframe.analysis (Iframe.handleLoadArticle w sI) = None.
Proof.
  intros HuD FD XD AD HuI FI RI DI XI AI.
  unfold Direct.handleLoadArticle, Direct.beginLoad,
         Iframe.handleLoadArticle, Iframe.beginLoad.
  rewrite (LoadFacts.truthy_nonempty _ HuD), (LoadFacts.truthy_nonempty _ HuI).
  cbn [negb].
  unfold Direct.finishLoad, Direct.finishLoadOf, Direct.tryLoadOf,
         Iframe.finishLoad, Iframe.tryLoad.
  cbn [Direct.urlInput Direct.clearArticle Direct.setArticleContent
       Direct.setChatHistory Direct.setAnalysis Direct.setLoadingState
       Iframe.urlInput Iframe.clearArticle Iframe.setDictionary Iframe.setIframeHtml
       Iframe.setArticleText Iframe.setChatHistory Iframe.setAnalysis
       Iframe.setLoadingState].
  rewrite FD, XD, AD, FI, RI, DI, XI, AI.
  repeat split.
Qed.

Lemma analysis_failure_hides_the_article_witness :
  Direct.articleContent
    (Direct.handleLoadArticle Session.keyless
       (Examples.readingDirect "https://example.com/post"))
  = Direct.failureNotice (Error "API Key is missing") /\
  String.length
    (Iframe.articleText
       (Iframe.handleLoadArticle Session.keyless
          (Examples.readingIframe "https://example.com/post"))) = 242.
Proof.
  destruct (analysis_failure_hides_the_article Session.keyless
              (Examples.readingDirect "https://example.com/post")
              (Examples.readingIframe "https://example.com/post")
              _ _ _ _ _ _ (Error "API Key is missing")
              ltac:(discriminate) eq_refl eq_refl eq_refl
              ltac:(discriminate) eq_refl eq_refl eq_refl eq_refl eq_refl)
    as [H1 [_ [_ [H4 _]]]].
  split; [exact H1 |]. rewrite H4. reflexivity.
Defined.

End OutcomeFacts.

(** ** Fixed points of the sanitizers *)

Module FixedPointFacts.
Import Dom Sanitizer SanitizerFacts.

Lemma no_match_byTag (t : string) (d : Document) :
  ~ In t (tagsOf d) -> existsb (matches (byTag t)) (elementsOf d) = false.
Proof.
  intros H. destruct (existsb _ _) eqn:E; [| reflexivity]. exfalso.
  apply existsb_exists in E. destruct E as [e [He Hm]].
  destruct (elementsOf_is_elem _ _ He) as [t' [a [ch ->]]].
  cbn [matches] in Hm. unfold byTag in Hm. apply String.eqb_eq in Hm. subst t'.
  apply H. unfold tagsOf. apply in_map_iff. now exists (Elem t a ch).
Qed.

Lemma no_match_byTags (ts : list string) (d : Document) :
  (forall t, In t ts -> ~ In t (tagsOf d)) ->
  existsb (matches (byTags ts)) (elementsOf d) = false.
Proof.
  intros H. destruct (existsb _ _) eqn:E; [| reflexivity]. exfalso.
  apply existsb_exists in E. destruct E as [e [He Hm]].
  destruct (elementsOf_is_elem _ _ He) as [t' [a [ch ->]]].
  cbn [matches] in Hm. unfold byTags in Hm. apply mem_In in Hm.
  apply (H t' Hm). unfold tagsOf. apply in_map_iff. now exists (Elem t' a ch).
Qed.

Lemma fold_removeAll_noop (ts : list string) (d : Document) :
  (forall t, In t ts -> ~ In t (tagsOf d)) ->
  fold_left (fun d tag => removeAll (byTag tag) d) ts d = d.
Proof.
  induction ts as [| x ts IH]; intros H; [reflexivity |].
  cbn [fold_left]. rewrite removeAll_noop.
  - apply IH. intros t Ht. apply H. now right.
  - apply no_match_byTag. apply H. now left.
Qed.

Lemma removeAll_app (sel : selector) (d1 d2 : Document) :
  removeAll sel (d1 ++ d2)%list = (removeAll sel d1 ++ removeAll sel d2)%list.
Proof. unfold removeAll. apply flat_map_app. Qed.

(** A removal pass depends on its selector only through what it selects. *)
Lemma removeAll_ext (s1 s2 : selector) (d : Document) :
  (forall t a, s1 t a = s2 t a) -> removeAll s1 d = removeAll s2 d.
Proof.
  intros E. unfold removeAll.
  induction d using forest_rect' with
    (P := fun n => removeFrom s1 n = removeFrom s2 n).
  - reflexivity.
  - cbn [removeFrom]. rewrite E. now rewrite IHd.
  - reflexivity.
  - cbn [flat_map]. now rewrite IHd, IHd0.
Qed.

(** Two removal passes in a row are one pass for both selectors. *)
Lemma removeAll_fuse (s1 s2 : selector) (d : Document) :
  removeAll s2 (removeAll s1 d) = removeAll (fun t a => s1 t a || s2 t a) d.
Proof.
  unfold removeAll.
  induction d using forest_rect' with
    (P := fun n => flat_map (removeFrom s2) (removeFrom s1 n)
                   = removeFrom (fun t a => s1 t a || s2 t a) n).
  - reflexivity.
  - cbn [removeFrom]. destruct (s1 t a); [reflexivity |].
    cbn [flat_map removeFrom orb]. destruct (s2 t a); [reflexivity |].
    cbn [List.app]. now rewrite IHd.
  - reflexivity.
  - cbn [flat_map]. now rewrite flat_map_app, IHd, IHd0.
Qed.

Lemma removeAll_none (d : Document) : removeAll (byTags []) d = d.
Proof.
  apply removeAll_noop. induction (elementsOf d) as [| e l IH]; [reflexivity |].
  cbn [existsb]. rewrite IH. now destruct e.
Qed.

Lemma mem_snoc (x y : string) (l : list string) :
  JS.mem x (l ++ [y]) = JS.mem x l || String.eqb x y.
Proof.
  unfold JS.mem. rewrite existsb_app. cbn [existsb]. now rewrite orb_false_r.
Qed.

(** The passes of the direct-render variant, one tag after the other,
    amount to one pass for the whole list. *)
Lemma fold_removeAll_fuse (ts acc : list string) (d : Document) :
  fold_left (fun d tag => removeAll (byTag tag) d) ts (removeAll (byTags acc) d)
  = removeAll (byTags (acc ++ ts)) d.
Proof.
  revert acc. induction ts as [| x ts IH]; intros acc.
  - now rewrite app_nil_r.
  - cbn [fold_left]. rewrite removeAll_fuse.
    rewrite (removeAll_ext _ (byTags (acc ++ [x])) d).
    + rewrite IH. now rewrite <- app_assoc.
    + intros t a. unfold byTags, byTag. now rewrite mem_snoc.
Qed.

Lemma cleanUp_one_pass (d : Document) : cleanUp d = removeAll (byTags irrelevantTags) d.
Proof.
  unfold cleanUp. rewrite <- (removeAll_none d) at 1.
  now rewrite fold_removeAll_fuse.
Qed.

(** X16: Both sanitizers remove exactly the elements with one of their tags
    (script, iframe, object, embed for the isolated-render variant; the
    twelve irrelevant tags for the direct-render variant, whose passes
    amount to a single one), each with its subtree, and nothing else: text
    nodes, the other elements, their attributes and their order stay as
    they are.  So the documents that pass a sanitizer unchanged are exactly
    those with none of its tags, and both sanitizers are idempotent. *)
Theorem sanitizer_fixed_points (doc : Document) :
  (sanitize [] = [] /\
   (forall n d, sanitize (n :: d) = (sanitize [n] ++ sanitize d)%list) /\
   (forall data, sanitize [Text data] = [Text data]) /\
   (forall t a ch,
      sanitize [Elem t a ch]
      = if JS.mem t sanitizedTags then [] else [Elem t a (sanitize ch)])) /\
  (cleanUp [] = [] /\
   (forall n d, cleanUp (n :: d) = (cleanUp [n] ++ cleanUp d)%list) /\
   (forall data, cleanUp [Text data] = [Text data]) /\
   (forall t a ch,
      cleanUp [Elem t a ch]
      = if JS.mem t irrelevantTags then [] else [Elem t a (cleanUp ch)])) /\
  (sanitize doc = doc <-> forall t, In t sanitizedTags -> ~ In t (tagsOf doc)) /\
  (cleanUp doc = doc <-> forall t, In t irrelevantTags -> ~ In t (tagsOf doc)) /\
  sanitize (sanitize doc) = sanitize doc /\
  cleanUp (cleanUp doc) = cleanUp doc.
Proof.
  assert (P : forall ts,
            removeAll (byTags ts) [] = [] /\
            (forall n d, removeAll (byTags ts) (n :: d)
                         = (removeAll (byTags ts) [n] ++ removeAll (byTags ts) d)%list) /\
            (forall data, removeAll (byTags ts) [Text data] = [Text data]) /\
            (forall t a ch,
               removeAll (byTags ts) [Elem t a ch]
               = if JS.mem t ts then [] else [Elem t a (removeAll (byTags ts) ch)])).
  { intros ts. split; [reflexivity |]. split; [| split].
    - intros n d. now rewrite <- removeAll_app.
    - reflexivity.
    - intros t a ch. unfold removeAll. cbn [flat_map removeFrom]. unfold byTags at 1.
      now destruct (JS.mem t ts). }
  assert (S : forall d, (forall t, In t sanitizedTags -> ~ In t (tagsOf d)) ->
                        sanitize d = d).
  { intros d H. apply removeAll_noop. now apply no_match_byTags. }
  assert (C : forall d, (forall t, In t irrelevantTags -> ~ In t (tagsOf d)) ->
                        cleanUp d = d).
  { intros d H. now apply fold_removeAll_noop. }
  split; [exact (P sanitizedTags) |].
  split.
  { destruct (P irrelevantTags) as [P1 [P2 [P3 P4]]].
    split; [reflexivity |]. split; [| split].
    - intros n d. rewrite !cleanUp_one_pass. apply P2.
    - intros data. rewrite cleanUp_one_pass. apply P3.
    - intros t a ch. rewrite !cleanUp_one_pass. apply P4. }
  split; [| split; [| split]].
  - split; [| apply S]. intros E t Ht. rewrite <- E.
    now apply removeAll_byTags_absent.
  - split; [| apply C]. intros E t Ht. rewrite <- E.
    now apply fold_removeAll_absent.
  - apply S. intros t Ht. now apply removeAll_byTags_absent.
  - apply C. intros t Ht. now apply fold_removeAll_absent.
Qed.

End FixedPointFacts.

(** ** What the URL Rewriter leaves alone *)

Module FrameFacts.
Import Dom Rewriter RewriterFacts.

Lemma getAttribute_removeAttribute (n : string) (a : list attr) :
  getAttribute n (removeAttribute n a) = None.
Proof.
  induction a as [| [k x] a IH]; simpl; [reflexivity |].
  destruct (String.eqb k n) eqn:E; simpl; [assumption | now rewrite E].
Qed.

Section WithURL.

Variable URL_href : string -> string -> option string.
Variable baseUrl : string.

#[local] Abbreviation absolutize := (Rewriter.absolutize URL_href baseUrl).
#[local] Abbreviation rewriteAttrs := (Rewriter.rewriteAttrs URL_href baseUrl).
#[local] Abbreviation rewriteNode := (Rewriter.rewriteNode URL_href baseUrl).
#[local] Abbreviation rewriteUrls := (Rewriter.rewriteUrls URL_href baseUrl).

Lemma getAttribute_absolutize_other (n m : string) (a : list attr) :
  n <> m -> getAttribute m (absolutize n a) = getAttribute m a.
Proof.
  intros H. unfold Rewriter.absolutize.
  destruct (getAttribute n a) as [v |]; [| reflexivity].
  destruct (JS.truthy v); [| reflexivity].
  now apply getAttribute_setAttribute_other.
Qed.

(** Attributes the rewriter has no business with are read as before. *)
Lemma getAttribute_rewriteAttrs_other (tag name : string) (a : list attr) :
  ~ In name ["src"; "srcset"; "href"; "target"] ->
  getAttribute name (rewriteAttrs tag a) = getAttribute name a.
Proof.
  intros H. cbn [In] in H.
  assert (H1 : "src" <> name) by tauto.
  assert (H2 : "srcset" <> name) by tauto.
  assert (H3 : "href" <> name) by tauto.
  assert (H4 : "target" <> name) by tauto.
  unfold Rewriter.rewriteAttrs, rewriteImg, rewriteLink, rewriteA.
  destruct (String.eqb tag "img");
    [| destruct (String.eqb tag "link"); [| destruct (String.eqb tag "a")]].
  - rewrite getAttribute_removeAttribute_other by exact H2.
    now apply getAttribute_absolutize_other.
  - now apply getAttribute_absolutize_other.
  - rewrite getAttribute_setAttribute_other by exact H4.
    now apply getAttribute_absolutize_other.
  - reflexivity.
Qed.

Lemma textContent_rewriteNode (n : node) :
  textContent (rewriteNode n) = textContent n.
Proof.
  induction n using node_rect' with
    (Q := fun ch => map textContent (map rewriteNode ch) = map textContent ch).
  - reflexivity.
  - cbn [Rewriter.rewriteNode textContent]. now rewrite IHn.
  - reflexivity.
  - cbn [map]. now rewrite IHn, IHn0.
Qed.

Lemma tagOf_rewriteNode (n : node) : tagOf (rewriteNode n) = tagOf n.
Proof. now destruct n. Qed.

Lemma Forall2_map_r {A B : Type} (P : A -> B -> Prop) (f : A -> B) (l : list A) :
  (forall x, P x (f x)) -> Forall2 P l (map f l).
Proof. intros H. induction l as [| x l IH]; constructor; [apply H | exact IH]. Qed.

End WithURL.

(** X17: What the URL Rewriter leaves alone and what it always does.  Element
    by element, in document order, the rewritten document has the same
    tags and the same text; attributes other than [src], [srcset], [href]
    and [target] read as before; elements other than [img], [link] and [a]
    keep all their attributes.  Every [img] ends without [srcset] and every
    [a] with [target="_blank"], with or without a reference to rewrite. *)
Theorem rewriter_frame
  (URL_href : string -> string -> option string) (base : string) (doc : Document) :
  Forall2
    (fun e e' =>
       tagOf e' = tagOf e /\
       textContent e' = textContent e /\
       (forall name, ~ In name ["src"; "srcset"; "href"; "target"] ->
                     getAttribute name (attrsOf e') = getAttribute name (attrsOf e)) /\
       (~ In (tagOf e) ["img"; "link"; "a"] -> attrsOf e' = attrsOf e) /\
       (tagOf e = "img" -> getAttribute "srcset" (attrsOf e') = None) /\
       (tagOf e = "a" -> getAttribute "target" (attrsOf e') = Some "_blank"))
    (elementsOf doc) (elementsOf (rewriteUrls URL_href base doc)) /\
  textContents (rewriteUrls URL_href base doc) = textContents doc.
Proof.
  split.
  - rewrite elementsOf_rewriteUrls. apply Forall2_map_r. intros e.
    split; [apply tagOf_rewriteNode |].
    split; [apply textContent_rewriteNode |].
    destruct e as [d | t a ch]; cbn [Rewriter.rewriteNode tagOf attrsOf].
    { repeat split; discriminate. }
    split; [intros name H; now apply getAttribute_rewriteAttrs_other |].
    unfold Rewriter.rewriteAttrs. split; [| split].
    + intros H. cbn [In] in H.
      destruct (String.eqb_spec t "img") as [-> | _]; [tauto |].
      destruct (String.eqb_spec t "link") as [-> | _]; [tauto |].
      destruct (String.eqb_spec t "a") as [-> | _]; [tauto | reflexivity].
    + intros ->. cbn [String.eqb Ascii.eqb Bool.eqb]. unfold rewriteImg.
      apply getAttribute_removeAttribute.
    + intros ->. cbn [String.eqb Ascii.eqb Bool.eqb]. unfold rewriteA.
      apply getAttribute_setAttribute.
  - rewrite rewriteUrls_fused. unfold textContents. rewrite map_map.
    f_equal. apply map_ext. intros n. apply textContent_rewriteNode.
Qed.

End FrameFacts.

(** ** The root element and its head *)

Module RootFacts.
Import Dom.

(** Case analysis on a tag name that is compared with a literal. *)
Ltac by_characters t :=
  repeat (destruct t as [| [[] [] [] [] [] [] [] []] t]; try reflexivity).

Lemma body_eq (doc : Document) :
  Extractor.body doc
  = match Extractor.documentElement doc with
    | Some (Elem t _ ch) =>
        if String.eqb t "html"
        then find (fun n => String.eqb (tagOf n) "body" || String.eqb (tagOf n) "frameset") ch
        else None
    | _ => None
    end.
Proof.
  unfold Extractor.body.
  destruct (Extractor.documentElement doc) as [[d | t a ch] |]; try reflexivity.
  by_characters t.
Qed.

Lemma injectStyle_eq (doc : Document) :
  Iframe.injectStyle doc
  = match Extractor.documentElement doc with
    | Some (Elem t a ch) =>
        if String.eqb t "html" then
          match Iframe.updateFirst (fun n => String.eqb (tagOf n) "head")
                                   (Iframe.appendChild Iframe.styleElement) ch with
          | Some ch' =>
              match Iframe.updateFirst Iframe.isElement (fun _ => Elem "html" a ch') doc with
              | Some doc' => Ok doc'
              | None => Throw Extractor.nullDeref
              end
          | None => Throw Extractor.nullDeref
          end
        else Throw Extractor.nullDeref
    | _ => Throw Extractor.nullDeref
    end.
Proof.
  unfold Iframe.injectStyle.
  destruct (Extractor.documentElement doc) as [[d | t a ch] |]; try reflexivity.
  by_characters t.
Qed.

(** [find] and [updateFirst] stop at the same node. *)
Lemma updateFirst_spec (p : node -> bool) (f : node -> node) (l : list node) :
  match find p l with
  | Some x =>
      exists l1 l2,
        l = (l1 ++ x :: l2)%list /\ forallb (fun n => negb (p n)) l1 = true /\
        p x = true /\ Iframe.updateFirst p f l = Some (l1 ++ f x :: l2)%list
  | None => Iframe.updateFirst p f l = None
  end.
Proof.
  induction l as [| n r IH]; [reflexivity |].
  cbn [find Iframe.updateFirst]. destruct (p n) eqn:E.
  - exists [], r. now repeat split.
  - destruct (find p r) as [x |].
    + destruct IH as [l1 [l2 [H1 [H2 [H3 H4]]]]].
      exists (n :: l1), l2. subst r. cbn [forallb app]. rewrite E, H2, H4.
      now repeat split.
    + now rewrite IH.
Qed.

Lemma find_app {A : Type} (p : A -> bool) (l1 l2 : list A) :
  forallb (fun n => negb (p n)) l1 = true -> find p (l1 ++ l2) = find p l2.
Proof.
  induction l1 as [| x l1 IH]; [reflexivity |].
  cbn [forallb app find]. intros H. apply andb_true_iff in H.
  destruct H as [Hx Hl]. apply negb_true_iff in Hx. rewrite Hx. now apply IH.
Qed.

(** The shape of a document that takes the style block, and of the
    document with it. *)
Lemma injectStyle_ok (doc doc' : Document) :
  Iframe.injectStyle doc = Ok doc' ->
  exists before a c1 ha hk c2 after,
    doc = (before ++ Elem "html" a (c1 ++ Elem "head" ha hk :: c2) :: after)%list /\
    doc' = (before ++ Elem "html" a
                        (c1 ++ Elem "head" ha (hk ++ [Iframe.styleElement]) :: c2)
                   :: after)%list /\
    forallb (fun n => negb (Iframe.isElement n)) before = true /\
    forallb (fun n => negb (String.eqb (tagOf n) "head")) c1 = true.
Proof.
  rewrite injectStyle_eq. unfold Extractor.documentElement.
  pose proof (updateFirst_spec Iframe.isElement) as S. unfold Iframe.isElement in S at 1.
  intros H.
  destruct (find _ doc) as [[d | t a ch] |] eqn:F; try discriminate.
  destruct (String.eqb_spec t "html") as [-> | _]; [| discriminate].
  pose proof (updateFirst_spec (fun n => String.eqb (tagOf n) "head")
                (Iframe.appendChild Iframe.styleElement) ch) as S1.
  destruct (find _ ch) as [x |].
  - destruct S1 as [c1 [c2 [E1 [N1 [T1 U1]]]]]. rewrite U1 in H.
    specialize (S (fun _ => Elem "html" a (c1 ++ Iframe.appendChild Iframe.styleElement x :: c2)%list) doc).
    rewrite F in S. destruct S as [before [after [E [N [_ U]]]]].
    rewrite U in H. injection H as <-.
    destruct x as [d | t ha hk]; [discriminate T1 |].
    cbn [tagOf] in T1. apply String.eqb_eq in T1. subst t.
    exists before, a, c1, ha, hk, c2, after. subst ch. now repeat split.
  - rewrite S1 in H. discriminate.
Qed.

End RootFacts.

(** ** From the fetched page to the frame *)

Module PipelineFacts.
Import Dom Types RootFacts FrameFacts RewriterFacts SanitizerFacts.

Lemma elementsOf_app (l1 l2 : list node) :
  elementsOf (l1 ++ l2) = (elementsOf l1 ++ elementsOf l2)%list.
Proof. apply flat_map_app. Qed.

Lemma elementsOf_cons (t : string) (a : list attr) (ch rest : list node) :
  elementsOf (Elem t a ch :: rest)
  = (Elem t a ch :: elementsOf ch ++ elementsOf rest)%list.
Proof. reflexivity. Qed.

(** The elements of a document around its [head]. *)
Lemma elementsOf_around_head (before c1 hk c2 after : list node) (a ha : list attr) :
  elementsOf (before ++ Elem "html" a (c1 ++ Elem "head" ha hk :: c2) :: after)
  = (elementsOf before
     ++ Elem "html" a (c1 ++ Elem "head" ha hk :: c2)
     :: (elementsOf c1 ++ Elem "head" ha hk :: elementsOf hk ++ elementsOf c2)
     ++ elementsOf after)%list.
Proof.
  rewrite elementsOf_app, elementsOf_cons, elementsOf_app, elementsOf_cons.
  reflexivity.
Qed.

Lemma tags_injectStyle (doc doc' : Document) (t : string) :
  Iframe.injectStyle doc = Ok doc' ->
  In t (tagsOf doc') -> t = "style" \/ In t (tagsOf doc).
Proof.
  intros H. apply injectStyle_ok in H.
  destruct H as [before [a [c1 [ha [hk [c2 [after [-> [-> _]]]]]]]]].
  unfold tagsOf. rewrite !elementsOf_around_head, elementsOf_app.
  cbn [elementsOf flat_map elements Iframe.styleElement app].
  repeat (rewrite ?map_app, ?in_app_iff; cbn [map tagOf In]).
  intuition auto.
Qed.

Section WithURL.

Variable URL_href : string -> string -> option string.
Variable baseUrl : string.

#[local] Abbreviation rewriteNode := (Rewriter.rewriteNode URL_href baseUrl).
#[local] Abbreviation rewriteUrls := (Rewriter.rewriteUrls URL_href baseUrl).

Lemma tagsOf_rewriteUrls (doc : Document) : tagsOf (rewriteUrls doc) = tagsOf doc.
Proof.
  unfold tagsOf. rewrite elementsOf_rewriteUrls, map_map.
  apply map_ext. intros n. apply tagOf_rewriteNode.
Qed.

(** The selectors of the extractors do not look at rewritten attributes. *)
Lemma stable_byTag (t : string) (n : node) :
  matches (byTag t) (rewriteNode n) = matches (byTag t) n.
Proof. now destruct n. Qed.

Lemma stable_byClass (c : string) (n : node) :
  matches (Extractor.byClass c) (rewriteNode n) = matches (Extractor.byClass c) n.
Proof.
  destruct n as [d | t a ch]; [reflexivity |].
  cbn [Rewriter.rewriteNode matches]. unfold Extractor.byClass.
  rewrite getAttribute_rewriteAttrs_other; [reflexivity |].
  cbn [In]. intros [H | [H | [H | [H | []]]]]; discriminate.
Qed.

Lemma hd_filter_map {A : Type} (p : A -> bool) (f : A -> A) (l : list A) :
  (forall x, p (f x) = p x) ->
  hd_error (filter p (map f l)) = option_map f (hd_error (filter p l)).
Proof.
  intros H. induction l as [| x l IH]; [reflexivity |].
  cbn [map filter]. rewrite H. destruct (p x); [reflexivity | exact IH].
Qed.

Lemma querySelectorDoc_rewriteUrls (sel : selector) (doc : Document) :
  (forall n, matches sel (rewriteNode n) = matches sel n) ->
  querySelectorDoc sel (rewriteUrls doc)
  = option_map rewriteNode (querySelectorDoc sel doc).
Proof.
  intros H. unfold querySelectorDoc, querySelectorAllDoc.
  rewrite elementsOf_rewriteUrls. now apply hd_filter_map.
Qed.

Lemma find_map (p : node -> bool) (l : list node) :
  (forall n, p (rewriteNode n) = p n) ->
  find p (map rewriteNode l) = option_map rewriteNode (find p l).
Proof.
  intros H. induction l as [| x l IH]; [reflexivity |].
  cbn [map find]. rewrite H. destruct (p x); [reflexivity | exact IH].
Qed.

Lemma body_rewriteUrls (doc : Document) :
  Extractor.body (rewriteUrls doc) = option_map rewriteNode (Extractor.body doc).
Proof.
  rewrite !body_eq. unfold Extractor.documentElement.
  rewrite rewriteUrls_fused.
  rewrite find_map by (intros [d | t a ch]; reflexivity).
  destruct (find _ doc) as [[d | t a ch] |]; try reflexivity.
  cbn [option_map Rewriter.rewriteNode].
  destruct (String.eqb t "html"); [| reflexivity].
  apply find_map. intros n. now rewrite tagOf_rewriteNode.
Qed.

Lemma orElse_map (a b : option node) :
  orElse (option_map rewriteNode a) (option_map rewriteNode b)
  = option_map rewriteNode (orElse a b).
Proof. now destruct a. Qed.

Lemma contentRoot'_rewriteUrls (doc : Document) :
  Extractor.contentRoot' (rewriteUrls doc)
  = option_map rewriteNode (Extractor.contentRoot' doc).
Proof.
  unfold Extractor.contentRoot'.
  rewrite !querySelectorDoc_rewriteUrls
    by (apply stable_byTag || apply stable_byClass).
  rewrite body_rewriteUrls. now rewrite !orElse_map.
Qed.

Lemma cleanText_rewriteUrls (doc : Document) :
  Extractor.cleanText (rewriteUrls doc) = Extractor.cleanText doc.
Proof.
  unfold Extractor.cleanText. rewrite contentRoot'_rewriteUrls.
  destruct (Extractor.contentRoot' doc) as [root |]; [| reflexivity].
  cbn [option_map]. now rewrite textContent_rewriteNode.
Qed.

End WithURL.

Lemma find_app_or {A : Type} (p : A -> bool) (l1 l2 : list A) :
  find p (l1 ++ l2) = match find p l1 with Some x => Some x | None => find p l2 end.
Proof.
  induction l1 as [| x l1 IH]; [reflexivity |].
  cbn [app find]. destruct (p x); [reflexivity | exact IH].
Qed.

Lemma filter_style (sel : selector) :
  sel "style" [] = false ->
  filter (matches sel) (elementsOf [Iframe.styleElement]) = [].
Proof.
  intros H. cbn [elementsOf flat_map elements Iframe.styleElement app filter matches].
  now rewrite H.
Qed.

(** A selector that matches neither the root element nor the head finds
    the same element with and without the style block. *)
Lemma querySelectorDoc_injectStyle (sel : selector) (doc doc' : Document) :
  Iframe.injectStyle doc = Ok doc' ->
  sel "style" [] = false ->
  (forall e, In e (elementsOf doc) -> In (tagOf e) ["html"; "head"] ->
             matches sel e = false) ->
  querySelectorDoc sel doc' = querySelectorDoc sel doc.
Proof.
  intros H Hs Hsel. apply injectStyle_ok in H.
  destruct H as [before [a [c1 [ha [hk [c2 [after [-> [-> _]]]]]]]]].
  assert (Hhtml : sel "html" a = false).
  { apply (Hsel (Elem "html" a (c1 ++ Elem "head" ha hk :: c2))); [| now left].
    rewrite elementsOf_around_head. apply in_or_app. right. now left. }
  assert (Hhead : sel "head" ha = false).
  { apply (Hsel (Elem "head" ha hk)); [| right; now left].
    rewrite elementsOf_around_head. apply in_or_app. right. right.
    apply in_or_app. left. apply in_or_app. right. now left. }
  unfold querySelectorDoc, querySelectorAllDoc.
  rewrite !elementsOf_around_head, elementsOf_app.
  repeat (rewrite ?filter_app; cbn [filter matches]).
  rewrite Hhtml, Hhead, (filter_style sel Hs). now rewrite app_nil_r.
Qed.

Lemma body_injectStyle (doc doc' : Document) :
  Iframe.injectStyle doc = Ok doc' -> Extractor.body doc' = Extractor.body doc.
Proof.
  intros H. apply injectStyle_ok in H.
  destruct H as [before [a [c1 [ha [hk [c2 [after [-> [-> [Hb _]]]]]]]]]].
  rewrite !body_eq. unfold Extractor.documentElement.
  change (fun n : node => match n with Text _ => false | Elem _ _ _ => true end)
    with Iframe.isElement.
  rewrite !(find_app Iframe.isElement before) by exact Hb.
  cbn [find Iframe.isElement String.eqb Ascii.eqb Bool.eqb].
  rewrite !find_app_or. reflexivity.
Qed.

Lemma contentRoot'_injectStyle (doc doc' : Document) :
  Iframe.injectStyle doc = Ok doc' ->
  (forall e, In e (elementsOf doc) -> In (tagOf e) ["html"; "head"] ->
             matches (Extractor.byClass "content") e = false) ->
  Extractor.contentRoot' doc' = Extractor.contentRoot' doc.
Proof.
  intros H Hc. unfold Extractor.contentRoot'.
  rewrite (body_injectStyle doc doc' H).
  rewrite (querySelectorDoc_injectStyle (Extractor.byClass "content") doc doc' H eq_refl Hc).
  assert (T : forall t, t <> "html" -> t <> "head" ->
                        forall e, In e (elementsOf doc) -> In (tagOf e) ["html"; "head"] ->
                                  matches (byTag t) e = false).
  { intros t H1 H2 e He Ht. destruct (elementsOf_is_elem _ _ He) as [t' [a [ch ->]]].
    cbn [tagOf In] in Ht. cbn [matches]. unfold byTag. apply String.eqb_neq.
    destruct Ht as [<- | [<- | []]]; congruence. }
  rewrite (querySelectorDoc_injectStyle (byTag "article") doc doc' H eq_refl)
    by (apply T; discriminate).
  rewrite (querySelectorDoc_injectStyle (byTag "main") doc doc' H eq_refl)
    by (apply T; discriminate).
  reflexivity.
Qed.

(** X18: Rewriting the references of a document changes nothing of the text
    the whole-region extractor takes from it: the content root is found at
    the same place and holds the same text. *)
Theorem rewriting_keeps_the_text
  (URL_href : string -> string -> option string) (base : string) (doc : Document) :
  Extractor.contentRoot' (Rewriter.rewriteUrls URL_href base doc)
  = option_map (Rewriter.rewriteNode URL_href base) (Extractor.contentRoot' doc) /\
  Extractor.cleanText (Rewriter.rewriteUrls URL_href base doc) = Extractor.cleanText doc /\
  Extractor.extract' (Rewriter.rewriteUrls URL_href base doc) = Extractor.extract' doc.
Proof.
  split; [apply contentRoot'_rewriteUrls |].
  split; [apply cleanText_rewriteUrls |].
  unfold Extractor.extract'. now rewrite cleanText_rewriteUrls.
Qed.

(** X19: The style block goes to the end of the head and nowhere else: a
    document takes it exactly when its first element is [html] with a
    [head] child, and the new document differs from the old one by that
    one child of the first [head]. *)
Theorem style_goes_to_the_head (doc doc' : Document) :
  Iframe.injectStyle doc = Ok doc' ->
  exists before a c1 ha hk c2 after,
    doc = (before ++ Elem "html" a (c1 ++ Elem "head" ha hk :: c2) :: after)%list /\
    doc' = (before ++ Elem "html" a
                        (c1 ++ Elem "head" ha (hk ++ [Iframe.styleElement]) :: c2)
                   :: after)%list /\
    Extractor.documentElement doc = Some (Elem "html" a (c1 ++ Elem "head" ha hk :: c2)) /\
    find (fun n => String.eqb (tagOf n) "head") (c1 ++ Elem "head" ha hk :: c2)
    = Some (Elem "head" ha hk) /\
    Extractor.body doc' = Extractor.body doc.
Proof.
  intros H. pose proof (body_injectStyle doc doc' H) as Hbody.
  apply injectStyle_ok in H.
  destruct H as [before [a [c1 [ha [hk [c2 [after [E [E' [Hb Hh]]]]]]]]]].
  exists before, a, c1, ha, hk, c2, after.
  split; [exact E |]. split; [exact E' |]. split; [| split; [| exact Hbody]].
  - subst doc. unfold Extractor.documentElement.
    change (fun n : node => match n with Text _ => false | Elem _ _ _ => true end)
      with Iframe.isElement.
    now rewrite (find_app Iframe.isElement before) by exact Hb.
  - now rewrite (find_app _ c1) by exact Hh.
Qed.

Lemma style_goes_to_the_head_witness :
  exists doc',
    Iframe.injectStyle Extractor.helloPage = Ok doc' /\
    Extractor.body doc' = Extractor.body Extractor.helloPage.
Proof.
  eexists. split; [reflexivity |].
  destruct (style_goes_to_the_head Extractor.helloPage _ eq_refl)
    as [before [a [c1 [ha [hk [c2 [after [_ [_ [_ [_ H]]]]]]]]]]].
  exact H.
Defined.

(** X20: The document that is serialized for the frame is still sanitized as
    far as selectors reach: among its elements (to which the contents of
    [template] elements do not belong, see [Template]) rewriting and the
    style block bring back none of the removed elements, and the only
    element added is the style block. *)
Theorem rendered_document_is_sanitized (w : World) (base rawHtml : string)
  (doc : Document) :
  Iframe.renderable w base rawHtml = Ok doc ->
  (forall t, In t ["script"; "iframe"; "object"; "embed"] -> ~ In t (tagsOf doc)) /\
  (forall t, In t (tagsOf doc) ->
             t = "style" \/ In t (tagsOf (parseFromString w rawHtml))).
Proof.
  unfold Iframe.renderable. intros H.
  assert (T : forall t, In t (tagsOf doc) ->
                        t = "style" \/
                        In t (tagsOf (Sanitizer.sanitize (parseFromString w rawHtml)))).
  { intros t Ht. apply (tags_injectStyle _ _ t H) in Ht.
    now rewrite tagsOf_rewriteUrls in Ht. }
  split.
  - intros t Ht Hin. apply T in Hin. destruct Hin as [-> | Hin].
    + cbn [In] in Ht. intuition discriminate.
    + revert Hin. now apply removeAll_byTags_absent.
  - intros t Ht. apply T in Ht. destruct Ht as [-> | Ht]; [now left | right].
    revert Ht. apply removeAll_tags_subset.
Qed.

Lemma rendered_document_is_sanitized_witness :
  exists doc,
    Iframe.renderable Examples.online "https://example.com/post" "" = Ok doc /\
    In "script" (tagsOf (parseFromString Examples.online "")) /\
    ~ In "script" (tagsOf doc).
Proof.
  eexists. split; [reflexivity |]. split; [vm_compute; tauto |].
  apply (rendered_document_is_sanitized Examples.online "https://example.com/post" ""
           _ eq_refl).
  now left.
Defined.

(** X21: The text given to the model is the text of the sanitized page:
    neither the rewritten references nor the injected style rules get into
    it, provided the [html] and [head] elements do not carry the class
    [content] (which would make one of them the content root). *)
Theorem rendered_text_is_the_sanitized_text (w : World) (base rawHtml : string)
  (doc : Document) :
  Iframe.renderable w base rawHtml = Ok doc ->
  (forall e, In e (elementsOf (Sanitizer.sanitize (parseFromString w rawHtml))) ->
             In (tagOf e) ["html"; "head"] ->
             matches (Extractor.byClass "content") e = false) ->
  Extractor.cleanText doc
  = Extractor.cleanText (Sanitizer.sanitize (parseFromString w rawHtml)) /\
  Extractor.extract' doc
  = Extractor.extract' (Sanitizer.sanitize (parseFromString w rawHtml)).
Proof.
  unfold Iframe.renderable. intros H Hc.
  assert (E : Extractor.cleanText doc
              = Extractor.cleanText (Sanitizer.sanitize (parseFromString w rawHtml))).
  { rewrite <- (cleanText_rewriteUrls (URL_href w) base
                 (Sanitizer.sanitize (parseFromString w rawHtml))).
    unfold Extractor.cleanText. rewrite (contentRoot'_injectStyle _ _ H); [reflexivity |].
    intros e He Ht. rewrite elementsOf_rewriteUrls in He.
    apply in_map_iff in He. destruct He as [e0 [<- He0]].
    rewrite tagOf_rewriteNode in Ht. rewrite stable_byClass. now apply Hc. }
  split; [exact E |]. unfold Extractor.extract'. now rewrite E.
Qed.

Lemma rendered_text_is_the_sanitized_text_witness :
  exists doc,
    Iframe.renderable Examples.online "https://example.com/post" "" = Ok doc /\
    Extractor.cleanText doc = Extractor.cleanText (Sanitizer.sanitize Examples.skyPage).
Proof.
  eexists. split; [reflexivity |].
  apply (rendered_text_is_the_sanitized_text Examples.online "https://example.com/post" ""
           _ eq_refl).
  intros e He Ht. vm_compute in He.
  repeat (destruct He as [<- | He]; [try reflexivity; cbn in Ht; intuition discriminate |]).
  destruct He.
Defined.

End PipelineFacts.

(** ** Trimming and collapsing white space *)

Module TextFacts.
Import Dom ParserFacts AnchorFacts.

(** *** Trimming *)

Lemma trimStart_head (s : string) :
  match JS.trimStart s with
  | String c _ => JS.isWhite c = false
  | EmptyString => True
  end.
Proof.
  induction s as [| c r IH]; [exact I |].
  cbn [JS.trimStart]. destruct (JS.isWhite c) eqn:E; [exact IH | exact E].
Qed.

Lemma trimStart_fix (s : string) :
  match s with String c _ => JS.isWhite c = false | EmptyString => True end ->
  JS.trimStart s = s.
Proof. destruct s as [| c r]; [reflexivity |]. cbn [JS.trimStart]. now intros ->. Qed.

Lemma trimEnd_head (c : ascii) (r : string) :
  JS.isWhite c = false -> exists r', JS.trimEnd (String c r) = String c r'.
Proof.
  intros H. cbn [JS.trimEnd]. rewrite H.
  destruct (JS.trimEnd r); eexists; reflexivity.
Qed.

Lemma trimEnd_idem (s : string) : JS.trimEnd (JS.trimEnd s) = JS.trimEnd s.
Proof.
  induction s as [| c r IH]; [reflexivity |].
  cbn [JS.trimEnd]. destruct (JS.trimEnd r) as [| d r'] eqn:E.
  - destruct (JS.isWhite c) eqn:W; [reflexivity |].
    cbn [JS.trimEnd]. now rewrite W.
  - cbn [JS.trimEnd]. cbn [JS.trimEnd] in IH. now rewrite IH.
Qed.

Lemma trim_idem (s : string) : JS.trim (JS.trim s) = JS.trim s.
Proof.
  unfold JS.trim. pose proof (trimStart_head s) as H.
  destruct (JS.trimStart s) as [| c r] eqn:E; [reflexivity |].
  destruct (trimEnd_head c r H) as [r' E']. rewrite E'.
  rewrite trimStart_fix by exact H. rewrite <- E'. apply trimEnd_idem.
Qed.

(** The trimmed text is a part of the text. *)
Lemma trim_infix (s : string) : exists u v, s = u ++ JS.trim s ++ v.
Proof.
  destruct (trimStart_suffix s) as [u Hu].
  destruct (trimEnd_prefix (JS.trimStart s)) as [v Hv].
  exists u, v. fold (JS.trim s) in Hv. now rewrite <- Hv.
Qed.

Lemma includes_part (u m v a : string) :
  JS.includes (u ++ m ++ v) a = false -> JS.includes m a = false.
Proof.
  intros H. destruct (JS.includes m a) eqn:E; [| reflexivity].
  destruct (findFirst_includes _ _ E) as [p [q [_ ->]]].
  rewrite <- H. symmetry.
  replace (u ++ (p ++ a ++ q) ++ v) with ((u ++ p) ++ a ++ (q ++ v))
    by now rewrite !append_assoc.
  apply includes_infix.
Qed.

(** *** Collapsing white space *)

Lemma space_is_white (c : ascii) : JS.isWhite c = false -> Ascii.eqb " " c = false.
Proof.
  intros H. destruct (Ascii.eqb_spec " " c) as [<- | _]; [discriminate H | reflexivity].
Qed.

Lemma includes_two (x : ascii) (t : string) :
  JS.includes (String x t) "  "
  = (Ascii.eqb " " x && JS.startsWith t " ") || JS.includes t "  ".
Proof. reflexivity. Qed.

(** What [collapseWhite] starts with. *)
Lemma collapseWhite_head (s : string) :
  match s with
  | String c _ =>
      exists r', Extractor.collapseWhite s
                 = String (if JS.isWhite c then " "%char else c) r' /\
                 (JS.isWhite c = true -> JS.startsWith r' " " = false)
  | EmptyString => Extractor.collapseWhite s = ""
  end.
Proof.
  induction s as [| c r IH]; [reflexivity |].
  cbn [Extractor.collapseWhite]. destruct (JS.isWhite c) eqn:W.
  - destruct r as [| c' r'].
    + now exists "".
    + destruct IH as [t [E H]]. destruct (JS.isWhite c') eqn:W'.
      * exists t. split; [exact E | exact H].
      * eexists. split; [reflexivity |]. intros _. rewrite E.
        cbn [JS.startsWith]. now rewrite (space_is_white c' W').
  - eexists. split; [reflexivity | discriminate].
Qed.

Lemma collapseWhite_single (s : string) :
  JS.includes (Extractor.collapseWhite s) "  " = false.
Proof.
  induction s as [| c r IH]; [reflexivity |].
  pose proof (collapseWhite_head (String c r)) as H. cbv beta iota in H.
  destruct H as [t [E Ht]].
  cbn [Extractor.collapseWhite] in *. destruct (JS.isWhite c) eqn:W.
  - destruct r as [| c' r'].
    + reflexivity.
    + destruct (JS.isWhite c') eqn:W'; [exact IH |].
      rewrite includes_two, IH, orb_false_r.
      pose proof (collapseWhite_head (String c' r')) as H'. cbv beta iota in H'.
      destruct H' as [t' [E' _]]. rewrite W' in E'. rewrite E'.
      cbn [JS.startsWith]. now rewrite (space_is_white c' W'), andb_false_r.
  - rewrite includes_two, IH, orb_false_r. now rewrite (space_is_white c W).
Qed.

Lemma collapseWhite_spaces (s : string) :
  Str.free (fun c => JS.isWhite c && negb (Ascii.eqb c " ")) (Extractor.collapseWhite s)
  = true.
Proof.
  induction s as [| c r IH]; [reflexivity |].
  cbn [Extractor.collapseWhite]. destruct (JS.isWhite c) eqn:W.
  - destruct r as [| c' r']; [reflexivity |].
    destruct (JS.isWhite c'); [exact IH |].
    cbn [Str.free]. now rewrite IH.
  - cbn [Str.free]. now rewrite W, IH.
Qed.

(** Text in which white space is single spaces is left as it is. *)
Lemma collapseWhite_fix (s : string) :
  Str.free (fun c => JS.isWhite c && negb (Ascii.eqb c " ")) s = true ->
  JS.includes s "  " = false ->
  Extractor.collapseWhite s = s.
Proof.
  induction s as [| c r IH]; [reflexivity |].
  intros F N. cbn [Str.free] in F. apply andb_true_iff in F. destruct F as [Fc Fr].
  rewrite includes_two in N. apply orb_false_iff in N. destruct N as [N1 N2].
  cbn [Extractor.collapseWhite]. rewrite (IH Fr N2).
  destruct (JS.isWhite c) eqn:W; [| reflexivity].
  cbn [andb] in Fc. apply negb_true_iff in Fc. apply negb_false_iff in Fc.
  apply Ascii.eqb_eq in Fc. subst c. cbn [Ascii.eqb Bool.eqb andb] in N1.
  destruct r as [| c' r']; [reflexivity |].
  cbn [JS.startsWith] in N1. rewrite andb_true_r in N1.
  destruct (JS.isWhite c') eqn:W'; [| reflexivity].
  cbn [Str.free] in Fr. rewrite W' in Fr. cbn [andb] in Fr.
  apply andb_true_iff in Fr. destruct Fr as [Fc' _].
  apply negb_true_iff in Fc'. apply negb_false_iff in Fc'.
  rewrite Ascii.eqb_sym in Fc'. congruence.
Qed.

(** X22: The text the whole-region extractor gives to the model is in normal
    form: its only white space is single spaces between other characters.
    It holds no tab, line break or no-break space, no two spaces in a row,
    and neither starts nor ends with a space; collapsing and trimming it
    again change nothing. *)
Theorem cleanText_is_normalized (doc : Document) (text : string) :
  Extractor.cleanText doc = Ok text ->
  Str.free (fun c => JS.isWhite c && negb (Ascii.eqb c " ")) text = true /\
  JS.includes text "  " = false /\
  JS.trim text = text /\
  Extractor.collapseWhite text = text.
Proof.
  unfold Extractor.cleanText.
  destruct (Extractor.contentRoot' doc) as [root |]; [| discriminate].
  intros H. injection H as <-.
  remember (Extractor.collapseWhite (textContent root)) as t eqn:Et.
  destruct (trim_infix t) as [u [v E]].
  assert (F : Str.free (fun c => JS.isWhite c && negb (Ascii.eqb c " ")) (JS.trim t) = true).
  { pose proof (collapseWhite_spaces (textContent root)) as F.
    rewrite <- Et, E, !free_app in F.
    apply andb_true_iff in F. destruct F as [_ F].
    apply andb_true_iff in F. now destruct F as [F _]. }
  assert (N : JS.includes (JS.trim t) "  " = false).
  { apply (includes_part u _ v). rewrite <- E, Et. apply collapseWhite_single. }
  split; [exact F |]. split; [exact N |]. split; [apply trim_idem |].
  now apply collapseWhite_fix.
Qed.

Lemma cleanText_is_normalized_witness :
  Extractor.cleanText
    [Elem "html" []
       [Elem "head" [] [];
        Elem "body" [] [Text ("  The sky" ++ Html.LF ++ "   is   blue. ")]]]
  = Ok "The sky is blue." /\
  Extractor.collapseWhite "The sky is blue." = "The sky is blue.".
Proof.
  split; [reflexivity |].
  apply (cleanText_is_normalized
           [Elem "html" []
              [Elem "head" [] [];
               Elem "body" [] [Text ("  The sky" ++ Html.LF ++ "   is   blue. ")]]]
           "The sky is blue." eq_refl).
Defined.

(** X23: A block element inside another block element is collected once for
    itself and once more as part of the outer block: the text of a
    paragraph in a list item or in a quotation is extracted twice. *)
Theorem nested_blocks_are_collected_twice
  (rootTag outer inner : string) (a ao ai : list attr) (d : string) :
  In outer Extractor.blockTags -> In inner Extractor.blockTags ->
  40 < String.length (JS.trim d) ->
  Extractor.textBlocks (Elem rootTag a [Elem outer ao [Elem inner ai [Text d]]])
  = [JS.trim d; JS.trim d].
Proof.
  intros Ho Hi L. apply SanitizerFacts.mem_In in Ho, Hi.
  unfold Extractor.textBlocks, querySelectorAll, descendants.
  cbn [elementsOf flat_map elements app filter matches]. unfold byTags at 1 2.
  rewrite Ho, Hi.
  cbn [map textContent String.concat].
  cbn [filter]. apply Nat.ltb_lt in L. now rewrite L.
Qed.

Lemma nested_blocks_are_collected_twice_witness :
  Extractor.textBlocks
    (Elem "article" []
       [Elem "li" [] [Elem "p" [] [Text "The sky is blue today because air molecules scatter light."]]])
  = ["The sky is blue today because air molecules scatter light.";
     "The sky is blue today because air molecules scatter light."].
Proof.
  apply (nested_blocks_are_collected_twice "article" "li" "p" [] [] []
           "The sky is blue today because air molecules scatter light.").
  - cbn. tauto.
  - cbn. tauto.
  - apply Nat.ltb_lt. reflexivity.
Defined.

End TextFacts.

(** ** The highlight of the direct-render variant *)

Module HighlightFacts.
Import Dom Types Parser ParserFacts AnchorFacts SplitFacts TextFacts.














End HighlightFacts.

(** ** From the extracted text to the reader pane *)

Module RenderFacts.
Import Dom Types ParserFacts AnchorFacts SplitFacts TextFacts.

(** Joining blocks with a blank line and splitting at line feeds gives
    the blocks back, with an empty line between them. *)
Lemma split_joinBlocks (b : string) (blocks : list string) :
  (forall x, In x (b :: blocks) -> Str.free (Ascii.eqb (ascii_of_nat 10)) x = true) ->
  filter (fun para => JS.truthy (JS.trim para))
         (Str.split Html.LF (Extractor.joinBlocks (b :: blocks)))
  = filter (fun para => JS.truthy (JS.trim para)) (b :: blocks).
Proof.
  unfold Str.split, Html.LF, Extractor.joinBlocks.
  revert b. induction blocks as [| b2 r IH]; intros b H.
  - cbn [JS.join]. rewrite splitFrom_free; [reflexivity |]. apply H. now left.
  - change (JS.join (Html.LF ++ Html.LF) (b :: b2 :: r))
      with (b ++ String (ascii_of_nat 10)
                   (String (ascii_of_nat 10) (JS.join (Html.LF ++ Html.LF) (b2 :: r)))).
    rewrite splitFrom_app by (apply H; now left).
    rewrite (splitFrom_app (ascii_of_nat 10) "" _ eq_refl
             : Str.splitFrom _ 0 (String (ascii_of_nat 10) _) = _).
    cbn [filter]. change (JS.truthy (JS.trim "")) with false. cbv iota.
    rewrite (IH b2) by (intros x Hx; apply H; now right).
    reflexivity.
Qed.

Lemma filter_all {A : Type} (p : A -> bool) (l : list A) :
  (forall x, In x l -> p x = true) -> filter p l = l.
Proof.
  induction l as [| x l IH]; intros H; [reflexivity |].
  cbn [filter]. rewrite (H x) by now left. f_equal. apply IH.
  intros y Hy. apply H. now right.
Qed.

Lemma truthy_true (s : string) : s <> "" -> JS.truthy s = true.
Proof. destruct s; [now intros [] | reflexivity]. Qed.

Lemma joinBlocks_nonempty (b : string) (blocks : list string) :
  b <> "" -> Extractor.joinBlocks (b :: blocks) <> "".
Proof.
  unfold Extractor.joinBlocks. destruct b as [| c b]; [now intros [] |].
  intros _. destruct blocks; discriminate.
Qed.

(** The paragraphs shown for an article made of blocks. *)
Lemma renderParagraphs_blocks (s : Direct.State) (blocks : list string) :
  Direct.articleContent s = Extractor.joinBlocks blocks ->
  blocks <> [] ->
  (forall b, In b blocks ->
             Str.free (Ascii.eqb (ascii_of_nat 10)) b = true /\ JS.trim b <> "") ->
  DirectAnchor.renderParagraphs s
  = (map DirectAnchor.textChild blocks
     ++ match Direct.dictionary s with
        | Some d => [DirectAnchor.textChild (englishDefinition d);
                     DirectAnchor.textChild (chineseDefinition d);
                     DirectAnchor.textChild (contextExplanation d)]
        | None => []
        end)%list.
Proof.
  intros E Hne H. unfold DirectAnchor.renderParagraphs. rewrite E.
  destruct blocks as [| b blocks]; [now elim Hne |].
  rewrite truthy_true.
  - rewrite split_joinBlocks by (intros x Hx; now apply H).
    rewrite filter_all; [reflexivity |].
    intros x Hx. apply truthy_true. now apply H.
  - apply joinBlocks_nonempty. intros ->. destruct (H "") as [_ N]; [now left |].
    now apply N.
Qed.

(** The blocks the extractor keeps are trimmed and not blank. *)
Lemma textBlocks_trimmed (root : node) (b : string) :
  In b (Extractor.textBlocks root) -> JS.trim b = b /\ b <> "".
Proof.
  unfold Extractor.textBlocks. intros H. apply filter_In in H.
  destruct H as [H L]. apply in_map_iff in H. destruct H as [el [<- _]].
  split; [apply trim_idem |]. apply Nat.ltb_lt in L.
  intros E. rewrite E in L. simpl in L. lia.
Qed.

Lemma load_succeeds (w : World) (s : Direct.State) (html : string) (root : node)
  (result : AnalysisResult) :
  Direct.urlInput s <> "" ->
  fetchHtml w (Direct.urlInput s) = Ok html ->
  Extractor.contentRoot (Sanitizer.cleanUp (parseFromString w html)) = Some root ->
  200 <= String.length (Extractor.joinBlocks (Extractor.textBlocks root)) ->
  analyzeArticle w (Extractor.joinBlocks (Extractor.textBlocks root)) = Ok result ->
  Direct.articleContent (Direct.handleLoadArticle w s)
  = Extractor.joinBlocks (Extractor.textBlocks root) /\
  Direct.analysis (Direct.handleLoadArticle w s) = Some result /\
  Direct.dictionary (Direct.handleLoadArticle w s) = Direct.dictionary s.
Proof.
  intros Hu F R L A.
  unfold Direct.handleLoadArticle, Direct.beginLoad.
  rewrite (LoadFacts.truthy_nonempty _ Hu). cbn [negb].
  unfold Direct.finishLoad, Direct.finishLoadOf, Direct.tryLoadOf.
  cbn [Direct.urlInput Direct.clearArticle Direct.setArticleContent
       Direct.setChatHistory Direct.setAnalysis Direct.setLoadingState].
  rewrite F. unfold Extractor.extract, Extractor.extractedText. rewrite R.
  cbn [bind]. apply Nat.ltb_ge in L. unfold Extractor.minimumLength. rewrite L.
  rewrite A. repeat split.
Qed.

(** X24: After a successful load the reader pane shows the extracted blocks,
    one paragraph per block and in their order, provided no block holds a
    line feed (a block with a line feed is shown as several paragraphs);
    the paragraphs of an open dictionary popup follow. *)
Theorem loaded_article_is_shown_block_by_block
  (w : World) (s : Direct.State) (html : string) (root : node)
  (result : AnalysisResult) :
  Direct.urlInput s <> "" ->
  fetchHtml w (Direct.urlInput s) = Ok html ->
  Extractor.contentRoot (Sanitizer.cleanUp (parseFromString w html)) = Some root ->
  200 <= String.length (Extractor.joinBlocks (Extractor.textBlocks root)) ->
  analyzeArticle w (Extractor.joinBlocks (Extractor.textBlocks root)) = Ok result ->
  (forall b, In b (Extractor.textBlocks root) ->
             Str.free (Ascii.eqb (ascii_of_nat 10)) b = true) ->
  DirectAnchor.renderParagraphs (Direct.handleLoadArticle w s)
  = (map DirectAnchor.textChild (Extractor.textBlocks root)
     ++ match Direct.dictionary s with
        | Some d => [DirectAnchor.textChild (englishDefinition d);
                     DirectAnchor.textChild (chineseDefinition d);
                     DirectAnchor.textChild (contextExplanation d)]
        | None => []
        end)%list.
Proof.
  intros Hu F R L A H.
  destruct (load_succeeds w s html root result Hu F R L A) as [E [_ D]].
  rewrite <- D. apply renderParagraphs_blocks; [exact E | |].
  - intros N. rewrite N in L. simpl in L. lia.
  - intros b Hb. split; [now apply H |].
    destruct (textBlocks_trimmed root b Hb) as [T N]. now rewrite T.
Qed.

Lemma loaded_article_is_shown_block_by_block_witness :
  DirectAnchor.renderParagraphs
    (Direct.handleLoadArticle Examples.online
       (Examples.readingDirect "https://example.com/post"))
  = [[Text Examples.skyParagraph]; [Text "to spread"]; [Text "-"];
     [Text "light is spread by air"]].
Proof.
  rewrite (loaded_article_is_shown_block_by_block Examples.online
             (Examples.readingDirect "https://example.com/post")
             match allOrigins Examples.online "https://example.com/post" with
             | Some html => html
             | None => ""
             end
             match Extractor.contentRoot (Sanitizer.cleanUp Examples.skyPage) with
             | Some root => root
             | None => Text ""
             end
             Examples.skyAnalysis).
  - reflexivity.
  - discriminate.
  - reflexivity.
  - reflexivity.
  - apply Nat.leb_le. reflexivity.
  - reflexivity.
  - intros b Hb. vm_compute in Hb. destruct Hb as [<- | []]. reflexivity.
Defined.






End RenderFacts.

(** ** Analysis after a failed load *)

Module RetryFacts.
Import Types Direct.

(** X26: A failed load leaves its notice in the place of the article, and the
    component takes the notice for an article: on the analysis tab the
    [Analyze Article] button is offered, and a click on it sends the text
    of the notice to the model. *)
Theorem failed_load_offers_to_analyse_the_notice (w : World) (s : State) :
  urlInput s <> "" ->
  activeTab s = analysisTab ->
  analysis (handleLoadArticle w s) = None ->
  exists e,
    articleContent (handleLoadArticle w s) = failureNotice e /\
    Busy.available Busy.ClickAnalyze (handleLoadArticle w s) = true /\
    Busy.beginManualAnalyze (handleLoadArticle w s)
    = Some (setLoadingState ANALYZING (handleLoadArticle w s)) /\
    Session.manualAnalysisText (handleLoadArticle w s) = Some (failureNotice e).
Proof.
  intros Hu Ht. unfold handleLoadArticle, beginLoad.
  rewrite (LoadFacts.truthy_nonempty _ Hu). cbn [negb].
  unfold finishLoad, finishLoadOf, tryLoadOf, Busy.available, Busy.beginManualAnalyze,
         Session.manualAnalysisText.
  cbn [urlInput clearArticle setArticleContent setChatHistory setAnalysis
       setLoadingState].
  destruct (fetchHtml w (urlInput s)) as [html | e];
    [| intros _; exists e; cbn [articleContent activeTab analysis loadingState
                                 setArticleContent setLoadingState setChatHistory
                                 setAnalysis clearArticle];
       rewrite Ht; now repeat split].
  destruct (Extractor.extract _) as [text | e];
    [| intros _; exists e; cbn [articleContent activeTab analysis loadingState
                                 setArticleContent setLoadingState setChatHistory
                                 setAnalysis clearArticle];
       rewrite Ht; now repeat split].
  destruct (analyzeArticle w text) as [result | e];
    [discriminate |].
  intros _. exists e.
  cbn [articleContent activeTab analysis loadingState setArticleContent
       setLoadingState setChatHistory setAnalysis clearArticle].
  rewrite Ht. now repeat split.
Qed.

Lemma failed_load_offers_to_analyse_the_notice_witness :
  Busy.available Busy.ClickAnalyze
    (handleLoadArticle Examples.offline
       (Examples.readingDirect "https://example.com/post")) = true /\
  Session.manualAnalysisText
    (handleLoadArticle Examples.offline
       (Examples.readingDirect "https://example.com/post"))
  = Some (failureNotice (Error "Failed to fetch")).
Proof.
  destruct (failed_load_offers_to_analyse_the_notice Examples.offline
              (Examples.readingDirect "https://example.com/post"))
    as [e [H1 [H2 [_ H4]]]]; [discriminate | reflexivity | reflexivity |].
  split; [exact H2 | reflexivity].
Defined.

End RetryFacts.

(** ** Anchor Locator: when the notice is raised *)

Module AlarmFacts.
Import Dom Types IframeAnchor.

Lemma scan_complete (a : string) (rest seen : DirectAnchor.Paragraphs) (m : string) :
  DirectAnchor.scan a seen rest = DirectAnchor.NotFound m ->
  forallb (fun p => negb (JS.includes (textContents p) a)) rest = true /\
  m = "Could not find exact text match for anchor.".
Proof.
  revert seen. induction rest as [| p r IH]; intros seen H; cbn [DirectAnchor.scan] in H.
  - injection H as <-. now split.
  - cbn [forallb]. destruct (JS.includes (textContents p) a); [discriminate |].
    now apply IH in H.
Qed.

(** Where the walker finds nothing, no text node holds the anchor. *)
Lemma findText_complete (a : string) (n : node) :
  forall c, findText a c n = None ->
            forallb (fun d => negb (JS.includes d a)) (textNodes n) = true.
Proof.
  induction n using node_rect' with
    (Q := fun ch => forall t at_ c left,
            firstChild (fun l r x => findText a (Down t at_ l c r) x) left ch = None ->
            forallb (fun d => negb (JS.includes d a)) (flat_map textNodes ch) = true).
  - intros c H. cbn [findText] in H. cbn [textNodes forallb].
    destruct (JS.includes d a); [discriminate | reflexivity].
  - intros c H. cbn [findText] in H. cbn [textNodes]. now apply IHn in H.
  - reflexivity.
  - intros t at_ c left H. cbn [firstChild] in H. cbn [flat_map].
    destruct (findText a (Down t at_ left c ns) n) eqn:E; [discriminate |].
    rewrite forallb_app. rewrite (IHn _ E). now apply IHn0 in H.
Qed.

(** What the walker finds under an element has a parent element. *)
Lemma findText_below (a : string) (n : node) :
  forall c c' d, findText a c n = Some (c', d) ->
                 c' = c \/ exists t at_ l up r, c' = Down t at_ l up r.
Proof.
  induction n using node_rect' with
    (Q := fun ch => forall t at_ c left c' d,
            firstChild (fun l r x => findText a (Down t at_ l c r) x) left ch
              = Some (c', d) ->
            exists t' at' l up r, c' = Down t' at' l up r).
  - intros c c' d' H. cbn [findText] in H.
    destruct (JS.includes d a); [| discriminate]. injection H as <- _. now left.
  - intros c c' d H. cbn [findText] in H. right. now apply IHn in H.
  - discriminate.
  - intros t at_ c left c' d H. cbn [firstChild] in H.
    destruct (findText a (Down t at_ left c ns) n) as [[c1 d1] |] eqn:E.
    + injection H as <- <-. apply IHn in E. destruct E as [-> | E]; [| exact E].
      now exists t, at_, left, c, ns.
    + now apply IHn0 in H.
Qed.

Lemma bodyAmong_down (a : list attr) (rest left : list node) (bc : ctx) (body : node) :
  bodyAmong a left rest = Some (bc, body) ->
  exists l r, bc = Down "html" a l Top r.
Proof.
  revert left. induction rest as [| n r IH]; intros left H; [discriminate |].
  cbn [bodyAmong] in H. destruct (_ || _).
  - injection H as <- _. now exists left, r.
  - now apply IH in H.
Qed.

(** X27: No false alarm: a locator raises its not-found notice only for an
    anchor whose trimmed form occurs in no paragraph (direct-render
    variant), or in no text node under the body and is not found by the
    native search either (isolated-render variant). *)
Theorem not_found_notice_is_justified
  (anchor : string) (ps : DirectAnchor.Paragraphs) (win : Window)
  (noticeD noticeI : string) :
  DirectAnchor.handleScrollToQuote anchor ps = DirectAnchor.NotFound noticeD ->
  IframeAnchor.handleScrollToQuote win anchor = Alerted noticeI ->
  forallb (fun p => negb (JS.includes (textContents p) (JS.trim anchor))) ps = true /\
  noticeD = "Could not find exact text match for anchor." /\
  noticeI = "Could not find the exact text in the article view." /\
  JS.trim anchor <> "" /\
  exists root bc body nativeFind,
    document win = Some root /\ bodyOf root = Some (bc, body) /\
    forallb (fun d => negb (JS.includes d (JS.trim anchor))) (textNodes body) = true /\
    find win = Some nativeFind /\ nativeFind (JS.trim anchor) = false.
Proof.
  intros HD HI. apply scan_complete in HD. destruct HD as [HD ->].
  split; [exact HD |]. split; [reflexivity |].
  unfold IframeAnchor.handleScrollToQuote in HI.
  destruct (document win) as [root |] eqn:D; [| discriminate].
  destruct (negb (JS.truthy anchor)); [discriminate |].
  destruct (JS.trim anchor) as [| c t] eqn:T; [discriminate |].
  cbn [JS.truthy negb] in HI.
  destruct (bodyOf root) as [[bc body] |] eqn:B; [| discriminate].
  assert (F : fallback win (String c t) = Alerted noticeI ->
              noticeI = "Could not find the exact text in the article view." /\
              exists nativeFind,
                find win = Some nativeFind /\ nativeFind (String c t) = false).
  { unfold fallback. destruct (find win) as [nativeFind |]; [| discriminate].
    destruct (nativeFind (String c t)) eqn:N; [discriminate |].
    intros H. injection H as <-. split; [reflexivity |]. now exists nativeFind. }
  destruct (findText (String c t) bc body) as [[c' d] |] eqn:E.
  - exfalso. apply findText_below in E.
    unfold bodyOf in B. destruct root as [d0 | t0 a0 ch0]; [discriminate |].
    destruct (String.eqb t0 "html"); [| discriminate].
    apply bodyAmong_down in B. destruct B as [l [r ->]].
    destruct E as [-> | [t1 [a1 [l1 [up [r1 ->]]]]]]; discriminate HI.
  - apply F in HI. destruct HI as [-> [nativeFind [H1 H2]]].
    split; [reflexivity |]. split; [discriminate |].
    exists root, bc, body, nativeFind. repeat split; try assumption.
    now apply (findText_complete _ _ bc).
Qed.

Lemma not_found_notice_is_justified_witness :
  forallb (fun p => negb (JS.includes (textContents p) (JS.trim "nonexistent phrase xyz")))
    [[Text "Hello world. The sky is blue today."]] = true /\
  JS.trim "nonexistent phrase xyz" <> "".
Proof.
  destruct (not_found_notice_is_justified "nonexistent phrase xyz"
              [[Text "Hello world. The sky is blue today."]]
              (browser "Hello world. The sky is blue today.") _ _ eq_refl eq_refl)
    as [H1 [_ [_ [H4 _]]]].
  split; [exact H1 | exact H4].
Defined.

End AlarmFacts.

(** ** The captured word *)

Module WordFacts.
Import Types TextFacts.

Lemma finishLoadOf_selection (w : World) (url : string) (s : Direct.State) :
  Direct.selectedTextData (Direct.finishLoadOf w url s) = Direct.selectedTextData s.
Proof.
  unfold Direct.finishLoadOf, Direct.tryLoadOf.
  destruct (fetchHtml w url) as [html | e]; [| reflexivity].
  destruct (Extractor.extract _) as [text | e]; [| reflexivity].
  now destruct (analyzeArticle w text).
Qed.

(** No step of the host other than a context-menu event touches the
    captured selection. *)
Lemma step_selection (ev : Busy.Event) (sys : Busy.System) :
  Direct.selectedTextData (Busy.ui (Busy.step ev sys))
  = Direct.selectedTextData (Busy.ui sys).
Proof.
  unfold Busy.step.
  destruct (negb (Busy.available ev (Busy.ui sys))); [reflexivity |].
  destruct ev; cbn [Busy.withUi Busy.bubble Busy.ui];
    unfold Busy.started, Busy.settled; try reflexivity.
  - unfold Direct.beginLoad. now destruct (negb _).
  - unfold Busy.beginManualAnalyze. now destruct (negb _).
  - unfold Busy.beginSendMessage. now destruct (negb _).
  - unfold Busy.beginSendMessage. now destruct (negb _).
  - unfold Busy.beginAnalyzeImage. now destruct (Direct.selectedImage _).
  - unfold Busy.beginDefineWord.
    now destruct (Direct.selectedTextData (Direct.setContextMenuPos None (Busy.ui sys))).
  - destruct (Busy.settleOne _ _); [| reflexivity].
    cbn [Busy.withUi Busy.ui]. apply finishLoadOf_selection.
  - destruct (Busy.settleOne _ _); [| reflexivity]. now destruct r.
  - destruct (Busy.settleOne _ _); [| reflexivity]. now destruct r.
  - destruct (Busy.settleOne _ _); [| reflexivity]. now destruct r.
  - destruct (Busy.settleOne _ _); [| reflexivity]. now destruct r.
Qed.

(** X28: The word handed to [defineWord] is never blank.  The component starts
    without a captured selection; a context-menu event captures the trimmed
    selection, and only when that is not empty; and no other step of the
    host changes what was captured. *)
Theorem captured_word_is_never_blank :
  Session.wordIsClean (Direct.selectedTextData Direct.initialState) /\
  Session.wordIsClean (Iframe.selectedTextData Iframe.initialState) /\
  (forall e selection s,
     Session.wordIsClean (Direct.selectedTextData s) ->
     Session.wordIsClean
       (Direct.selectedTextData (fst (Direct.handleContextMenu e selection s)))) /\
  (forall rect e selection s,
     Session.wordIsClean (Iframe.selectedTextData s) ->
     Session.wordIsClean
       (Iframe.selectedTextData (fst (Iframe.handleIframeContextMenu rect e selection s)))) /\
  (forall ev sys,
     Session.wordIsClean (Direct.selectedTextData (Busy.ui sys)) ->
     Session.wordIsClean (Direct.selectedTextData (Busy.ui (Busy.step ev sys)))).
Proof.
  split; [exact I |]. split; [exact I |]. split; [| split].
  - intros e [sel |] s H; [| exact H]. unfold Direct.handleContextMenu.
    destruct (JS.trim (toString sel)) as [| c t] eqn:T; [exact H |].
    cbn [Nat.eqb String.length fst Direct.selectedTextData Direct.setContextMenuPos
         Direct.setSelectedTextData].
    split; [discriminate | cbn [selWord]; rewrite <- T; apply trim_idem].
  - intros rect e [sel |] s H; [| exact H]. unfold Iframe.handleIframeContextMenu.
    cbn [option_map].
    destruct (JS.trim (toString sel)) as [| c t] eqn:T; [exact H |].
    cbn [JS.truthy Nat.ltb Nat.leb String.length andb fst Iframe.selectedTextData
         Iframe.setContextMenuPos Iframe.setSelectedTextData].
    split; [discriminate | cbn [selWord]; rewrite <- T; apply trim_idem].
  - intros ev sys H. now rewrite step_selection.
Qed.

End WordFacts.

(** ** A reply that arrives during a load *)

Module RaceFacts.
Import Types Direct Busy.

Lemma sameClass_other (t x t' : Task) :
  sameClass t x = true -> sameClass t t' = false -> sameClass t' x = false.
Proof. destruct t, x, t'; intros H1 H2; try reflexivity; discriminate. Qed.

(** Settling a request leaves the requests of the other classes in
    flight. *)
Lemma settleOne_keeps (t t' : Task) (l rest : list Task) :
  settleOne t l = Some rest -> sameClass t t' = false ->
  existsb (sameClass t') rest = existsb (sameClass t') l.
Proof.
  intros H N. revert rest H. induction l as [| x l IH]; intros rest H; [discriminate |].
  cbn [settleOne] in H. destruct (sameClass t x) eqn:E.
  - injection H as <-. cbn [existsb]. now rewrite (sameClass_other t x t' E N).
  - destruct (settleOne t l) as [r |]; [| discriminate]. injection H as <-.
    cbn [existsb]. now rewrite (IH r eq_refl).
Qed.

Lemma settleOne_in (t : Task) (l : list Task) :
  existsb (sameClass t) l = true -> settleOne t l <> None.
Proof.
  induction l as [| x l IH]; [discriminate |]. cbn [existsb settleOne].
  destruct (sameClass t x); [discriminate |]. cbn [orb]. intros H.
  destruct (settleOne t l); [discriminate | now elim (IH H)].
Qed.

(** The click on the send button, for an input that is not blank. *)
Lemma step_ClickSend (now : N) (sys : System) :
  available (ClickSend now) (ui sys) = true ->
  JS.trim (chatInput (ui sys)) <> "" ->
  step (ClickSend now) sys
  = {| ui := setContextMenuPos None
               (setLoadingState CHATTING
                  (setChatInput ""
                     (setChatHistory
                        (chatHistory (ui sys) ++ [Chat.userMessage now (ui sys)])%list
                        (ui sys))));
       inFlight := (inFlight sys ++ [ChatTask])%list;
       alerts := alerts sys |}.
Proof.
  intros A H. unfold step. rewrite A. cbn [negb].
  rewrite (ChatFacts.beginSendMessage_some now (ui sys) H).
  unfold started, bubble. cbn [ui inFlight alerts]. reflexivity.
Qed.

Lemma step_settled (ev : Event) (t : Task) (f : System -> System) (sys : System) :
  available ev (ui sys) = true ->
  (forall s, step ev s = if negb (available ev (ui s)) then s else settled t f s) ->
  existsb (sameClass t) (inFlight sys) = true ->
  exists rest,
    settleOne t (inFlight sys) = Some rest /\
    step ev sys = f {| ui := ui sys; inFlight := rest; alerts := alerts sys |}.
Proof.
  intros A E H. rewrite E, A. cbn [negb]. unfold settled.
  destruct (settleOne t (inFlight sys)) as [rest |] eqn:S.
  - now exists rest.
  - now apply settleOne_in in H.
Qed.

(** X29: A reply that arrives during a load lands in the chat of the new
    article.  When a question is sent and the load button is clicked before
    the reply has arrived, the load empties the chat at the click, the
    reply is appended to the emptied chat, and the load does not clear it
    again: at the end of the load the chat consists of the reply to the
    question about the earlier article, without the question. *)
Theorem late_reply_lands_in_the_emptied_chat
  (now later : N) (reply : string) (w : World) (sys : System) :
  available (ClickSend now) (ui sys) = true ->
  JS.trim (chatInput (ui sys)) <> "" ->
  urlInput (ui sys) <> "" ->
  let atClick := run [ClickSend now; ClickLoad] sys in
  let atEnd := run (Session.replyDuringLoad now later reply (urlInput (ui sys)) w) sys in
  chatHistory (ui atClick) = [] /\
  chatHistory (ui atEnd)
  = [{| msgId := decimal (later + 1); role := model; text := reply; timestamp := later |}] /\
  loadingState (ui atEnd) = IDLE.
Proof.
  intros A H U. cbv zeta. unfold Session.replyDuringLoad, run. cbn [fold_left].
  rewrite (step_ClickSend now sys A H).
  set (s1 := setContextMenuPos None _).
  assert (U1 : urlInput s1 = urlInput (ui sys)) by reflexivity.
  rewrite LoadFacts.step_ClickLoad by (cbn [ui]; now rewrite U1).
  cbn [ui inFlight alerts]. rewrite U1.
  split; [reflexivity |].
  set (s2 := setContextMenuPos None (clearArticle s1)).
  set (sys2 := {| ui := s2; inFlight := _; alerts := _ |}).
  destruct (step_settled (ChatSettled later (Ok reply)) ChatTask
              (withUi (finishSendMessage later (Ok reply))) sys2 eq_refl
              (fun _ => eq_refl)) as [rest [S ->]].
  { unfold sys2. cbn [inFlight]. rewrite !existsb_app. cbn [existsb sameClass].
    now rewrite !orb_true_r. }
  set (sys3 := withUi _ _).
  destruct (step_settled (LoadSettled (urlInput (ui sys)) w) (LoadTask (urlInput (ui sys)))
              (withUi (finishLoadOf w (urlInput (ui sys)))) sys3 eq_refl
              (fun _ => eq_refl)) as [rest' [S' ->]].
  { unfold sys3. cbn [withUi inFlight].
    rewrite (settleOne_keeps ChatTask (LoadTask (urlInput (ui sys))) _ rest S eq_refl).
    unfold sys2. cbn [inFlight]. rewrite !existsb_app. cbn [existsb sameClass].
    now rewrite !orb_true_r. }
  cbn [withUi ui].
  destruct (SessionFacts.finishLoadOf_fields w (urlInput (ui sys)) (ui sys3)) as [L [C _]].
  rewrite L, C. split; reflexivity.
Qed.

Lemma late_reply_lands_in_the_emptied_chat_witness :
  chatHistory
    (ui (run (Session.replyDuringLoad 1000 2000 "It is about trains."
                "https://example.com/post" Examples.online)
           (withUi (fun s => setChatInput "What is the earlier article about?"
                               (setActiveTab chatTab s))
              (Session.reading "https://example.com/post"))))
  = [{| msgId := "2001"; role := model; text := "It is about trains.";
        timestamp := 2000 |}].
Proof.
  apply (late_reply_lands_in_the_emptied_chat 1000 2000 "It is about trains."
           Examples.online
           (withUi (fun s => setChatInput "What is the earlier article about?"
                               (setActiveTab chatTab s))
              (Session.reading "https://example.com/post"))).
  - reflexivity.
  - discriminate.
  - discriminate.
Defined.

End RaceFacts.
